(** * qubesadmin: remote property access, verified against [qubesadmin/base.py]
      and [qubesadmin/features.py]

    The development is a shallow embedding of the client-side proxy layer:
    - the response framing and typed-value decoding of [PropertyHolder],
    - the property cache and the attribute hooks [__getattr__],
      [__setattr__], [__delattr__],
    - the named-object directory [WrapperObjectsCollection],
    - the feature setter [Features.__setitem__].

    Python [bytes] and [str] are both carried by Rocq's [string] (a list of
    8-bit characters).  A [str] is represented by its UTF-8 encoding, so
    [bytes.decode] is a well-formedness check followed by the identity and
    [str.encode] is the identity.  Stateful methods run in a small
    state-and-exception monad in which a raised exception keeps the
    mutations performed before it, as in Python. *)

From Stdlib Require Import String Ascii List Bool Arith NArith ZArith Lia.
From Stdlib Require Import DecimalString.
Import ListNotations.
Local Open Scope string_scope.
Local Open Scope list_scope.

(** ** Python byte strings and text *)

Module PyStr.

Definition bytes := string.
Definition str := string.

Definition NUL : ascii := "000"%char.
Definition LF : ascii := "010"%char.
Definition CR : ascii := "013"%char.
Definition SP : ascii := " "%char.
Definition BSL : ascii := "\"%char.

Definition in_range (lo hi : N) (c : ascii) : bool :=
  ((lo <=? N_of_ascii c) && (N_of_ascii c <=? hi))%N.

(** [b.decode('ascii')]: every byte below 128. *)
Fixpoint is_ascii (b : bytes) : bool :=
  match b with
  | EmptyString => true
  | String c r => in_range 0 127 c && is_ascii r
  end.

Definition decode_ascii (b : bytes) : option str :=
  if is_ascii b then Some b else None.

(** [b.decode()] / [b.decode('utf-8')]: the strict decoder accepts exactly
    the well-formed sequences (no overlong forms, no surrogates, nothing
    above U+10FFFF). *)
Definition cont (c : ascii) : bool := in_range 128 191 c.

Definition second_of_three (c0 c1 : ascii) : bool :=
  if in_range 224 224 c0 then in_range 160 191 c1
  else if in_range 237 237 c0 then in_range 128 159 c1
  else cont c1.

Definition second_of_four (c0 c1 : ascii) : bool :=
  if in_range 240 240 c0 then in_range 144 191 c1
  else if in_range 244 244 c0 then in_range 128 143 c1
  else cont c1.

Fixpoint utf8_valid (b : bytes) : bool :=
  match b with
  | EmptyString => true
  | String c0 r0 =>
    if in_range 0 127 c0 then utf8_valid r0 else
    match r0 with
    | EmptyString => false
    | String c1 r1 =>
      if in_range 194 223 c0 then cont c1 && utf8_valid r1 else
      match r1 with
      | EmptyString => false
      | String c2 r2 =>
        if in_range 224 239 c0
        then second_of_three c0 c1 && cont c2 && utf8_valid r2 else
        match r2 with
        | EmptyString => false
        | String c3 r3 =>
          in_range 240 244 c0 && second_of_four c0 c1 && cont c2 && cont c3
          && utf8_valid r3
        end
      end
    end
  end.

Definition decode_utf8 (b : bytes) : option str :=
  if utf8_valid b then Some b else None.

(** [s.encode()] / [s.encode('utf-8')] on the UTF-8 representation. *)
Definition encode_utf8 (s : str) : bytes := s.

(** [s[:n]] and [s[n:]] for [0 <= n]. *)
Fixpoint slice_to (n : nat) (s : string) : string :=
  match n, s with
  | S n', String c r => String c (slice_to n' r)
  | _, _ => EmptyString
  end.

Fixpoint slice_from (n : nat) (s : string) : string :=
  match n, s with
  | S n', String _ r => slice_from n' r
  | _, _ => s
  end.

(** [s.startswith(p)] and [s.endswith(p)]. *)
Definition startswith (p s : string) : bool := String.prefix p s.

Definition endswith (p s : string) : bool :=
  (String.length p <=? String.length s)%nat
  && String.eqb (slice_from (String.length s - String.length p) s) p.

(** The first occurrence of a one-byte separator: the text before it and
    the text after it. *)
Fixpoint cut (sep : ascii) (s : string) : option (string * string) :=
  match s with
  | EmptyString => None
  | String c r =>
    if Ascii.eqb c sep then Some (EmptyString, r)
    else match cut sep r with
         | Some (before, after) => Some (String c before, after)
         | None => None
         end
  end.

(** [s.split(sep, maxsplit)] for a one-byte [sep]: at most [maxsplit]
    cuts, from the left. *)
Fixpoint split_max (sep : ascii) (maxsplit : nat) (s : string) : list string :=
  match maxsplit with
  | O => [s]
  | S n =>
    match cut sep s with
    | None => [s]
    | Some (before, after) => before :: split_max sep n after
    end
  end.

(** [s.split(sep)]: no bound on the number of cuts (a string has fewer
    separators than its length plus one). *)
Definition split (sep : ascii) (s : string) : list string :=
  split_max sep (String.length s) s.

(** [splitlines()] relative to a set of one-character line boundaries;
    carriage return followed by line feed counts as one boundary.  [cur] is
    the line being accumulated, in reverse. *)
Fixpoint rev_string (acc s : string) : string :=
  match s with
  | EmptyString => acc
  | String c r => rev_string (String c acc) r
  end.

Fixpoint splitlines_from (brk : ascii -> bool) (cur : string) (s : string)
  : list string :=
  match s with
  | EmptyString =>
    match cur with
    | EmptyString => []
    | _ => [rev_string EmptyString cur]
    end
  | String c r =>
    if Ascii.eqb c CR then
      match r with
      | String c' r' =>
        if Ascii.eqb c' LF
        then rev_string EmptyString cur :: splitlines_from brk EmptyString r'
        else rev_string EmptyString cur :: splitlines_from brk EmptyString r
      | EmptyString => [rev_string EmptyString cur]
      end
    else if brk c
    then rev_string EmptyString cur :: splitlines_from brk EmptyString r
    else splitlines_from brk (String c cur) r
  end.

(** [bytes.splitlines()]: line feed, carriage return, and the pair. *)
Definition bytes_linebreak (c : ascii) : bool := Ascii.eqb c LF.

Definition bytes_splitlines (b : bytes) : list bytes :=
  splitlines_from bytes_linebreak EmptyString b.

(** [str.splitlines()] on ASCII text (the only text it is applied to here,
    after [decode('ascii')]): also vertical tab, form feed and the file,
    group and record separators. *)
Definition str_linebreak (c : ascii) : bool :=
  Ascii.eqb c LF || in_range 11 12 c || in_range 28 30 c.

Definition str_splitlines (s : str) : list str :=
  splitlines_from str_linebreak EmptyString s.

(** [x in l] for a list of strings. *)
Definition mem (x : string) (l : list string) : bool :=
  existsb (String.eqb x) l.

(** [int(s)] on ASCII text: surrounding whitespace, an optional sign,
    decimal digits with single underscores between them, and the default
    limit of 4300 digits.  Decimal digits outside ASCII, which [int] also
    accepts, are not covered. *)
Definition is_space (c : ascii) : bool :=
  in_range 9 13 c || in_range 28 32 c.

Definition is_digit (c : ascii) : bool := in_range 48 57 c.

Definition digit_val (c : ascii) : Z := Z.of_N (N_of_ascii c) - 48.

Fixpoint lstrip (s : string) : string :=
  match s with
  | String c r => if is_space c then lstrip r else s
  | EmptyString => s
  end.

Fixpoint all_space (s : string) : bool :=
  match s with
  | EmptyString => true
  | String c r => is_space c && all_space r
  end.

(** Digits after the first one: [prev_us] tells whether the previous
    character was an underscore; [n] counts the digits seen. *)
Fixpoint digits_from (acc : Z) (n : nat) (prev_us : bool) (s : string)
  : option (Z * nat) :=
  match s with
  | EmptyString => if prev_us then None else Some (acc, n)
  | String c r =>
    if is_digit c then digits_from (10 * acc + digit_val c) (S n) false r
    else if Ascii.eqb c "_" then
      if prev_us then None else digits_from acc n true r
    else if prev_us then None
    else if all_space s then Some (acc, n) else None
  end.

Definition unsigned_int (s : string) : option Z :=
  match s with
  | String c r =>
    if is_digit c then
      match digits_from (digit_val c) 1 false r with
      | Some (v, n) => if (4300 <? n)%nat then None else Some v
      | None => None
      end
    else None
  | EmptyString => None
  end.

Definition py_int (s : str) : option Z :=
  match lstrip s with
  | String c r =>
    if Ascii.eqb c "-" then option_map Z.opp (unsigned_int r)
    else if Ascii.eqb c "+" then unsigned_int r
    else unsigned_int (String c r)
  | EmptyString => None
  end.

(** [str(n)] for an integer. *)
Definition str_of_int (n : Z) : str := NilZero.string_of_int (Z.to_int n).

(** [s.encode('ascii')]: [None] where it raises [UnicodeEncodeError]. *)
Definition encode_ascii (s : str) : option bytes :=
  if is_ascii s then Some s else None.

(** [str.splitlines()] on text in its UTF-8 representation: the ASCII
    boundaries of [str_linebreak], and the encoded forms of U+0085 (next
    line), U+2028 and U+2029 (line and paragraph separator). *)
Fixpoint text_splitlines_from (cur : string) (s : string) : list string :=
  match s with
  | EmptyString =>
    match cur with
    | EmptyString => []
    | _ => [rev_string EmptyString cur]
    end
  | String c r =>
    if Ascii.eqb c CR then
      match r with
      | String c' r' =>
        if Ascii.eqb c' LF
        then rev_string EmptyString cur :: text_splitlines_from EmptyString r'
        else rev_string EmptyString cur :: text_splitlines_from EmptyString r
      | EmptyString => [rev_string EmptyString cur]
      end
    else if str_linebreak c
    then rev_string EmptyString cur :: text_splitlines_from EmptyString r
    else
      match r with
      | String c1 r1 =>
        if Ascii.eqb c "194" && Ascii.eqb c1 "133"
        then rev_string EmptyString cur :: text_splitlines_from EmptyString r1
        else
          match r1 with
          | String c2 r2 =>
            if Ascii.eqb c "226" && Ascii.eqb c1 "128" && in_range 168 169 c2
            then rev_string EmptyString cur
                 :: text_splitlines_from EmptyString r2
            else text_splitlines_from (String c cur) r
          | EmptyString => text_splitlines_from (String c cur) r
          end
      | EmptyString => text_splitlines_from (String c cur) r
      end
  end.

Definition text_splitlines (s : str) : list str :=
  text_splitlines_from EmptyString s.

(** [a < b] on text: code point order, which the UTF-8 representation
    keeps byte by byte. *)
Definition str_lt (a b : str) : bool := String.ltb a b.

End PyStr.
Import PyStr.

(** ** Exceptions and results *)

Module Exc.

(** The exception classes the modelled code names, and [OtherClass] for
    any other class reachable by name. *)
Inductive exc_class : Type :=
| AttributeError
| AssertionError
| ValueError
| KeyError
| IndexError
| UnicodeDecodeError
| QubesException
| QubesDaemonAccessError
| QubesDaemonNoResponseError
| QubesDaemonCommunicationError
| QubesVMNotFoundError
| QubesPropertyAccessError
| OtherClass (name : str).

(** A raised exception: its class and the positional arguments it was
    constructed with ([raise C] without a call has none). *)
Record exn : Type := Exn { exn_class : exc_class; exn_args : list str }.

Inductive Result (A : Type) : Type :=
| Return (a : A)
| Raise (e : exn).
Arguments Return {A} a.
Arguments Raise {A} e.

Definition exc_class_eqb (a b : exc_class) : bool :=
  match a, b with
  | AttributeError, AttributeError
  | AssertionError, AssertionError
  | ValueError, ValueError
  | KeyError, KeyError
  | IndexError, IndexError
  | UnicodeDecodeError, UnicodeDecodeError
  | QubesException, QubesException
  | QubesDaemonAccessError, QubesDaemonAccessError
  | QubesDaemonNoResponseError, QubesDaemonNoResponseError
  | QubesDaemonCommunicationError, QubesDaemonCommunicationError
  | QubesVMNotFoundError, QubesVMNotFoundError
  | QubesPropertyAccessError, QubesPropertyAccessError => true
  | OtherClass x, OtherClass y => String.eqb x y
  | _, _ => false
  end.

(** What the code takes from [qubesadmin/exc.py] and from the
    interpreter, neither of which the modelled files define:
    - [exc_getattr name] is [getattr(qubesadmin.exc, name)], [None] where
      that raises [AttributeError];
    - [builtins_get name] is [__builtins__.get(name)];
    - [subclass c d] tells whether class [c] is a proper subclass of, or
      another name for, class [d]. *)
Class ExcModule : Type := {
  exc_getattr : str -> option exc_class;
  builtins_get : str -> option exc_class;
  subclass : exc_class -> exc_class -> bool
}.

(** [isinstance(e, d)], as an [except d] clause tests it. *)
Definition isinstance `{ExcModule} (e : exn) (d : exc_class) : bool :=
  exc_class_eqb (exn_class e) d || subclass (exn_class e) d.

(** [except (d1, ..., dn)] *)
Definition caught_by `{ExcModule} (handlers : list exc_class) (e : exn) : bool :=
  existsb (isinstance e) handlers.

(** State and exceptions: a computation maps a state to a result and the
    state it leaves, also when it raises. *)
Definition M (St A : Type) : Type := St -> Result A * St.

Definition ret {St A} (a : A) : M St A := fun s => (Return a, s).

Definition raise {St A} (c : exc_class) (args : list str) : M St A :=
  fun s => (Raise (Exn c args), s).

Definition bind {St A B} (m : M St A) (k : A -> M St B) : M St B :=
  fun s =>
    match m s with
    | (Return a, s') => k a s'
    | (Raise e, s') => (Raise e, s')
    end.

Definition gets {St A} (f : St -> A) : M St A := fun s => (Return (f s), s).

Definition modify {St} (f : St -> St) : M St unit := fun s => (Return tt, f s).

(** [try: m  except handlers: k] *)
Definition try_except `{ExcModule} {St A}
  (m : M St A) (handlers : list exc_class) (k : M St A) : M St A :=
  fun s =>
    match m s with
    | (Return a, s') => (Return a, s')
    | (Raise e, s') => if caught_by handlers e then k s' else (Raise e, s')
    end.

(** [assert b] *)
Definition assert {St} (b : bool) : M St unit :=
  if b then ret tt else raise AssertionError [].

(** A pure computation that may raise, run in any state. *)
Definition lift {St A} (r : Result A) : M St A := fun s => (r, s).

(** A computation on a component of the state. *)
Definition zoom {St T A} (proj : St -> T) (inj : T -> St -> St)
  (m : M T A) : M St A :=
  fun s => let (r, t) := m (proj s) in (r, inj t s).

Definition res_bind {A B} (r : Result A) (k : A -> Result B) : Result B :=
  match r with
  | Return a => k a
  | Raise e => Raise e
  end.

(** [b.decode(...)] raising [UnicodeDecodeError]. *)
Definition decoded (o : option str) : Result str :=
  match o with
  | Some s => Return s
  | None => Raise (Exn UnicodeDecodeError [])
  end.

(** [[f(x) for x in l]] where [f] may raise. *)
Fixpoint res_map {A B} (f : A -> Result B) (l : list A) : Result (list B) :=
  match l with
  | [] => Return []
  | x :: r =>
    res_bind (f x) (fun y => res_bind (res_map f r) (fun ys => Return (y :: ys)))
  end.

(** [try: m  except handlers as e: k(e)] *)
Definition try_catch `{ExcModule} {St A}
  (m : M St A) (handlers : list exc_class) (k : exn -> M St A) : M St A :=
  fun s =>
    match m s with
    | (Return a, s') => (Return a, s')
    | (Raise e, s') => if caught_by handlers e then k e s' else (Raise e, s')
    end.

(** [raise] of an exception already built. *)
Definition reraise {St A} (e : exn) : M St A := fun s => (Raise e, s).

(** [[f(x) for x in l]] where [f] runs in the state. *)
Fixpoint mapM {St A B} (f : A -> M St B) (l : list A) : M St (list B) :=
  match l with
  | [] => fun s => (Return [], s)
  | x :: r =>
    bind (f x) (fun y => bind (mapM f r) (fun ys => ret (y :: ys)))
  end.

(** [s.encode('ascii')] raising [UnicodeEncodeError]. *)
Definition encoded (o : option bytes) : Result bytes :=
  match o with
  | Some b => Return b
  | None => Raise (Exn (OtherClass "UnicodeEncodeError") [])
  end.

End Exc.
Import Exc.

Declare Scope py_scope.
Delimit Scope py_scope with py.
Notation "x <- m ;; k" := (bind m (fun x => k))
  (at level 61, m at next level, right associativity) : py_scope.
Notation "m ;; k" := (bind m (fun _ => k))
  (at level 61, right associativity) : py_scope.
Notation "x <~ r ;; k" := (res_bind r (fun x => k))
  (at level 61, r at next level, right associativity) : py_scope.
Local Open Scope py_scope.

(** ** The response codec of [PropertyHolder] *)

Module Codec.

Section WithExc.
Context `{ExcModule}.

(** The [try: getattr(qubesadmin.exc, exc_type)  except AttributeError: ...]
    block of [_parse_qubesd_response]. *)
Definition exc_class_named (exc_type : str) : exc_class :=
  match exc_getattr exc_type with
  | Some c => c
  | None =>
    if endswith "Error" exc_type then
      match builtins_get exc_type with
      | Some c => c
      | None => QubesException
      end
    else QubesException
  end.

(** [PropertyHolder._parse_qubesd_response] (static). *)
Definition _parse_qubesd_response (response_data : bytes) : Result bytes :=
  if String.eqb response_data "" then
    Raise (Exn QubesDaemonAccessError
      ["Got empty response from qubesd. See journalctl in dom0 for details."])
  else if String.eqb (slice_to 2 response_data) (String "0" (String NUL "")) then
    Return (slice_from 2 response_data)
  else if String.eqb (slice_to 2 response_data) (String "2" (String NUL "")) then
    match split_max NUL 4 response_data with
    | [_; exc_type; _traceback; format_string; args] =>
      args <~ res_map (fun arg => decoded (decode_utf8 arg))
                (removelast (split NUL args)) ;;
      format_string <~ decoded (decode_utf8 format_string) ;;
      exc_type <~ decoded (decode_ascii exc_type) ;;
      let exc_class := exc_class_named exc_type in
      Raise (Exn exc_class (format_string :: args))
    | _ => Raise (Exn ValueError [])
    end
  else
    Raise (Exn QubesDaemonCommunicationError ["Invalid response format"]).

End WithExc.

(** The generator [unescape] nested in
    [PropertyHolder._fetch_all_properties], consumed by [bytes(...)]:
    [escaped] is the generator's flag, the result is the byte string built
    from the yielded codes, or the exception raised on the way. *)
Fixpoint unescape_from (escaped : bool) (line : bytes) : Result bytes :=
  match line with
  | EmptyString =>
    if escaped then Raise (Exn AssertionError []) else Return EmptyString
  | String char rest =>
    if escaped then
      if negb (Ascii.eqb char "n" || Ascii.eqb char BSL) then
        Raise (Exn AssertionError [])
      else if Ascii.eqb char "n" then
        out <~ unescape_from false rest ;; Return (String LF out)
      else if Ascii.eqb char BSL then
        Raise (Exn ValueError [])
      else unescape_from false rest
    else if Ascii.eqb char BSL then unescape_from true rest
    else out <~ unescape_from false rest ;; Return (String char out)
  end.

Definition unescape (line : bytes) : Result bytes := unescape_from false line.

End Codec.
Import Codec.

(** ** Wire formats of the daemon's replies *)

Module Wire.

(** A string free of a given byte. *)
Fixpoint free_of (sep : ascii) (s : string) : bool :=
  match s with
  | EmptyString => true
  | String c r => negb (Ascii.eqb c sep) && free_of sep r
  end.

(** The arguments of an error frame: each followed by one NUL. *)
Fixpoint nul_terminated (args : list string) : string :=
  match args with
  | [] => EmptyString
  | a :: r => (a ++ String NUL (nul_terminated r))%string
  end.


(** The error frame: the byte 0x32, NUL, then the exception type, the
    traceback and the format string, each followed by NUL, then the
    arguments, each followed by NUL. *)
Definition error_frame (exc_type traceback format_string : bytes)
  (args : list bytes) : bytes :=
  String "2" (String NUL
    (exc_type ++ String NUL
      (traceback ++ String NUL
        (format_string ++ String NUL (nul_terminated args)))))%string.

End Wire.
Import Wire.

(** ** Objects, dictionaries and the application object *)

Module Model.

(** The two wrapper classes the directories of an application hand out. *)
Inductive object_class : Type := QubesVM | Label.

(** A wrapper object: [obj_id] is its identity (two wrappers are the same
    Python object exactly when their identities agree), [obj_name] its
    [name] attribute. *)
Record NamedObject : Type := {
  obj_id : nat;
  obj_class : object_class;
  obj_name : str
}.

(** The values a property holds locally.  [VAttributeError] is the class
    object [AttributeError], the cache's marker for an absent value. *)
Inductive Value : Type :=
| VStr (s : str)
| VBool (b : bool)
| VInt (n : Z)
| VNone
| VObj (o : NamedObject)
| VAttributeError.

(** [str(value)].  [Label.__str__] returns the label's name; the same is
    taken for a VM wrapper, whose class is outside the modelled files. *)
Definition py_str (v : Value) : str :=
  match v with
  | VStr s => s
  | VBool true => "True"
  | VBool false => "False"
  | VInt n => str_of_int n
  | VNone => "None"
  | VObj o => obj_name o
  | VAttributeError => "<class 'AttributeError'>"
  end.

(** A Python [dict] keyed by [str]: bindings in insertion order. *)
Definition dict (V : Type) : Type := list (str * V).

Fixpoint dict_get {V} (k : str) (d : dict V) : option V :=
  match d with
  | [] => None
  | (k', v) :: r => if String.eqb k k' then Some v else dict_get k r
  end.

Definition dict_mem {V} (k : str) (d : dict V) : bool :=
  match dict_get k d with Some _ => true | None => false end.

(** [d[k] = v]: an existing key keeps its place, a new one goes last. *)
Fixpoint dict_set {V} (k : str) (v : V) (d : dict V) : dict V :=
  match d with
  | [] => [(k, v)]
  | (k', v') :: r =>
    if String.eqb k k' then (k, v) :: r else (k', v') :: dict_set k v r
  end.

(** [del d[k]] / [d.pop(k, None)] *)
Fixpoint dict_del {V} (k : str) (d : dict V) : dict V :=
  match d with
  | [] => []
  | (k', v') :: r =>
    if String.eqb k k' then dict_del k r else (k', v') :: dict_del k r
  end.

Definition dict_keys {V} (d : dict V) : list str := map fst d.

(** [not d] *)
Definition dict_is_empty {V} (d : dict V) : bool :=
  match d with [] => true | _ => false end.

(** One call handed to the transport: [app.qubesd_call(dest, method, arg,
    payload)].  No modelled caller passes a payload stream. *)
Record Call : Type := {
  call_dest : str;
  call_method : str;
  call_arg : option str;
  call_payload : option bytes
}.

(** The transport and the daemon behind it, which the modelled files only
    call: a daemon state and the outcome of one call on it. *)
Class Transport : Type := {
  daemon : Type;
  transport_call : Call -> daemon -> Result bytes * daemon
}.

Section WithTransport.
Context `{Transport}.

(** The application object, as far as the modelled code reads it:
    [default_dispvm] is the name of the VM that
    [getattr(self.app, "default_dispvm", None)] evaluates to, [next_id] the
    identity the next constructed wrapper receives, [call_log] the calls
    issued so far, oldest first. *)
Record App : Type := {
  cache_enabled : bool;
  blind_mode : bool;
  default_dispvm : option str;
  next_id : nat;
  remote : daemon;
  call_log : list Call
}.

(** The application after call [c] left the daemon in state [d]. *)
Definition logged (c : Call) (d : daemon) (a : App) : App :=
  {| cache_enabled := cache_enabled a;
     blind_mode := blind_mode a;
     default_dispvm := default_dispvm a;
     next_id := next_id a;
     remote := d;
     call_log := call_log a ++ [c] |}.

(** [self.app.qubesd_call(dest, method, arg, payload)] *)
Definition app_qubesd_call (c : Call) : M App bytes :=
  fun a =>
    let (r, d) := transport_call c (remote a) in (r, logged c d a).

(** [object_class(app, name)]: a fresh wrapper. *)
Definition construct (cls : object_class) (item : str) : M App NamedObject :=
  fun a =>
    (Return {| obj_id := next_id a; obj_class := cls; obj_name := item |},
     {| cache_enabled := cache_enabled a;
        blind_mode := blind_mode a;
        default_dispvm := default_dispvm a;
        next_id := S (next_id a);
        remote := remote a;
        call_log := call_log a |}).

End WithTransport.

End Model.
Import Model.

(** ** [WrapperObjectsCollection] *)

Module WrapperObjectsCollection.

Section WithRuntime.
Context `{ExcModule} `{Transport}.

Record Collection : Type := {
  _list_method : str;
  _object_class : object_class;
  _names_list : option (list str);
  _objects : dict NamedObject
}.

(** A collection together with the application it belongs to. *)
Record CollSt : Type := { self : Collection; app : App }.

Definition set_names_list (l : option (list str)) : M CollSt unit :=
  modify (fun s =>
    {| self := {| _list_method := _list_method (self s);
                  _object_class := _object_class (self s);
                  _names_list := l;
                  _objects := _objects (self s) |};
       app := app s |}).

Definition set_objects (d : dict NamedObject) : M CollSt unit :=
  modify (fun s =>
    {| self := {| _list_method := _list_method (self s);
                  _object_class := _object_class (self s);
                  _names_list := _names_list (self s);
                  _objects := d |};
       app := app s |}).

Definition in_app {A} (m : M App A) : M CollSt A :=
  zoom app (fun a s => {| self := self s; app := a |}) m.

(** [clear_cache(invalidate_name)] *)
Definition clear_cache (invalidate_name : option str) : M CollSt unit :=
  set_names_list None ;;
  match invalidate_name with
  | Some n =>
    if negb (String.eqb n "") then
      objs <- gets (fun s => _objects (self s)) ;;
      set_objects (dict_del n objs)
    else ret tt
  | None => ret tt
  end.

(** The eviction loop of [refresh_cache]: over a snapshot of the items,
    delete the key of every object whose name left the list. *)
Definition evict (names : list str) (items objs : dict NamedObject)
  : dict NamedObject :=
  fold_left
    (fun d (it : str * NamedObject) =>
       if negb (mem (obj_name (snd it)) names) then dict_del (fst it) d else d)
    items objs.

(** [s[-1]] *)
Fixpoint last_char (s : string) : option ascii :=
  match s with
  | EmptyString => None
  | String c EmptyString => Some c
  | String _ r => last_char r
  end.

(** [s[:-1]] *)
Fixpoint drop_last (s : string) : string :=
  match s with
  | EmptyString => EmptyString
  | String c EmptyString => EmptyString
  | String c r => String c (drop_last r)
  end.

(** [refresh_cache(force)] *)
Definition refresh_cache (force : bool) : M CollSt unit :=
  names <- gets (fun s => _names_list (self s)) ;;
  if negb force && match names with Some _ => true | None => false end
  then ret tt
  else
    list_method <- gets (fun s => _list_method (self s)) ;;
    list_data <- in_app (app_qubesd_call
      {| call_dest := "dom0"; call_method := list_method;
         call_arg := None; call_payload := None |}) ;;
    list_data <- lift (decoded (decode_ascii list_data)) ;;
    match last_char list_data with
    | None => raise IndexError []
    | Some c =>
      assert (Ascii.eqb c LF) ;;
      let names_list := str_splitlines (drop_last list_data) in
      set_names_list (Some names_list) ;;
      objs <- gets (fun s => _objects (self s)) ;;
      set_objects (evict names_list objs objs)
    end.

(** [get_blind(item)] *)
Definition get_blind (item : str) : M CollSt NamedObject :=
  objs <- gets (fun s => _objects (self s)) ;;
  match dict_get item objs with
  | Some o => ret o
  | None =>
    cls <- gets (fun s => _object_class (self s)) ;;
    o <- in_app (construct cls item) ;;
    objs <- gets (fun s => _objects (self s)) ;;
    set_objects (dict_set item o objs) ;;
    ret o
  end.

(** [item in self] *)
Definition __contains__ (item : str) : M CollSt bool :=
  refresh_cache false ;;
  names <- gets (fun s => _names_list (self s)) ;;
  match names with
  | None => raise AssertionError []
  | Some l => ret (mem item l)
  end.

(** [self[item]] *)
Definition __getitem__ (item : str) : M CollSt NamedObject :=
  blind <- gets (fun s => blind_mode (app s)) ;;
  absent <- (if negb blind
             then (present <- __contains__ item ;; ret (negb present))
             else ret false) ;;
  if absent then raise KeyError [item] else get_blind item.

(** [keys()] *)
Definition keys : M CollSt (list str) :=
  refresh_cache false ;;
  names <- gets (fun s => _names_list (self s)) ;;
  match names with
  | None => raise AssertionError []
  | Some l => ret l
  end.

(** [items()] *)
Definition items : M CollSt (list (str * NamedObject)) :=
  refresh_cache false ;;
  names <- gets (fun s => _names_list (self s)) ;;
  match names with
  | None => raise AssertionError []
  | Some l => mapM (fun key => o <- get_blind key ;; ret (key, o)) l
  end.

(** [values()] *)
Definition values : M CollSt (list NamedObject) :=
  refresh_cache false ;;
  names <- gets (fun s => _names_list (self s)) ;;
  match names with
  | None => raise AssertionError []
  | Some l => mapM get_blind l
  end.

End WithRuntime.

End WrapperObjectsCollection.

Module WOC := WrapperObjectsCollection.

Notation "' ( a , b ) <- m ;; k" := (bind m (fun ab => let '(a, b) := ab in k))
  (at level 61, a name, b name, m at next level, right associativity) : py_scope.

(** ** [PropertyHolder] *)

Module PropertyHolder.

Section WithRuntime.
Context `{ExcModule} `{Transport}.

(** The right-hand side of an attribute assignment: the sentinel
    [qubesadmin.DEFAULT] or a value. *)
Inductive Assigned : Type :=
| DEFAULT
| Plain (v : Value).

(** The instance state of a holder.  [_redirect_dispvm_calls] is what
    [getattr(self, "_redirect_dispvm_calls", False)] evaluates to,
    [_local_properties_set] the class-level names computed by
    [_local_properties()], [_dict] the remaining instance attributes. *)
Record Holder : Type := {
  _method_prefix : str;
  _method_dest : str;
  _redirect_dispvm_calls : bool;
  _local_properties_set : list str;
  _properties : option (list str);
  _properties_cache : dict (bool * Value);
  _dict : dict Assigned
}.

(** A holder with its application object and the two directories
    [app.domains] and [app.labels] of that application. *)
Record HolderSt : Type := {
  self : Holder;
  domains : WOC.Collection;
  labels : WOC.Collection;
  app : App
}.

Definition with_self (f : Holder -> Holder) : M HolderSt unit :=
  modify (fun s =>
    {| self := f (self s); domains := domains s; labels := labels s;
       app := app s |}).

Definition set_properties (l : option (list str)) : M HolderSt unit :=
  with_self (fun h =>
    {| _method_prefix := _method_prefix h;
       _method_dest := _method_dest h;
       _redirect_dispvm_calls := _redirect_dispvm_calls h;
       _local_properties_set := _local_properties_set h;
       _properties := l;
       _properties_cache := _properties_cache h;
       _dict := _dict h |}).

Definition set_properties_cache (d : dict (bool * Value)) : M HolderSt unit :=
  with_self (fun h =>
    {| _method_prefix := _method_prefix h;
       _method_dest := _method_dest h;
       _redirect_dispvm_calls := _redirect_dispvm_calls h;
       _local_properties_set := _local_properties_set h;
       _properties := _properties h;
       _properties_cache := d;
       _dict := _dict h |}).

Definition set_dict (d : dict Assigned) : M HolderSt unit :=
  with_self (fun h =>
    {| _method_prefix := _method_prefix h;
       _method_dest := _method_dest h;
       _redirect_dispvm_calls := _redirect_dispvm_calls h;
       _local_properties_set := _local_properties_set h;
       _properties := _properties h;
       _properties_cache := _properties_cache h;
       _dict := d |}).

Definition in_app {A} (m : M App A) : M HolderSt A :=
  zoom app
    (fun a s => {| self := self s; domains := domains s; labels := labels s;
                   app := a |}) m.

Definition in_domains {A} (m : M WOC.CollSt A) : M HolderSt A :=
  zoom (fun s => {| WOC.self := domains s; WOC.app := app s |})
    (fun c s => {| self := self s; domains := WOC.self c; labels := labels s;
                   app := WOC.app c |}) m.

Definition in_labels {A} (m : M WOC.CollSt A) : M HolderSt A :=
  zoom (fun s => {| WOC.self := labels s; WOC.app := app s |})
    (fun c s => {| self := self s; domains := domains s; labels := WOC.self c;
                   app := WOC.app c |}) m.

(** [clear_cache()] *)
Definition clear_cache : M HolderSt unit := set_properties_cache [].

(** [qubesd_call(dest, method, arg, payload)] *)
Definition qubesd_call (dest : option str) (method : str)
  (arg : option str) (payload : option bytes) : M HolderSt bytes :=
  dest <- match dest with
          | None => gets (fun s => _method_dest (self s))
          | Some d => ret d
          end ;;
  redirect <- gets (fun s => _redirect_dispvm_calls (self s)) ;;
  dest <- (if redirect && startswith "@dispvm" dest then
             if startswith "@dispvm:" dest
             then ret (slice_from (String.length "@dispvm:") dest)
             else
               vm <- gets (fun s => default_dispvm (app s)) ;;
               match vm with
               | None => raise AssertionError []
               | Some vm_name => ret vm_name
               end
           else ret dest) ;;
  in_app (app_qubesd_call
    {| call_dest := dest; call_method := method;
       call_arg := arg; call_payload := payload |}).

(** [_parse_type_value(prop_type, value)] *)
Definition _parse_type_value (prop_type value : bytes) : M HolderSt Value :=
  prop_type <- lift (decoded (decode_ascii prop_type)) ;;
  if negb (startswith "type=" prop_type) then
    raise QubesDaemonCommunicationError
      [("Invalid type prefix received: " ++ prop_type)%string]
  else
    match split_max "=" 1 prop_type with
    | [_; prop_type] =>
      value <- lift (decoded (decode_utf8 value)) ;;
      if String.eqb prop_type "str" then ret (VStr value)
      else if String.eqb prop_type "bool" then
        if String.eqb value "" then raise AttributeError []
        else ret (VBool (String.eqb value "True"))
      else if String.eqb prop_type "int" then
        if String.eqb value "" then raise AttributeError []
        else match py_int value with
             | Some n => ret (VInt n)
             | None => raise ValueError []
             end
      else if String.eqb prop_type "vm" then
        if String.eqb value "" then ret VNone
        else (o <- in_domains (WOC.get_blind value) ;; ret (VObj o))
      else if String.eqb prop_type "label" then
        if String.eqb value "" then ret VNone
        else (o <- in_labels (WOC.get_blind value) ;; ret (VObj o))
      else
        raise QubesDaemonCommunicationError
          [("Received invalid value type: " ++ prop_type)%string]
    | _ => raise ValueError []
    end.

(** [_deserialize_property(api_response)] *)
Definition _deserialize_property (api_response : bytes)
  : M HolderSt (bool * Value) :=
  match split_max SP 2 api_response with
  | [default; prop_type; value] =>
    assert (startswith "default=" default) ;;
    match nth_error (split "=" default) 1 with
    | None => raise IndexError []
    | Some is_default_str =>
      is_default_str <- lift (decoded (decode_ascii is_default_str)) ;;
      let is_default := String.eqb is_default_str "True" in
      value <- _parse_type_value prop_type value ;;
      ret (is_default, value)
    end
  | _ => raise ValueError []
  end.

(** The loop of [_fetch_all_properties] over the lines of the reply. *)
Fixpoint fetch_lines (lines : list bytes) : M HolderSt unit :=
  match lines with
  | [] => ret tt
  | line :: rest =>
    line_bytes <- lift (unescape line) ;;
    match split_max SP 1 line_bytes with
    | [name; property_str] =>
      name <- lift (decoded (decode_utf8 name)) ;;
      '(is_default, value) <- _deserialize_property property_str ;;
      cache <- gets (fun s => _properties_cache (self s)) ;;
      set_properties_cache (dict_set name (is_default, value) cache) ;;
      fetch_lines rest
    | _ => raise ValueError []
    end
  end.

(** [_fetch_all_properties()] *)
Definition _fetch_all_properties : M HolderSt unit :=
  dest <- gets (fun s => _method_dest (self s)) ;;
  prefix <- gets (fun s => _method_prefix (self s)) ;;
  reply <- try_except
             (b <- qubesd_call (Some dest) (prefix ++ "GetAll")%string None None ;;
              ret (Some b))
             [QubesDaemonNoResponseError]
             (ret None) ;;
  match reply with
  | None => ret tt
  | Some properties_str =>
    fetch_lines (bytes_splitlines properties_str) ;;
    cache <- gets (fun s => _properties_cache (self s)) ;;
    set_properties (Some (dict_keys cache))
  end.

(** The pre-fill step shared by [__getattr__] and [property_is_default]. *)
Definition prefill : M HolderSt unit :=
  enabled <- gets (fun s => cache_enabled (app s)) ;;
  cache <- gets (fun s => _properties_cache (self s)) ;;
  if enabled && dict_is_empty cache then _fetch_all_properties else ret tt.

(** [if value is AttributeError: raise AttributeError(item)
     return value] *)
Definition return_value (item : str) (value : Value) : M HolderSt Value :=
  match value with
  | VAttributeError => raise AttributeError [item]
  | _ => ret value
  end.

(** [item not in self._properties], when the list is known. *)
Definition not_listed (item : str) (props : option (list str)) : bool :=
  match props with
  | Some l => negb (mem item l)
  | None => false
  end.

(** [__getattr__(item)] *)
Definition __getattr__ (item : str) : M HolderSt Value :=
  if startswith "_" item then raise AttributeError [item] else
  prefill ;;
  cache <- gets (fun s => _properties_cache (self s)) ;;
  match dict_get item cache with
  | Some (_, value) => return_value item value
  | None =>
    props <- gets (fun s => _properties (self s)) ;;
    if not_listed item props then raise AttributeError [item] else
    dest <- gets (fun s => _method_dest (self s)) ;;
    prefix <- gets (fun s => _method_prefix (self s)) ;;
    property_str <- try_except
      (qubesd_call (Some dest) (prefix ++ "Get")%string (Some item) None)
      [QubesDaemonNoResponseError; QubesVMNotFoundError]
      (raise QubesPropertyAccessError [item]) ;;
    '(is_default, value) <- _deserialize_property property_str ;;
    enabled <- gets (fun s => cache_enabled (app s)) ;;
    (if enabled then
       cache <- gets (fun s => _properties_cache (self s)) ;;
       set_properties_cache (dict_set item (is_default, value) cache)
     else ret tt) ;;
    return_value item value
  end.

(** [property_is_default(item)] *)
Definition property_is_default (item : str) : M HolderSt bool :=
  if startswith "_" item then raise AttributeError [item] else
  prefill ;;
  cache <- gets (fun s => _properties_cache (self s)) ;;
  match dict_get item cache with
  | Some (is_default, _) => ret is_default
  | None =>
    props <- gets (fun s => _properties (self s)) ;;
    if not_listed item props then raise AttributeError [item] else
    dest <- gets (fun s => _method_dest (self s)) ;;
    prefix <- gets (fun s => _method_prefix (self s)) ;;
    property_str <- try_except
      (qubesd_call (Some dest) (prefix ++ "Get")%string (Some item) None)
      [QubesDaemonAccessError; QubesVMNotFoundError]
      (raise QubesPropertyAccessError [item]) ;;
    '(is_default, value) <- _deserialize_property property_str ;;
    enabled <- gets (fun s => cache_enabled (app s)) ;;
    (if enabled then
       cache <- gets (fun s => _properties_cache (self s)) ;;
       set_properties_cache (dict_set item (is_default, value) cache)
     else ret tt) ;;
    ret is_default
  end.

(** The coercions of [__setattr__] before [str(value)]: a VM wrapper
    becomes its name, [None] the empty string. *)
Definition wire_value (value : Value) : Value :=
  let value :=
    match value with
    | VObj o =>
      match obj_class o with QubesVM => VStr (obj_name o) | Label => value end
    | _ => value
    end in
  match value with
  | VNone => VStr ""
  | _ => value
  end.

(** [key.startswith('_') or key in self._local_properties()] *)
Definition is_local (key : str) : M HolderSt bool :=
  locals <- gets (fun s => _local_properties_set (self s)) ;;
  ret (startswith "_" key || mem key locals).

(** [__setattr__(key, value)] *)
Definition __setattr__ (key : str) (value : Assigned) : M HolderSt unit :=
  local <- is_local key ;;
  if local then
    d <- gets (fun s => _dict (self s)) ;;
    set_dict (dict_set key value d)
  else
    dest <- gets (fun s => _method_dest (self s)) ;;
    prefix <- gets (fun s => _method_prefix (self s)) ;;
    match value with
    | DEFAULT =>
      try_except
        (qubesd_call (Some dest) (prefix ++ "Reset")%string (Some key) None ;; ret tt)
        [QubesDaemonNoResponseError; QubesVMNotFoundError]
        (raise QubesPropertyAccessError [key])
    | Plain value =>
      let value := wire_value value in
      try_except
        (qubesd_call (Some dest) (prefix ++ "Set")%string (Some key)
           (Some (encode_utf8 (py_str value))) ;; ret tt)
        [QubesDaemonNoResponseError; QubesVMNotFoundError]
        (raise QubesPropertyAccessError [key])
    end.


(** [property_list()] *)
Definition property_list : M HolderSt (list str) :=
  props <- gets (fun s => _properties (self s)) ;;
  match props with
  | Some l => ret l
  | None =>
    dest <- gets (fun s => _method_dest (self s)) ;;
    prefix <- gets (fun s => _method_prefix (self s)) ;;
    properties_str <-
      qubesd_call (Some dest) (prefix ++ "List")%string None None ;;
    properties_str <- lift (decoded (decode_ascii properties_str)) ;;
    set_properties (Some (str_splitlines properties_str)) ;;
    ret (str_splitlines properties_str)
  end.

(** [property_help(name)] *)
Definition property_help (name : str) : M HolderSt str :=
  dest <- gets (fun s => _method_dest (self s)) ;;
  prefix <- gets (fun s => _method_prefix (self s)) ;;
  help_text <-
    qubesd_call (Some dest) (prefix ++ "Help")%string (Some name) None ;;
  lift (decoded (decode_ascii help_text)).

(** [property_get_default(item)] *)
Definition property_get_default (item : str) : M HolderSt Value :=
  if startswith "_" item then raise AttributeError [item] else
  dest <- gets (fun s => _method_dest (self s)) ;;
  prefix <- gets (fun s => _method_prefix (self s)) ;;
  property_str <- try_except
    (qubesd_call (Some dest) (prefix ++ "GetDefault")%string (Some item) None)
    [QubesDaemonAccessError; QubesVMNotFoundError]
    (raise QubesPropertyAccessError [item]) ;;
  if String.eqb property_str "" then
    raise AttributeError [(item ++ " has no default")%string]
  else
    match split_max SP 1 property_str with
    | [prop_type; value] => _parse_type_value prop_type value
    | _ => raise ValueError []
    end.

(** Two holders of one application: [this] is the object
    [clone_properties] is called on, [source] its [src] argument. *)
Record PairSt : Type := {
  this : Holder;
  source : Holder;
  pair_domains : WOC.Collection;
  pair_labels : WOC.Collection;
  pair_app : App
}.

Definition on_this {A} (m : M HolderSt A) : M PairSt A :=
  zoom (fun p => {| self := this p; domains := pair_domains p;
                    labels := pair_labels p; app := pair_app p |})
    (fun h p => {| this := self h; source := source p;
                   pair_domains := domains h; pair_labels := labels h;
                   pair_app := app h |}) m.

Definition on_source {A} (m : M HolderSt A) : M PairSt A :=
  zoom (fun p => {| self := source p; domains := pair_domains p;
                    labels := pair_labels p; app := pair_app p |})
    (fun h p => {| this := this p; source := self h;
                   pair_domains := domains h; pair_labels := labels h;
                   pair_app := app h |}) m.

(** The loop of [clone_properties] over names that are remote properties
    of both holders, for which [getattr(src, prop)] is
    [src.__getattr__(prop)] and [setattr(self, prop, v)] is
    [self.__setattr__(prop, v)]. *)
Fixpoint clone_loop (proplist : list str) : M PairSt unit :=
  match proplist with
  | [] => ret tt
  | prop :: rest =>
    try_except
      (v <- on_source (__getattr__ prop) ;;
       on_this (__setattr__ prop (Plain v)))
      [AttributeError]
      (ret tt) ;;
    clone_loop rest
  end.

(** [clone_properties(src, proplist)] *)
Definition clone_properties (proplist : option (list str)) : M PairSt unit :=
  proplist <- match proplist with
              | None => on_this property_list
              | Some l => ret l
              end ;;
  clone_loop proplist.

End WithRuntime.

End PropertyHolder.

Module PH := PropertyHolder.

(** ** [Features] *)

Module Features.

Section WithRuntime.
Context `{ExcModule} `{Transport}.

(** [isinstance(value, bool)] *)
Definition is_bool (value : Value) : bool :=
  match value with VBool _ => true | _ => false end.

(** [bool(value)] for an instance of [bool]. *)
Definition truth (value : Value) : bool :=
  match value with VBool b => b | _ => false end.

(** [Features.__setitem__(key, value)], on the holder of [self.vm];
    [vm_name] is [self.vm.name]. *)
Definition __setitem__ (vm_name : str) (key : str) (value : Value)
  : M PH.HolderSt unit :=
  if is_bool value then
    PH.qubesd_call (Some vm_name) "admin.vm.feature.Set" (Some key)
      (Some (if truth value then "1" else "")) ;; ret tt
  else
    PH.qubesd_call (Some vm_name) "admin.vm.feature.Set" (Some key)
      (Some (encode_utf8 (py_str value))) ;; ret tt.

(** [Features.__delitem__(key)] *)
Definition __delitem__ (vm_name : str) (key : str) : M PH.HolderSt unit :=
  PH.qubesd_call (Some vm_name) "admin.vm.feature.Remove" (Some key) None ;;
  ret tt.

(** [Features.__getitem__(item)] *)
Definition __getitem__ (vm_name : str) (item : str) : M PH.HolderSt str :=
  response <-
    PH.qubesd_call (Some vm_name) "admin.vm.feature.Get" (Some item) None ;;
  lift (decoded (decode_utf8 response)).

(** [Features.__iter__()], the names it iterates over. *)
Definition __iter__ (vm_name : str) : M PH.HolderSt (list str) :=
  qubesd_response <-
    PH.qubesd_call (Some vm_name) "admin.vm.feature.List" None None ;;
  text <- lift (decoded (decode_utf8 qubesd_response)) ;;
  ret (text_splitlines text).

(** The [default] argument of [get] and [check_with_template]: the
    sentinel [Features.NO_DEFAULT] or a value ([None] when omitted). *)
Inductive Default : Type :=
| NO_DEFAULT
| Given (v : Value).

(** The [except KeyError] clause of [get] and [check_with_template]. *)
Definition or_default (default : Default) (e : exn) : M PH.HolderSt Value :=
  match default with
  | NO_DEFAULT => reraise e
  | Given v => ret v
  end.

(** [Features.get(item, default)] *)
Definition get (vm_name : str) (item : str) (default : Default)
  : M PH.HolderSt Value :=
  try_catch
    (v <- __getitem__ vm_name item ;; ret (VStr v))
    [KeyError]
    (or_default default).

(** [Features.check_with_template(feature, default)] *)
Definition check_with_template (vm_name : str) (feature : str)
  (default : Default) : M PH.HolderSt Value :=
  try_catch
    (qubesd_response <-
       PH.qubesd_call (Some vm_name) "admin.vm.feature.CheckWithTemplate"
         (Some feature) None ;;
     v <- lift (decoded (decode_utf8 qubesd_response)) ;;
     ret (VStr v))
    [KeyError]
    (or_default default).

(** [Features.items()], the pairs it yields. *)
Definition items (vm_name : str) : M PH.HolderSt (list (str * str)) :=
  names <- __iter__ vm_name ;;
  mapM (fun key => v <- __getitem__ vm_name key ;; ret (key, v)) names.

End WithRuntime.

End Features.

(** ** [Label] ([qubesadmin/label.py]) *)

Module Labels.

Section WithRuntime.
Context `{ExcModule} `{Transport}.

Record LabelObject : Type := {
  _name : str;
  _color : option str;
  _index : option Z
}.

(** A label with the application it belongs to. *)
Record LabelSt : Type := { self : LabelObject; app : App }.

(** [Label(app, name)] *)
Definition __init__ (label_name : str) : LabelObject :=
  {| _name := label_name; _color := None; _index := None |}.

Definition in_app {A} (m : M App A) : M LabelSt A :=
  zoom app (fun a s => {| self := self s; app := a |}) m.

Definition set_color (c : option str) : M LabelSt unit :=
  modify (fun s =>
    {| self := {| _name := _name (self s); _color := c;
                  _index := _index (self s) |};
       app := app s |}).

Definition set_index (i : option Z) : M LabelSt unit :=
  modify (fun s =>
    {| self := {| _name := _name (self s); _color := _color (self s);
                  _index := i |};
       app := app s |}).

(** [Label.color] *)
Definition color : M LabelSt str :=
  cached <- gets (fun s => _color (self s)) ;;
  match cached with
  | Some c => ret c
  | None =>
    label_name <- gets (fun s => _name (self s)) ;;
    qubesd_response <- try_except
      (in_app (app_qubesd_call
         {| call_dest := "dom0"; call_method := "admin.label.Get";
            call_arg := Some label_name; call_payload := None |}))
      [QubesDaemonNoResponseError]
      (raise QubesPropertyAccessError ["label.color"]) ;;
    c <- lift (decoded (decode_utf8 qubesd_response)) ;;
    set_color (Some c) ;;
    ret c
  end.

(** [Label.name] *)
Definition name : M LabelSt str := gets (fun s => _name (self s)).

(** [Label.icon] *)
Definition icon : M LabelSt str :=
  n <- name ;; ret ("appvm-" ++ n)%string.

(** [Label.index] *)
Definition index : M LabelSt Z :=
  cached <- gets (fun s => _index (self s)) ;;
  match cached with
  | Some i => ret i
  | None =>
    label_name <- gets (fun s => _name (self s)) ;;
    qubesd_response <- try_except
      (in_app (app_qubesd_call
         {| call_dest := "dom0"; call_method := "admin.label.Index";
            call_arg := Some label_name; call_payload := None |}))
      [QubesDaemonNoResponseError]
      (raise QubesPropertyAccessError ["label.index"]) ;;
    text <- lift (decoded (decode_utf8 qubesd_response)) ;;
    match py_int text with
    | None => raise ValueError []
    | Some i => set_index (Some i) ;; ret i
    end
  end.

(** [Label.__str__] *)
Definition __str__ (l : LabelObject) : str := _name l.

(** [Label.__eq__] against another label. *)
Definition __eq__ (l other : LabelObject) : bool :=
  String.eqb (_name l) (_name other).

End WithRuntime.

End Labels.

(** ** [Volume] and [Pool] ([qubesadmin/storage.py]) *)

Module Storage.

Module Volume.

Section WithRuntime.
Context `{ExcModule} `{Transport}.

Record Volume : Type := {
  _pool : option str;
  _vid : option str;
  _vm : option str;
  _vm_name : option str;
  _info : option (dict str)
}.

Definition is_none {A} (o : option A) : bool :=
  match o with None => true | Some _ => false end.

(** [Volume(app, pool, vid, vm, vm_name)] *)
Definition __init__ (pool vid vm vm_name : option str) : Result Volume :=
  if is_none pool && is_none vm then
    Raise (Exn ValueError ["Either pool or vm must be given"])
  else if negb (is_none pool) && is_none vid then
    Raise (Exn ValueError ["If pool is given, vid must be too."])
  else if negb (is_none vm) && is_none vm_name then
    Raise (Exn ValueError ["If vm is given, vm_name must be too."])
  else
    Return {| _pool := pool; _vid := vid; _vm := vm; _vm_name := vm_name;
              _info := None |}.

(** A volume with the application it belongs to. *)
Record VolumeSt : Type := { self : Volume; app : App }.

Definition in_app {A} (m : M App A) : M VolumeSt A :=
  zoom app (fun a s => {| self := self s; app := a |}) m.

Definition set_info (i : option (dict str)) : M VolumeSt unit :=
  modify (fun s =>
    {| self := {| _pool := _pool (self s); _vid := _vid (self s);
                  _vm := _vm (self s); _vm_name := _vm_name (self s);
                  _info := i |};
       app := app s |}).

(** [_qubesd_call(func_name, payload)], without a payload stream (the
    callers modelled here pass none). *)
Definition _qubesd_call (func_name : str) (payload : option bytes)
  : M VolumeSt bytes :=
  vm <- gets (fun s => _vm (self s)) ;;
  match vm with
  | Some dest =>
    arg <- gets (fun s => _vm_name (self s)) ;;
    in_app (app_qubesd_call
      {| call_dest := dest;
         call_method := ("admin.vm.volume." ++ func_name)%string;
         call_arg := arg; call_payload := payload |})
  | None =>
    arg <- gets (fun s => _pool (self s)) ;;
    vid <- gets (fun s => _vid (self s)) ;;
    match vid with
    | None => raise AssertionError []
    | Some vid =>
      vid_bytes <- lift (encoded (encode_ascii vid)) ;;
      let payload :=
        match payload with
        | Some p => (vid_bytes ++ " " ++ p)%string
        | None => vid_bytes
        end in
      in_app (app_qubesd_call
        {| call_dest := "dom0";
           call_method := ("admin.pool.volume." ++ func_name)%string;
           call_arg := arg; call_payload := Some payload |})
    end
  end.

(** [dict(pairs)] for a list of [line.split('=', 1)] results: every
    element must have two items; a later key replaces an earlier one. *)
Fixpoint dict_of_lines (lines : list str) (d : dict str)
  : Result (dict str) :=
  match lines with
  | [] => Return d
  | line :: rest =>
    match split_max "=" 1 line with
    | [k; v] => dict_of_lines rest (dict_set k v d)
    | _ => Raise (Exn ValueError [])
    end
  end.

(** [_fetch_info(force)] *)
Definition _fetch_info (force : bool) : M VolumeSt unit :=
  info <- gets (fun s => _info (self s)) ;;
  if negb force && negb (is_none info) then ret tt
  else
    info <- _qubesd_call "Info" None ;;
    info <- lift (decoded (decode_ascii info)) ;;
    d <- lift (dict_of_lines (str_splitlines info) []) ;;
    set_info (Some d).

(** The common beginning of the info-backed properties:
    [try: self._fetch_info()
     except QubesDaemonAccessError: raise QubesPropertyAccessError(what)
     assert self._info is not None] *)
Definition fetched_info (what : str) : M VolumeSt (dict str) :=
  try_except (_fetch_info true) [QubesDaemonAccessError]
    (raise QubesPropertyAccessError [what]) ;;
  info <- gets (fun s => _info (self s)) ;;
  match info with
  | None => raise AssertionError []
  | Some d => ret d
  end.

(** [d[key]] *)
Definition getitem {A} (key : str) (d : dict A) : M VolumeSt A :=
  match dict_get key d with
  | Some v => ret v
  | None => raise KeyError [key]
  end.

(** [int(text)] *)
Definition to_int (text : str) : M VolumeSt Z :=
  match py_int text with
  | Some n => ret n
  | None => raise ValueError []
  end.

(** [Volume.name] *)
Definition name : M VolumeSt (option str) :=
  gets (fun s => _vm_name (self s)).

(** [Volume.pool] *)
Definition pool : M VolumeSt str :=
  p <- gets (fun s => _pool (self s)) ;;
  match p with
  | Some p => ret p
  | None => d <- fetched_info "pool" ;; getitem "pool" d
  end.

(** [Volume.vid] *)
Definition vid : M VolumeSt str :=
  v <- gets (fun s => _vid (self s)) ;;
  match v with
  | Some v => ret v
  | None => d <- fetched_info "vid" ;; getitem "vid" d
  end.

(** [Volume.size] *)
Definition size : M VolumeSt Z :=
  d <- fetched_info "size" ;; v <- getitem "size" d ;; to_int v.

(** [Volume.usage] *)
Definition usage : M VolumeSt Z :=
  d <- fetched_info "usage" ;; v <- getitem "usage" d ;; to_int v.


(** The setter of [Volume.rw] *)
Definition set_rw (value : Value) : M VolumeSt unit :=
  payload <- lift (encoded (encode_ascii (py_str value))) ;;
  _qubesd_call "Set.rw" (Some payload) ;;
  set_info None.


(** [Volume.source] *)
Definition source : M VolumeSt (option str) :=
  d <- fetched_info "source" ;; v <- getitem "source" d ;;
  if negb (String.eqb v "") then ret (Some v) else ret None.

(** [Volume.revisions_to_keep] *)
Definition revisions_to_keep : M VolumeSt Z :=
  d <- fetched_info "revisions_to_keep" ;;
  v <- getitem "revisions_to_keep" d ;; to_int v.

(** The setter of [Volume.revisions_to_keep] *)
Definition set_revisions_to_keep (value : Value) : M VolumeSt unit :=
  payload <- lift (encoded (encode_ascii (py_str value))) ;;
  _qubesd_call "Set.revisions_to_keep" (Some payload) ;;
  set_info None.


(** [Volume.resize(size)] *)
Definition resize (new_size : Value) : M VolumeSt unit :=
  payload <- lift (encoded (encode_ascii (py_str new_size))) ;;
  _qubesd_call "Resize" (Some payload) ;; ret tt.

(** [Volume.revisions] *)
Definition revisions : M VolumeSt (list str) :=
  r <- _qubesd_call "ListSnapshots" None ;;
  text <- lift (decoded (decode_ascii r)) ;;
  ret (str_splitlines text).

(** [Volume.revert(revision)] for a [str] revision. *)
Definition revert (revision : str) : M VolumeSt unit :=
  payload <- lift (encoded (encode_ascii revision)) ;;
  _qubesd_call "Revert" (Some payload) ;; ret tt.

(** [Volume.clear_data()] *)
Definition clear_data : M VolumeSt unit :=
  _qubesd_call "Clear" None ;; ret tt.

(** The truth value of an optional string: neither [None] nor empty. *)
Definition truthy (o : option str) : bool :=
  match o with
  | Some x => negb (String.eqb x "")
  | None => false
  end.

(** [(a, b) < (c, d)] on pairs of strings. *)
Definition pair_lt (a b c d : str) : bool :=
  str_lt a c || (String.eqb a c && str_lt b d).

(** [Volume.__lt__(other)] against another volume; [None] stands for
    [NotImplemented]. *)
Definition __lt__ (v other : Volume) : Result (option bool) :=
  match _vm_name v, _vm_name other with
  | Some vm_name, Some other_vm_name =>
    if truthy (_vm v) && truthy (_vm other) then
      match _vm v, _vm other with
      | Some a, Some c => Return (Some (pair_lt a vm_name c other_vm_name))
      | _, _ => Return None
      end
    else
      match _pool v, _pool other with
      | Some p, Some q =>
        if truthy (_vid v) && truthy (_vid other) then
          match _vid v, _vid other with
          | Some x, Some y => Return (Some (pair_lt p x q y))
          | _, _ => Return None
          end
        else Return None
      | _, _ => Raise (Exn AssertionError [])
      end
  | _, _ => Raise (Exn AssertionError [])
  end.

End WithRuntime.

End Volume.

Module Pool.

Section WithRuntime.
Context `{ExcModule} `{Transport}.

Record Pool : Type := {
  name : option str;
  _config : option (dict str)
}.

(** A pool with the application it belongs to. *)
Record PoolSt : Type := { self : Pool; app : App }.

(** [Pool(app, name)] *)
Definition __init__ (pool_name : option str) : Pool :=
  {| name := pool_name; _config := None |}.

Definition in_app {A} (m : M App A) : M PoolSt A :=
  zoom app (fun a s => {| self := self s; app := a |}) m.

Definition set_config (c : option (dict str)) : M PoolSt unit :=
  modify (fun s =>
    {| self := {| name := name (self s); _config := c |}; app := app s |}).

(** [dict(_int_split(l) for l in lines)] *)
Fixpoint int_dict_of_lines (lines : list str) (d : dict Z)
  : Result (dict Z) :=
  match lines with
  | [] => Return d
  | line :: rest =>
    match split_max "=" 1 line with
    | [k; v] =>
      match py_int v with
      | Some n => int_dict_of_lines rest (dict_set k n d)
      | None => Raise (Exn ValueError [])
      end
    | _ => Raise (Exn ValueError [])
    end
  end.

(** [dict(l.split('=', 1) for l in lines)] *)
Fixpoint str_dict_of_lines (lines : list str) (d : dict str)
  : Result (dict str) :=
  match lines with
  | [] => Return d
  | line :: rest =>
    match split_max "=" 1 line with
    | [k; v] => str_dict_of_lines rest (dict_set k v d)
    | _ => Raise (Exn ValueError [])
    end
  end.

(** [Pool.usage_details] *)
Definition usage_details : M PoolSt (dict Z) :=
  pool_name <- gets (fun s => name (self s)) ;;
  pool_usage_data <- try_except
    (in_app (app_qubesd_call
       {| call_dest := "dom0"; call_method := "admin.pool.UsageDetails";
          call_arg := pool_name; call_payload := None |}))
    [QubesDaemonAccessError]
    (raise QubesPropertyAccessError ["usage_details"]) ;;
  pool_usage_data <- lift (decoded (decode_utf8 pool_usage_data)) ;;
  assert (endswith (String LF "") pool_usage_data
          || String.eqb pool_usage_data "") ;;
  lift (int_dict_of_lines
          (text_splitlines (WOC.drop_last pool_usage_data)) []).

(** [Pool.config] *)
Definition config : M PoolSt (dict str) :=
  cached <- gets (fun s => _config (self s)) ;;
  match cached with
  | Some c => ret c
  | None =>
    pool_name <- gets (fun s => name (self s)) ;;
    pool_info_data <- try_except
      (in_app (app_qubesd_call
         {| call_dest := "dom0"; call_method := "admin.pool.Info";
            call_arg := pool_name; call_payload := None |}))
      [QubesDaemonAccessError]
      (raise QubesPropertyAccessError ["config"]) ;;
    pool_info_data <- lift (decoded (decode_utf8 pool_info_data)) ;;
    assert (endswith (String LF "") pool_info_data) ;;
    c <- lift (str_dict_of_lines
                 (text_splitlines (WOC.drop_last pool_info_data)) []) ;;
    set_config (Some c) ;;
    ret c
  end.

(** [d[key]] *)
Definition getitem {A} (key : str) (d : dict A) : M PoolSt A :=
  match dict_get key d with
  | Some v => ret v
  | None => raise KeyError [key]
  end.

(** [Pool.size] *)
Definition size : M PoolSt (option Z) :=
  try_except
    (d <- usage_details ;; n <- getitem "data_size" d ;; ret (Some n))
    [KeyError]
    (ret None).

(** [Pool.usage] *)
Definition usage : M PoolSt (option Z) :=
  try_except
    (d <- usage_details ;; n <- getitem "data_usage" d ;; ret (Some n))
    [KeyError]
    (ret None).

(** [Pool.driver] *)
Definition driver : M PoolSt str :=
  c <- config ;; getitem "driver" c.

(** [Pool.revisions_to_keep] *)
Definition revisions_to_keep : M PoolSt Z :=
  c <- config ;; v <- getitem "revisions_to_keep" c ;;
  match py_int v with
  | Some n => ret n
  | None => raise ValueError []
  end.

(** The setter of [Pool.revisions_to_keep] *)
Definition set_revisions_to_keep (value : Value) : M PoolSt unit :=
  pool_name <- gets (fun s => name (self s)) ;;
  payload <- lift (encoded (encode_ascii (py_str value))) ;;
  in_app (app_qubesd_call
    {| call_dest := "dom0";
       call_method := "admin.pool.Set.revisions_to_keep";
       call_arg := pool_name; call_payload := Some payload |}) ;;
  set_config None.

(** [Pool.ephemeral_volatile]: [bool(text)] is true for every text but
    the empty one. *)
Definition ephemeral_volatile : M PoolSt bool :=
  c <- config ;; v <- getitem "ephemeral_volatile" c ;;
  ret (negb (String.eqb v "")).

(** The setter of [Pool.ephemeral_volatile] *)
Definition set_ephemeral_volatile (value : Value) : M PoolSt unit :=
  pool_name <- gets (fun s => name (self s)) ;;
  payload <- lift (encoded (encode_ascii (py_str value))) ;;
  in_app (app_qubesd_call
    {| call_dest := "dom0";
       call_method := "admin.pool.Set.ephemeral_volatile";
       call_arg := pool_name; call_payload := Some payload |}) ;;
  set_config None.

(** [Pool.volumes], the volumes it yields. *)
Definition volumes : M PoolSt (list Volume.Volume) :=
  pool_name <- gets (fun s => name (self s)) ;;
  volumes_data <- try_except
    (in_app (app_qubesd_call
       {| call_dest := "dom0"; call_method := "admin.pool.volume.List";
          call_arg := pool_name; call_payload := None |}))
    [QubesDaemonAccessError]
    (raise QubesPropertyAccessError ["volumes"]) ;;
  if String.eqb volumes_data "" then ret []
  else
    assert (endswith (String LF "") volumes_data) ;;
    volumes_data <-
      lift (decoded (decode_ascii (WOC.drop_last volumes_data))) ;;
    lift (res_map (fun vid => Volume.__init__ pool_name (Some vid) None None)
            (str_splitlines volumes_data)).

(** [Pool.__eq__] against another pool. *)
Definition __eq__ (p other : Pool) : bool :=
  match name p, name other with
  | Some a, Some b => String.eqb a b
  | None, None => true
  | _, _ => false
  end.

(** [Pool.__lt__] against another pool. *)
Definition __lt__ (p other : Pool) : Result bool :=
  match name p, name other with
  | Some a, Some b => Return (str_lt a b)
  | _, _ => Raise (Exn AssertionError [])
  end.

End WithRuntime.

End Pool.

End Storage.

Module Vol := Storage.Volume.
Module Pools := Storage.Pool.

(** ** Concrete runtimes for the examples *)

Module Stub.

(** Modelled from the spec: the daemon-side encoder of the bulk-fetch
    escaping is not among the files.  An embedded newline becomes
    backslash, [n]; a backslash is doubled. *)
Fixpoint escape (value : bytes) : bytes :=
  match value with
  | EmptyString => EmptyString
  | String c r =>
    if Ascii.eqb c LF then String BSL (String "n" (escape r))
    else if Ascii.eqb c BSL then String BSL (String BSL (escape r))
    else String c (escape r)
  end.

(** Modelled from the spec: [qubesadmin/exc.py] is not among the files.
    The registry holds the error kinds the spec lists, under their class
    names. *)
Definition exc_registry : list (str * exc_class) :=
  [ ("QubesException", QubesException);
    ("QubesDaemonAccessError", QubesDaemonAccessError);
    ("QubesDaemonNoResponseError", QubesDaemonNoResponseError);
    ("QubesDaemonCommunicationError", QubesDaemonCommunicationError);
    ("QubesVMNotFoundError", QubesVMNotFoundError);
    ("QubesPropertyAccessError", QubesPropertyAccessError) ].

(** The built-in exceptions the examples name. *)
Definition builtin_exceptions : list (str * exc_class) :=
  [ ("AttributeError", AttributeError);
    ("AssertionError", AssertionError);
    ("ValueError", ValueError);
    ("KeyError", KeyError);
    ("IndexError", IndexError);
    ("UnicodeDecodeError", UnicodeDecodeError);
    ("TypeError", OtherClass "TypeError");
    ("PermissionError", OtherClass "PermissionError") ].

(** Modelled from the spec: the class hierarchy of [qubesadmin/exc.py].
    Daemon access and daemon no-response are the one kind the spec calls
    "daemon-no-response/access", under two names; a property-access
    error is also the local "no such attribute" error, which is how
    [clone_properties] skips the properties it cannot read. *)
Definition std_subclass (c d : exc_class) : bool :=
  match c, d with
  | QubesDaemonAccessError, QubesDaemonNoResponseError
  | QubesDaemonNoResponseError, QubesDaemonAccessError
  | QubesPropertyAccessError, AttributeError => true
  | _, _ => false
  end.

#[local] Instance std_exc : ExcModule := {|
  exc_getattr := fun name => dict_get name exc_registry;
  builtins_get := fun name => dict_get name builtin_exceptions;
  subclass := std_subclass
|}.

(** A daemon that keeps one wire value per property name and serves the
    property methods on it: [Get] of a stored name answers
    [default=False <stored>], [Set] stores [type=str <payload>], [Reset]
    forgets the name, [GetAll] lists every name with its escaped value,
    and a name it does not know gets no response. *)
Definition kv_line (kv : str * bytes) : bytes :=
  (fst kv ++ " default=False " ++ escape (snd kv) ++ String LF "")%string.

Definition kv_call (c : Call) (d : dict bytes) : Result bytes * dict bytes :=
  let no_response := Raise (Exn QubesDaemonNoResponseError []) in
  if endswith "GetAll" (call_method c) then
    (Return (String.concat "" (map kv_line d)), d)
  else if endswith "Get" (call_method c) then
    match call_arg c with
    | Some n =>
      match dict_get n d with
      | Some v => (Return ("default=False " ++ v)%string, d)
      | None => (no_response, d)
      end
    | None => (no_response, d)
    end
  else if endswith "Reset" (call_method c) then
    match call_arg c with
    | Some n => (Return EmptyString, dict_del n d)
    | None => (no_response, d)
    end
  else if endswith "Set" (call_method c) then
    match call_arg c, call_payload c with
    | Some n, Some p => (Return EmptyString, dict_set n ("type=str " ++ p)%string d)
    | _, _ => (no_response, d)
    end
  else (no_response, d).

#[local] Instance kv_transport : Transport := {|
  daemon := dict bytes;
  transport_call := kv_call
|}.

(** A daemon that answers no call at all. *)
#[local] Instance down_transport : Transport := {|
  daemon := unit;
  transport_call := fun _ d => (Raise (Exn QubesDaemonNoResponseError []), d)
|}.

(** A daemon that replays a script of replies, one per call. *)
#[local] Instance script_transport : Transport := {|
  daemon := list (Result bytes);
  transport_call := fun _ d =>
    match d with
    | [] => (Raise (Exn QubesDaemonNoResponseError []), [])
    | r :: rest => (r, rest)
    end
|}.

Definition new_app `{Transport} (enabled : bool) (d : daemon) : App :=
  {| cache_enabled := enabled; blind_mode := false; default_dispvm := None;
     next_id := 0; remote := d; call_log := [] |}.

(** [WrapperObjectsCollection(app, list_method, object_class)] *)
Definition new_collection (list_method : str) (cls : object_class)
  : WOC.Collection :=
  {| WOC._list_method := list_method; WOC._object_class := cls;
     WOC._names_list := None; WOC._objects := [] |}.

(** [PropertyHolder(app, method_prefix, method_dest)] *)
Definition new_holder (method_prefix method_dest : str) : PH.Holder :=
  {| PH._method_prefix := method_prefix; PH._method_dest := method_dest;
     PH._redirect_dispvm_calls := false; PH._local_properties_set := [];
     PH._properties := None; PH._properties_cache := []; PH._dict := [] |}.

Definition new_state `{Transport} (enabled : bool) (d : daemon)
  (h : PH.Holder) : PH.HolderSt :=
  {| PH.self := h;
     PH.domains := new_collection "admin.vm.List" QubesVM;
     PH.labels := new_collection "admin.label.List" Label;
     PH.app := new_app enabled d |}.

(** A holder of the key-value daemon, which stores [x] and [n], with
    caching enabled. *)
Definition kv_state : @PH.HolderSt kv_transport :=
  @new_state kv_transport true
    [("x", "type=str old"); ("n", "type=int 42")]
    (new_holder "admin.vm.property." "work").

(** A holder of the silent daemon, with caching enabled. *)
Definition down_state : @PH.HolderSt down_transport :=
  @new_state down_transport true tt
    (new_holder "admin.vm.property." "work").

(** A label directory whose daemon lists [a], [b], [c], then [a], [c]. *)
Definition listing_state : @WOC.CollSt script_transport :=
  {| WOC.self := new_collection "admin.label.List" Label;
     WOC.app := @new_app script_transport false
       [ Return (String "a" (String LF (String "b" (String LF
           (String "c" (String LF EmptyString))))));
         Return (String "a" (String LF (String "c" (String LF EmptyString)))) ]
  |}.

(** The scripted daemon after its last reply. *)
Definition played_out : @daemon script_transport := @nil (Result bytes).

(** A holder of the scripted daemon. *)
Definition scripted_state (enabled : bool) (script : list (Result bytes))
  : @PH.HolderSt script_transport :=
  @new_state script_transport enabled script
    (new_holder "admin.vm.property." "work").

(** A disposable-VM holder of the scripted daemon, whose calls to
    [@dispvm] destinations are redirected; the application's default
    disposable VM is [disp-default] or unset. *)
Definition dispvm_state (default : option str)
  (script : list (Result bytes)) : @PH.HolderSt script_transport :=
  {| PH.self :=
       {| PH._method_prefix := "admin.vm.property.";
          PH._method_dest := "@dispvm";
          PH._redirect_dispvm_calls := true;
          PH._local_properties_set := [];
          PH._properties := None; PH._properties_cache := [];
          PH._dict := [] |};
     PH.domains := new_collection "admin.vm.List" QubesVM;
     PH.labels := new_collection "admin.label.List" Label;
     PH.app :=
       {| cache_enabled := false; blind_mode := false;
          default_dispvm := default; next_id := 0;
          remote := script; call_log := [] |} |}.

(** A label directory of the scripted daemon. *)
Definition scripted_collection (script : list (Result bytes))
  : @WOC.CollSt script_transport :=
  {| WOC.self := new_collection "admin.label.List" Label;
     WOC.app := @new_app script_transport false script |}.

(** Two holders of the silent daemon: a copy and the VM it is cloned
    from. *)
Definition pair_state : @PH.PairSt down_transport :=
  {| PH.this := new_holder "admin.vm.property." "copy";
     PH.source := new_holder "admin.vm.property." "work";
     PH.pair_domains := new_collection "admin.vm.List" QubesVM;
     PH.pair_labels := new_collection "admin.label.List" Label;
     PH.pair_app := @new_app down_transport true tt |}.

(** The label [red] of the scripted daemon. *)
Definition label_state (script : list (Result bytes))
  : @Labels.LabelSt script_transport :=
  {| Labels.self := Labels.__init__ "red";
     Labels.app := @new_app script_transport false script |}.

(** Volumes of the VMs [work] and [zeta], and a volume of the scripted
    daemon. *)
Definition vm_volume_of (vm vm_name : str) : Vol.Volume :=
  {| Vol._pool := None; Vol._vid := None; Vol._vm := Some vm;
     Vol._vm_name := Some vm_name; Vol._info := None |}.

Definition volume_state (v : Vol.Volume) (script : list (Result bytes))
  : @Vol.VolumeSt script_transport :=
  {| Vol.self := v; Vol.app := @new_app script_transport false script |}.

(** The pool [lvm] of the scripted daemon. *)
Definition pool_state (script : list (Result bytes))
  : @Pools.PoolSt script_transport :=
  {| Pools.self := Pools.__init__ (Some "lvm");
     Pools.app := @new_app script_transport false script |}.

End Stub.

(** ** Observations of the state *)

Module Observe.

(** [preserves f m]: running [m] leaves the observation [f] of the state
    unchanged, whether [m] returns or raises. *)
Definition preserves {St A X} (f : St -> X) (m : M St A) : Prop :=
  forall s r s', m s = (r, s') -> f s' = f s.

Section WithTransport.
Context `{Transport}.

(** What no modelled operation writes. *)
Definition app_flags (a : App) : bool * bool * option str :=
  (cache_enabled a, blind_mode a, default_dispvm a).

(** The daemon and the calls sent to it. *)
Definition app_io (a : App) : daemon * list Call := (remote a, call_log a).

(** The call [refresh_cache] sends. *)
Definition list_call (s : WOC.CollSt) : Call :=
  {| call_dest := "dom0"; call_method := WOC._list_method (WOC.self s);
     call_arg := None; call_payload := None |}.

(** The same two observations through a holder's state. *)
Definition holder_flags (s : PH.HolderSt) : bool * bool * option str :=
  app_flags (PH.app s).

Definition holder_io (s : PH.HolderSt) : daemon * list Call :=
  app_io (PH.app s).

(** The holder's state after call [c] left the daemon in state [d]. *)
Definition after_call (c : Call) (d : daemon) (s : PH.HolderSt)
  : PH.HolderSt :=
  {| PH.self := PH.self s; PH.domains := PH.domains s;
     PH.labels := PH.labels s; PH.app := logged c d (PH.app s) |}.

(** The call a holder sends for [method] on its own destination. *)
Definition holder_call (s : PH.HolderSt) (method : str)
  (arg : option str) (payload : option bytes) : Call :=
  {| call_dest := PH._method_dest (PH.self s);
     call_method := (PH._method_prefix (PH.self s) ++ method)%string;
     call_arg := arg; call_payload := payload |}.



(** The call [Features.__setitem__] sends with a given payload. *)
Definition feature_call (vm_name key : str) (payload : bytes) : Call :=
  {| call_dest := vm_name; call_method := "admin.vm.feature.Set";
     call_arg := Some key; call_payload := Some payload |}.

End WithTransport.

(** The payload of a feature value as the claim words it: [1] for
    [True], nothing for [False], the text of [str(value)] otherwise. *)
Definition claimed_payload (value : Value) : bytes :=
  match value with
  | VBool true => "1"
  | VBool false => ""
  | _ => encode_utf8 (py_str value)
  end.


End Observe.
Import Observe.

(** ** Replies in the daemon's text formats *)

Module Replies.


(** One [key=value] line per pair, each ended by a line feed: the form
    of the volume and pool info replies. *)
Fixpoint info_lines (pairs : list (str * str)) : str :=
  match pairs with
  | [] => EmptyString
  | (k, v) :: rest =>
    (k ++ "=" ++ v ++ String LF (info_lines rest))%string
  end.

(** One name per line, each ended by a line feed. *)
Fixpoint name_lines (names : list str) : str :=
  match names with
  | [] => EmptyString
  | n :: rest => (n ++ String LF (name_lines rest))%string
  end.

(** A string without any of the line boundaries of [str.splitlines] on
    ASCII text. *)
Fixpoint one_line (s : string) : bool :=
  match s with
  | EmptyString => true
  | String c r =>
    negb (Ascii.eqb c CR) && negb (str_linebreak c) && one_line r
  end.

(** The value a [dict] built from the pairs, in order, holds for a key:
    that of the last pair with the key. *)
Fixpoint last_value {V} (k : str) (pairs : list (str * V)) : option V :=
  match pairs with
  | [] => None
  | (k', v) :: rest =>
    match last_value k rest with
    | Some v' => Some v'
    | None => if String.eqb k k' then Some v else None
    end
  end.

(** [dict(pairs)]: the pairs are entered in order. *)
Definition dict_of_pairs {V} (pairs : list (str * V)) : dict V :=
  fold_left (fun d kv => dict_set (fst kv) (snd kv) d) pairs [].

(** The line of a pair, without its line feed. *)
Definition line_of (kv : str * str) : str :=
  (fst kv ++ String "=" (snd kv))%string.

(** A pair whose line [key=value] reads back as the pair: ASCII text on
    one line, with no [=] in the key. *)
Definition plain_pair (kv : str * str) : bool :=
  free_of "=" (fst kv) && one_line (fst kv) && one_line (snd kv)
  && is_ascii (fst kv) && is_ascii (snd kv).


(** A volume identified by a VM and its name there, as [__lt__] tests
    it. *)
Definition vm_volume (v : Vol.Volume) : bool :=
  Vol.truthy (Vol._vm v) && negb (Vol.is_none (Vol._vm_name v)).

(** A name that is a line of its own: ASCII text on one line, not
    empty. *)
Definition plain_name (n : str) : bool :=
  one_line n && is_ascii n && negb (String.eqb n "").

Section WithTransport.
Context `{Transport}.

(** A directory's state after call [c] left the daemon in state [d]. *)
Definition listed (c : Call) (d : daemon) (s : WOC.CollSt) : WOC.CollSt :=
  {| WOC.self := WOC.self s; WOC.app := logged c d (WOC.app s) |}.

(** The outcome of a holder handing [c] to the application. *)
Definition holder_performs (c : Call) (s : PH.HolderSt)
  : Result bytes * PH.HolderSt :=
  let (r, d) := transport_call c (remote (PH.app s)) in
  (r, after_call c d s).

(** The calls the two lookups of a label send. *)
Definition label_color_call (s : Labels.LabelSt) : Call :=
  {| call_dest := "dom0"; call_method := "admin.label.Get";
     call_arg := Some (Labels._name (Labels.self s)); call_payload := None |}.

Definition label_index_call (s : Labels.LabelSt) : Call :=
  {| call_dest := "dom0"; call_method := "admin.label.Index";
     call_arg := Some (Labels._name (Labels.self s)); call_payload := None |}.

(** A label's state after call [c] left the daemon in state [d]. *)
Definition label_called (c : Call) (d : daemon) (s : Labels.LabelSt)
  : Labels.LabelSt :=
  {| Labels.self := Labels.self s; Labels.app := logged c d (Labels.app s) |}.

(** A volume's state after call [c] left the daemon in state [d], and
    the outcome of handing [c] to the application. *)
Definition volume_called (c : Call) (d : daemon) (s : Vol.VolumeSt)
  : Vol.VolumeSt :=
  {| Vol.self := Vol.self s; Vol.app := logged c d (Vol.app s) |}.

Definition volume_performs (c : Call) (s : Vol.VolumeSt)
  : Result bytes * Vol.VolumeSt :=
  let (r, d) := transport_call c (remote (Vol.app s)) in
  (r, volume_called c d s).

(** A volume's state with [_info] set. *)
Definition volume_with_info (i : option (dict str)) (s : Vol.VolumeSt)
  : Vol.VolumeSt :=
  {| Vol.self :=
       {| Vol._pool := Vol._pool (Vol.self s);
          Vol._vid := Vol._vid (Vol.self s);
          Vol._vm := Vol._vm (Vol.self s);
          Vol._vm_name := Vol._vm_name (Vol.self s);
          Vol._info := i |};
     Vol.app := Vol.app s |}.

(** A pool's state after call [c] left the daemon in state [d], and with
    [_config] set. *)
Definition pool_called (c : Call) (d : daemon) (s : Pools.PoolSt)
  : Pools.PoolSt :=
  {| Pools.self := Pools.self s; Pools.app := logged c d (Pools.app s) |}.

Definition pool_with_config (c : option (dict str)) (s : Pools.PoolSt)
  : Pools.PoolSt :=
  {| Pools.self := {| Pools.name := Pools.name (Pools.self s);
                      Pools._config := c |};
     Pools.app := Pools.app s |}.

(** The call a pool sends for [method]. *)
Definition pool_call (s : Pools.PoolSt) (method : str)
  (payload : option bytes) : Call :=
  {| call_dest := "dom0"; call_method := method;
     call_arg := Pools.name (Pools.self s); call_payload := payload |}.

(** The outcome of a pool handing [c] to the application. *)
Definition pool_performs (c : Call) (s : Pools.PoolSt)
  : Result bytes * Pools.PoolSt :=
  let (r, d) := transport_call c (remote (Pools.app s)) in
  (r, pool_called c d s).

(** The volume [Pool.volumes] yields for a volume ID. *)
Definition pool_volume (pool_name : str) (vid : str) : Vol.Volume :=
  {| Vol._pool := Some pool_name; Vol._vid := Some vid; Vol._vm := None;
     Vol._vm_name := None; Vol._info := None |}.

(** The wrapper [get_blind] constructs for a name it has not cached. *)
Definition fresh_wrapper (s : WOC.CollSt) (item : str) : NamedObject :=
  {| obj_id := next_id (WOC.app s);
     obj_class := WOC._object_class (WOC.self s);
     obj_name := item |}.

End WithTransport.

(** A name that is a remote property of a holder: no leading underscore,
    no class-level attribute and no instance attribute of that name, so
    that reading the attribute goes through [__getattr__]. *)
Definition remote_name (h : PH.Holder) (prop : str) : bool :=
  negb (startswith "_" prop)
  && negb (mem prop (PH._local_properties_set h))
  && negb (dict_mem prop (PH._dict h)).

End Replies.
Import Replies.

(** * Properties *)

Local Open Scope string_scope.

(** ** The helpers on small inputs *)

Section Examples.

Example split_max_error_frame :
  split_max NUL 4 (error_frame "E" "" "f" ["a"; "b"])
  = ["2"; "E"; ""; "f"; String "a" (String NUL (String "b" (String NUL "")))].
Proof. reflexivity. Qed.

Example split_keeps_last_empty :
  split NUL (nul_terminated ["a"; "b"]) = ["a"; "b"; ""]
  /\ split NUL "" = [""].
Proof. split; reflexivity. Qed.

Example bytes_splitlines_ex :
  bytes_splitlines (String "a" (String LF (String "b" (String LF ""))))
  = ["a"; "b"]
  /\ bytes_splitlines "" = []
  /\ bytes_splitlines (String LF "") = [""]
  /\ bytes_splitlines (String "a" (String CR (String LF "b"))) = ["a"; "b"]
  /\ bytes_splitlines (String "a" (String LF (String LF "b")))
     = ["a"; ""; "b"].
Proof. repeat split; reflexivity. Qed.

Example str_splitlines_ex :
  str_splitlines (String "a" (String "011" "b")) = ["a"; "b"]
  /\ bytes_splitlines (String "a" (String "011" "b"))
     = [String "a" (String "011" "b")].
Proof. split; reflexivity. Qed.

Example py_int_ex :
  py_int "42" = Some 42%Z
  /\ py_int " -4_2 " = Some (-42)%Z
  /\ py_int "+007" = Some 7%Z
  /\ py_int "" = None
  /\ py_int "4__2" = None
  /\ py_int "42_" = None
  /\ py_int "- 42" = None
  /\ py_int "4 2" = None
  /\ py_int "0x10" = None.
Proof. repeat split; reflexivity. Qed.

Example str_of_int_ex :
  str_of_int 0 = "0" /\ str_of_int 42 = "42" /\ str_of_int (-15) = "-15".
Proof. repeat split; reflexivity. Qed.

Example utf8_valid_ex :
  utf8_valid "plain" = true
  /\ utf8_valid (String "195" (String "169" "")) = true
  /\ utf8_valid (String "226" (String "130" (String "172" ""))) = true
  /\ utf8_valid (String "240" (String "159" (String "152" (String "128" ""))))
     = true
  /\ utf8_valid (String "128" "") = false
  /\ utf8_valid (String "192" (String "128" "")) = false
  /\ utf8_valid (String "237" (String "160" (String "128" ""))) = false
  /\ utf8_valid (String "244" (String "144" (String "128" (String "128" ""))))
     = false
  /\ utf8_valid (String "226" (String "130" "")) = false.
Proof. repeat split; reflexivity. Qed.

Example endswith_ex :
  endswith "Error" "ValueError" = true
  /\ endswith "Error" "Error" = true
  /\ endswith "Error" "Err" = false
  /\ endswith "Error" "Errors" = false.
Proof. repeat split; reflexivity. Qed.

Example unescape_ex :
  unescape "a\nb" = Return (String "a" (String LF "b"))
  /\ unescape "a\tb" = Raise (Exn AssertionError [])
  /\ unescape "ab\" = Raise (Exn AssertionError [])
  /\ unescape "a\\b" = Raise (Exn ValueError []).
Proof. repeat split; reflexivity. Qed.

Example deserialize_property_ex :
  fst (PH._deserialize_property "default=True type=int 42" Stub.kv_state)
  = Return (true, VInt 42)
  /\ fst (PH._deserialize_property "default=False type=str a b" Stub.kv_state)
     = Return (false, VStr "a b")
  /\ fst (PH._deserialize_property "default=False type=label red"
            Stub.kv_state)
     = Return (false,
               VObj {| obj_id := 0; obj_class := Label; obj_name := "red" |})
  /\ fst (PH._deserialize_property "type=int 42" Stub.kv_state)
     = Raise (Exn ValueError []).
Proof. repeat split; reflexivity. Qed.

End Examples.

(** ** Byte strings *)

Section StringFacts.

Lemma cut_free sep f r :
  free_of sep f = true ->
  cut sep (f ++ String sep r) = Some (f, r).
Proof.
  induction f as [|c f IH]; simpl; intros Hf.
  - now rewrite Ascii.eqb_refl.
  - apply andb_prop in Hf as [Hc Hf].
    apply negb_true_iff in Hc. rewrite Hc, (IH Hf). reflexivity.
Qed.

Lemma cut_none sep s : free_of sep s = true -> cut sep s = None.
Proof.
  induction s as [|c s IH]; simpl; intros Hf; [reflexivity|].
  apply andb_prop in Hf as [Hc Hf].
  apply negb_true_iff in Hc. now rewrite Hc, (IH Hf).
Qed.






End StringFacts.

(** ** The bulk-fetch escaping *)

Section Unescape.

Import Stub.

Lemma unescape_newline r :
  unescape_from true (String "n" r)
  = res_bind (unescape_from false r) (fun out => Return (String LF out)).
Proof. reflexivity. Qed.

Lemma unescape_plain c r :
  c <> BSL ->
  unescape_from false (String c r)
  = res_bind (unescape_from false r) (fun out => Return (String c out)).
Proof.
  intros Hc. apply Ascii.eqb_neq in Hc. simpl. now rewrite Hc.
Qed.

(** Backslash followed by a byte other than [n] and backslash fails the
    generator's assertion, and so does a backslash that ends the line. *)
Lemma unescape_bad_escape c r :
  c <> "n"%char -> c <> BSL ->
  unescape_from true (String c r) = Raise (Exn AssertionError []).
Proof.
  intros Hn Hb. apply Ascii.eqb_neq in Hn, Hb. simpl. now rewrite Hn, Hb.
Qed.

Lemma unescape_trailing_backslash :
  unescape_from true "" = Raise (Exn AssertionError []).
Proof. reflexivity. Qed.

(** A backslash escaped by a backslash raises [ValueError], whatever
    follows. *)
Lemma unescape_escaped_backslash r :
  unescape_from true (String BSL r) = Raise (Exn ValueError []).
Proof. reflexivity. Qed.

(** Escaping then unescaping gives the value back as long as the value
    holds no backslash. *)
Lemma unescape_escape_backslash_free v :
  free_of BSL v = true -> unescape (escape v) = Return v.
Proof.
  unfold unescape. induction v as [|c v IH]; intros Hf; [reflexivity|].
  simpl in Hf. apply andb_prop in Hf as [Hc Hf].
  apply negb_true_iff in Hc. specialize (IH Hf).
  cbn [escape]. rewrite Hc.
  destruct (Ascii.eqb c LF) eqn:El.
  - apply Ascii.eqb_eq in El. subst c.
    cbn. cbn in IH. rewrite IH. reflexivity.
  - cbn [unescape_from]. rewrite Hc, IH. reflexivity.
Qed.

(** With a backslash in the value, the escaped form does not decode. *)
Lemma unescape_escape_backslash v :
  free_of BSL v = false -> unescape (escape v) = Raise (Exn ValueError []).
Proof.
  unfold unescape. induction v as [|c v IH]; intros Hf; [discriminate|].
  simpl in Hf. cbn [escape].
  destruct (Ascii.eqb c LF) eqn:El.
  - apply Ascii.eqb_eq in El. subst c. simpl in Hf.
    cbn. cbn in IH. now rewrite (IH Hf).
  - destruct (Ascii.eqb c BSL) eqn:Eb.
    + reflexivity.
    + simpl in Hf. cbn [unescape_from]. rewrite Eb, (IH Hf). reflexivity.
Qed.

(** C2: on a value that is one backslash, the escaped form is the doubled
    backslash, and [unescape] raises [ValueError] on it instead of
    yielding the backslash: escaping followed by unescaping is not the
    identity there. *)
Theorem unescape_doubled_backslash_raises :
  escape "\" = "\\" /\
  unescape "\\" = Raise (Exn ValueError []) /\
  unescape (escape "\") <> Return "\".
Proof.
  repeat split; try reflexivity. discriminate.
Qed.

End Unescape.

(** ** Response framing *)

Section Framing.
Context `{ExcModule}.



(** An error frame with fewer than five fields fails to unpack. *)
Lemma parse_short_error_frame response :
  slice_to 2 response = String "2" (String NUL "") ->
  List.length (split_max NUL 4 response) <> 5 ->
  _parse_qubesd_response response = Raise (Exn ValueError []).
Proof.
  intros H2 Hlen. unfold _parse_qubesd_response. rewrite H2.
  destruct response as [|c0 response]; [discriminate|].
  cbn [String.eqb].
  destruct (split_max NUL 4 (String c0 response))
    as [|f0 [|f1 [|f2 [|f3 [|f4 [|f5 l]]]]]]; try reflexivity.
  exfalso. apply Hlen. reflexivity.
Qed.


End Framing.

(** ** Frame reasoning in the monad *)

Section Preserves.
Context {St X : Type} (f : St -> X).

Lemma preserves_ret {A} (a : A) : preserves f (ret a).
Proof. intros s r s' E. now inversion E. Qed.

Lemma preserves_raise {A} c args : preserves f (@raise St A c args).
Proof. intros s r s' E. now inversion E. Qed.

Lemma preserves_gets {A} (g : St -> A) : preserves f (gets g).
Proof. intros s r s' E. now inversion E. Qed.

Lemma preserves_lift {A} (x : Result A) : preserves f (lift x).
Proof. intros s r s' E. now inversion E. Qed.

Lemma preserves_assert b : preserves f (@assert St b).
Proof. destruct b; [apply preserves_ret | apply preserves_raise]. Qed.

Lemma preserves_modify (g : St -> St) :
  (forall s, f (g s) = f s) -> preserves f (modify g).
Proof. intros Hg s r s' E. inversion E. apply Hg. Qed.

Lemma preserves_bind {A B} (m : M St A) (k : A -> M St B) :
  preserves f m -> (forall a, preserves f (k a)) -> preserves f (bind m k).
Proof.
  intros Hm Hk s r s' E. unfold bind in E.
  destruct (m s) as [[a|e] s1] eqn:Em.
  - rewrite (Hk a _ _ _ E). eapply Hm, Em.
  - inversion E; subst. eapply Hm, Em.
Qed.

Lemma preserves_try_except `{ExcModule} {A} (m : M St A) handlers k :
  preserves f m -> preserves f k -> preserves f (try_except m handlers k).
Proof.
  intros Hm Hk s r s' E. unfold try_except in E.
  destruct (m s) as [[a|e] s1] eqn:Em.
  - inversion E; subst. eapply Hm, Em.
  - destruct (caught_by handlers e).
    + rewrite (Hk _ _ _ E). eapply Hm, Em.
    + inversion E; subst. eapply Hm, Em.
Qed.

Lemma preserves_compose {A Y} (g : X -> Y) (m : M St A) :
  preserves f m -> preserves (fun s => g (f s)) m.
Proof. intros Hm s r s' E. now rewrite (Hm _ _ _ E). Qed.

(** A computation on a component leaves alone what the write-back does
    not touch. *)
Lemma preserves_zoom_out {T A} (proj : St -> T) (inj : T -> St -> St)
  (m : M T A) :
  (forall t s, f (inj t s) = f s) -> preserves f (zoom proj inj m).
Proof.
  intros Hi s r s' E. unfold zoom in E.
  destruct (m (proj s)) as [r1 t]. inversion E. apply Hi.
Qed.

(** ... and preserves what the component's computation preserves. *)
Lemma preserves_zoom_in {T A} (proj : St -> T) (inj : T -> St -> St)
  (g : T -> X) (m : M T A) :
  (forall s, g (proj s) = f s) ->
  (forall t s, f (inj t s) = g t) ->
  preserves g m -> preserves f (zoom proj inj m).
Proof.
  intros Hp Hi Hm s r s' E. unfold zoom in E.
  destruct (m (proj s)) as [r1 t] eqn:Em. inversion E.
  rewrite Hi, <- Hp. eapply Hm, Em.
Qed.

End Preserves.

(** Goals [preserves f m] by the structure of [m]. *)
Ltac preserve_step :=
  match goal with
  | |- preserves _ (bind _ _) => apply preserves_bind; [|intros]
  | |- preserves _ (ret _) => apply preserves_ret
  | |- preserves _ (raise _ _) => apply preserves_raise
  | |- preserves _ (gets _) => apply preserves_gets
  | |- preserves _ (lift _) => apply preserves_lift
  | |- preserves _ (assert _) => apply preserves_assert
  | |- preserves _ (try_except _ _ _) => apply preserves_try_except
  | |- preserves _ (modify _) => apply preserves_modify; intros; reflexivity
  | |- preserves _ (if ?b then _ else _) => destruct b
  | |- preserves _ (match ?x with _ => _ end) => destruct x
  | |- preserves _ (let '(_, _) := ?x in _) => destruct x
  | H : preserves ?f ?m |- preserves ?f ?m => exact H
  end.

Ltac preserve := repeat preserve_step.

(** ** The application object and the directories under calls *)

Section AppFacts.
Context `{ExcModule} `{Transport}.

Lemma app_qubesd_call_flags c : preserves app_flags (app_qubesd_call c).
Proof.
  intros a r a' E. unfold app_qubesd_call in E.
  destruct (transport_call c (remote a)). now inversion E.
Qed.

Lemma app_qubesd_call_next_id c : preserves next_id (app_qubesd_call c).
Proof.
  intros a r a' E. unfold app_qubesd_call in E.
  destruct (transport_call c (remote a)). now inversion E.
Qed.

Lemma construct_flags cls item : preserves app_flags (construct cls item).
Proof. intros a r a' E. now inversion E. Qed.

Lemma construct_io cls item : preserves app_io (construct cls item).
Proof. intros a r a' E. now inversion E. Qed.

End AppFacts.

(** ** Dictionaries *)

Section DictFacts.
Context {V : Type}.
Implicit Types (d : dict V) (k : str) (v : V).

Lemma dict_get_set_same k v d : dict_get k (dict_set k v d) = Some v.
Proof.
  induction d as [|[k' v'] d IH]; simpl.
  - now rewrite String.eqb_refl.
  - destruct (String.eqb k k') eqn:E; simpl.
    + now rewrite String.eqb_refl.
    + now rewrite E.
Qed.

Lemma dict_get_del_same k d : dict_get k (dict_del k d) = None.
Proof.
  induction d as [|[k' v'] d IH]; simpl; [reflexivity|].
  destruct (String.eqb k k') eqn:E; simpl; [assumption|].
  now rewrite E.
Qed.

Lemma dict_get_del_other k k' d :
  k <> k' -> dict_get k (dict_del k' d) = dict_get k d.
Proof.
  intros Hk. induction d as [|[k1 v1] d IH]; simpl; [reflexivity|].
  destruct (String.eqb k' k1) eqn:E1.
  - apply String.eqb_eq in E1. subst k1.
    apply String.eqb_neq in Hk. now rewrite Hk.
  - simpl. now rewrite IH.
Qed.

Lemma dict_get_del_none k k' d :
  dict_get k d = None -> dict_get k (dict_del k' d) = None.
Proof.
  intros Hn. destruct (string_dec k k') as [->|Hk].
  - apply dict_get_del_same.
  - now rewrite dict_get_del_other.
Qed.

Lemma in_dict_del k k' v d :
  In (k, v) (dict_del k' d) -> In (k, v) d /\ k <> k'.
Proof.
  induction d as [|[k1 v1] d IH]; simpl; [tauto|].
  destruct (String.eqb k' k1) eqn:E1.
  - intros Hin. destruct (IH Hin). auto.
  - simpl. intros [Heq|Hin].
    + inversion Heq; subst. apply String.eqb_neq in E1. auto.
    + destruct (IH Hin). auto.
Qed.

Lemma dict_get_in k v d : dict_get k d = Some v -> In (k, v) d.
Proof.
  induction d as [|[k1 v1] d IH]; simpl; [discriminate|].
  destruct (String.eqb k k1) eqn:E.
  - apply String.eqb_eq in E. intros Hs. inversion Hs; subst. auto.
  - auto.
Qed.

(** With every key bound once, a binding in the list is the one a lookup
    finds. *)
Lemma in_dict_get k v d :
  NoDup (dict_keys d) -> In (k, v) d -> dict_get k d = Some v.
Proof.
  induction d as [|[k1 v1] d IH]; simpl; [tauto|].
  intros Hnd [Heq|Hin]; inversion Hnd as [|? ? Hni Hnd']; subst.
  - inversion Heq; subst. now rewrite String.eqb_refl.
  - destruct (String.eqb k k1) eqn:E.
    + apply String.eqb_eq in E. subst k1. exfalso. apply Hni.
      change k with (fst (k, v)). now apply in_map.
    + now apply IH.
Qed.

Lemma dict_get_nonempty k v d : dict_get k d = Some v -> dict_is_empty d = false.
Proof. destruct d; [discriminate | reflexivity]. Qed.

End DictFacts.

(** ** [WrapperObjectsCollection]: refresh, blind lookup, indexed lookup *)

Section CollectionFacts.
Context `{ExcModule} `{Transport}.

Implicit Types (s : WOC.CollSt) (item : str).

(** The eviction loop only deletes, and it deletes every key whose object
    left the list. *)
Lemma evict_in names items : forall objs k o,
  In (k, o) (WOC.evict names items objs) ->
  In (k, o) objs /\
  (forall o', In (k, o') items -> mem (obj_name o') names = true).
Proof.
  unfold WOC.evict.
  induction items as [|[k1 o1] items IH]; simpl; intros objs k o Hin.
  - tauto.
  - apply IH in Hin as [Hin Hall].
    destruct (mem (obj_name o1) names) eqn:Em; simpl in Hin.
    + split; [assumption|]. intros o' [Heq|Hin']; [|now apply Hall].
      now inversion Heq; subst.
    + apply in_dict_del in Hin as [Hin Hne]. split; [assumption|].
      intros o' [Heq|Hin']; [|now apply Hall].
      inversion Heq; subst. congruence.
Qed.

Lemma evict_get_none names items : forall objs k,
  dict_get k objs = None -> dict_get k (WOC.evict names items objs) = None.
Proof.
  unfold WOC.evict.
  induction items as [|[k1 o1] items IH]; simpl; intros objs k Hn.
  - assumption.
  - apply IH. destruct (negb (mem (obj_name o1) names)); [|assumption].
    now apply dict_get_del_none.
Qed.

Lemma evict_stale names items : forall objs k o,
  In (k, o) items -> mem (obj_name o) names = false ->
  dict_get k (WOC.evict names items objs) = None.
Proof.
  induction items as [|[k1 o1] items IH]; simpl; intros objs k o Hin Hm.
  - tauto.
  - destruct Hin as [Heq|Hin].
    + inversion Heq; subst. unfold WOC.evict. simpl. rewrite Hm. simpl.
      apply (evict_get_none names items). apply dict_get_del_same.
    + unfold WOC.evict. simpl. eapply (IH _ k o); assumption.
Qed.

Lemma evict_live names items : forall objs k,
  (forall o', In (k, o') items -> mem (obj_name o') names = true) ->
  dict_get k (WOC.evict names items objs) = dict_get k objs.
Proof.
  unfold WOC.evict.
  induction items as [|[k1 o1] items IH]; simpl; intros objs k Hall.
  - reflexivity.
  - rewrite IH by (intros o' Ho; apply Hall; auto).
    destruct (mem (obj_name o1) names) eqn:Em; simpl; [reflexivity|].
    apply dict_get_del_other. intros ->.
    specialize (Hall o1 (or_introl eq_refl)). congruence.
Qed.

(** What a refresh that returns has done when it was forced or no list
    was cached: one list call, answered by newline-terminated ASCII
    [data]; the names are the lines of [data], the objects the survivors
    of the eviction loop. *)
Lemma refresh_cache_performed s force s' :
  force = true \/ WOC._names_list (WOC.self s) = None ->
  WOC.refresh_cache force s = (Return tt, s') ->
  exists data d,
    transport_call (list_call s) (remote (WOC.app s)) = (Return data, d)
    /\ is_ascii data = true
    /\ WOC.last_char data = Some LF
    /\ WOC.app s' = logged (list_call s) d (WOC.app s)
    /\ WOC._names_list (WOC.self s')
       = Some (str_splitlines (WOC.drop_last data))
    /\ WOC._objects (WOC.self s')
       = WOC.evict (str_splitlines (WOC.drop_last data))
           (WOC._objects (WOC.self s)) (WOC._objects (WOC.self s)).
Proof.
  intros Hgo E.
  assert (Hskip : negb force
      && match WOC._names_list (WOC.self s) with
         | Some _ => true | None => false end = false).
  { destruct Hgo as [->| ->]; [reflexivity | apply andb_false_r]. }
  unfold WOC.refresh_cache in E.
  cbv [bind gets] in E. rewrite Hskip in E.
  cbv [WOC.in_app zoom app_qubesd_call] in E. fold (list_call s) in E.
  destruct (transport_call (list_call s) (remote (WOC.app s)))
    as [[data|e] d] eqn:Et; [|discriminate].
  exists data, d. split; [reflexivity|].
  cbv [lift decoded decode_ascii] in E.
  destruct (is_ascii data) eqn:Ea; [|discriminate].
  destruct (WOC.last_char data) as [c|] eqn:El; [|discriminate].
  cbv [bind assert ret raise] in E.
  destruct (Ascii.eqb c LF) eqn:Ec; [|discriminate].
  apply Ascii.eqb_eq in Ec. subst c.
  cbv [WOC.set_names_list WOC.set_objects modify gets] in E.
  inversion E; subst; clear E. cbn. auto.
Qed.

End CollectionFacts.

Section CollectionClaims.
Context `{ExcModule} `{Transport}.

Implicit Types (s : WOC.CollSt) (item : str).

Lemma get_blind_total s item :
  exists o s',
    WOC.get_blind item s = (Return o, s')
    /\ app_io (WOC.app s') = app_io (WOC.app s)
    /\ app_flags (WOC.app s') = app_flags (WOC.app s)
    /\ WOC._names_list (WOC.self s') = WOC._names_list (WOC.self s)
    /\ dict_get item (WOC._objects (WOC.self s')) = Some o.
Proof.
  unfold WOC.get_blind. cbv [bind gets].
  destruct (dict_get item (WOC._objects (WOC.self s))) as [o|] eqn:Eg.
  - exists o, s. cbv [ret]. auto.
  - eexists. eexists. split; [reflexivity|]. cbn.
    rewrite dict_get_set_same. auto.
Qed.

Lemma refresh_cache_names s s' force :
  WOC.refresh_cache force s = (Return tt, s') ->
  exists names, WOC._names_list (WOC.self s') = Some names.
Proof.
  intros E.
  destruct (negb force
      && match WOC._names_list (WOC.self s) with
         | Some _ => true | None => false end) eqn:Hskip.
  - unfold WOC.refresh_cache in E. cbv [bind gets] in E.
    rewrite Hskip in E. inversion E; subst.
    apply andb_prop in Hskip as [_ Hn].
    destruct (WOC._names_list (WOC.self s')) as [l|]; [eauto|discriminate].
  - destruct (refresh_cache_performed s force s') as (data & d & Hp); auto.
    { apply andb_false_iff in Hskip as [Hf|Hn].
      - left. now destruct force.
      - right. now destruct (WOC._names_list (WOC.self s)). }
    destruct Hp as (_ & _ & _ & _ & Hn & _). eauto.
Qed.

Lemma refresh_cache_constructs_nothing s s' r force :
  WOC.refresh_cache force s = (r, s') ->
  next_id (WOC.app s') = next_id (WOC.app s).
Proof.
  revert s r s'.
  change (preserves (fun s => next_id (WOC.app s)) (WOC.refresh_cache force)).
  unfold WOC.refresh_cache. preserve.
  - unfold WOC.in_app.
    apply preserves_zoom_in with (g := next_id); auto.
    apply app_qubesd_call_next_id.
  - unfold WOC.set_names_list. preserve.
  - unfold WOC.set_objects. preserve.
Qed.

Lemma refresh_cache_only_evicts s s' force :
  WOC.refresh_cache force s = (Return tt, s') ->
  forall k o, In (k, o) (WOC._objects (WOC.self s')) ->
              In (k, o) (WOC._objects (WOC.self s)).
Proof.
  intros E k o Hin.
  destruct (negb force
      && match WOC._names_list (WOC.self s) with
         | Some _ => true | None => false end) eqn:Hskip.
  - unfold WOC.refresh_cache in E. cbv [bind gets] in E.
    rewrite Hskip in E. inversion E; subst. assumption.
  - destruct (refresh_cache_performed s force s') as (data & d & Hp); auto.
    { apply andb_false_iff in Hskip as [Hf|Hn].
      - left. now destruct force.
      - right. now destruct (WOC._names_list (WOC.self s)). }
    destruct Hp as (_ & _ & _ & _ & _ & Ho). rewrite Ho in Hin.
    now apply evict_in in Hin.
Qed.

Lemma refresh_cache_invariant s force s' :
  force = true \/ WOC._names_list (WOC.self s) = None ->
  WOC.refresh_cache force s = (Return tt, s') ->
  exists names,
    WOC._names_list (WOC.self s') = Some names
    /\ (forall k o, In (k, o) (WOC._objects (WOC.self s')) ->
          mem (obj_name o) names = true
          /\ In (k, o) (WOC._objects (WOC.self s)))
    /\ (NoDup (dict_keys (WOC._objects (WOC.self s))) ->
        forall k o, dict_get k (WOC._objects (WOC.self s)) = Some o ->
          dict_get k (WOC._objects (WOC.self s'))
          = if mem (obj_name o) names then Some o else None).
Proof.
  intros Hgo E.
  destruct (refresh_cache_performed s force s' Hgo E)
    as (data & d & _ & _ & _ & _ & Hn & Ho).
  eexists. split; [exact Hn|]. rewrite Ho. split.
  - intros k o Hin. apply evict_in in Hin as [Hin Hall].
    split; [now apply Hall | assumption].
  - intros Hnd k o Hg.
    destruct (mem (obj_name o) (str_splitlines (WOC.drop_last data))) eqn:Em.
    + rewrite evict_live; [assumption|].
      intros o' Hin'. apply (in_dict_get _ _ _ Hnd) in Hin'.
      congruence.
    + apply (evict_stale _ _ _ k o); [apply dict_get_in; exact Hg | exact Em].
Qed.

(** C8: [get_blind] returns a wrapper for every name, cached under that
    name, with no call sent; outside blind mode, [__getitem__] of a name
    missing from the refreshed list raises [KeyError] in the state the
    refresh left, in which no wrapper was constructed or added. *)
Theorem get_blind_never_lists_getitem_checks :
  (forall s item,
     exists o s',
       WOC.get_blind item s = (Return o, s')
       /\ app_io (WOC.app s') = app_io (WOC.app s)
       /\ WOC._names_list (WOC.self s') = WOC._names_list (WOC.self s)
       /\ dict_get item (WOC._objects (WOC.self s')) = Some o)
  /\
  (forall s item s1,
     blind_mode (WOC.app s) = false ->
     WOC.refresh_cache false s = (Return tt, s1) ->
     exists names,
       WOC._names_list (WOC.self s1) = Some names
       /\ (mem item names = false ->
           WOC.__getitem__ item s = (Raise (Exn KeyError [item]), s1)
           /\ next_id (WOC.app s1) = next_id (WOC.app s)
           /\ forall k o, In (k, o) (WOC._objects (WOC.self s1)) ->
                          In (k, o) (WOC._objects (WOC.self s)))).
Proof.
  split.
  - intros s item.
    destruct (get_blind_total s item) as (o & s' & E & Hio & _ & Hn & Hg).
    exists o, s'. auto.
  - intros s item s1 Hb E.
    destruct (refresh_cache_names _ _ _ E) as [names Hn].
    exists names. split; [assumption|]. intros Hm.
    split; [|split].
    + unfold WOC.__getitem__, WOC.__contains__.
      cbv [bind gets]. rewrite Hb. cbn [negb]. cbv [bind].
      rewrite E. cbv [gets]. rewrite Hn. cbv [ret]. rewrite Hm. reflexivity.
    + eapply refresh_cache_constructs_nothing, E.
    + eapply refresh_cache_only_evicts, E.
Qed.

End CollectionClaims.

(** C7: the scenario of the claim on a scripted daemon, then the general
    fact: after a refresh that fetched the list, every cached wrapper has
    its name in the new list and is one of the wrappers cached before,
    and a wrapper cached before is still cached under its key exactly
    when its name is in the new list. *)
Theorem refresh_cache_evicts_absent_names :
  (let s0 := Stub.listing_state in
   let oa := {| obj_id := 0; obj_class := Label; obj_name := "a" |} in
   let ob := {| obj_id := 1; obj_class := Label; obj_name := "b" |} in
   let oc := {| obj_id := 2; obj_class := Label; obj_name := "c" |} in
   let s1 := snd (WOC.keys s0) in
   let s2 := snd (WOC.get_blind "a" s1) in
   let s3 := snd (WOC.get_blind "b" s2) in
   let s4 := snd (WOC.get_blind "c" s3) in
   let s5 := snd (WOC.refresh_cache true s4) in
   fst (WOC.keys s0) = Return ["a"; "b"; "c"]
   /\ fst (WOC.get_blind "a" s1) = Return oa
   /\ fst (WOC.get_blind "b" s2) = Return ob
   /\ fst (WOC.get_blind "c" s3) = Return oc
   /\ fst (WOC.refresh_cache true s4) = Return tt
   /\ WOC.keys s5 = (Return ["a"; "c"], s5)
   /\ WOC._objects (WOC.self s5) = [("a", oa); ("c", oc)]
   /\ WOC.get_blind "a" s5 = (Return oa, s5)
   /\ WOC.get_blind "c" s5 = (Return oc, s5))
  /\
  (forall (T : Transport) (s : @WOC.CollSt T) force s',
     force = true \/ WOC._names_list (WOC.self s) = None ->
     WOC.refresh_cache force s = (Return tt, s') ->
     exists names,
       WOC._names_list (WOC.self s') = Some names
       /\ (forall k o, In (k, o) (WOC._objects (WOC.self s')) ->
             mem (obj_name o) names = true
             /\ In (k, o) (WOC._objects (WOC.self s)))
       /\ (NoDup (dict_keys (WOC._objects (WOC.self s))) ->
           forall k o, dict_get k (WOC._objects (WOC.self s)) = Some o ->
             dict_get k (WOC._objects (WOC.self s'))
             = if mem (obj_name o) names then Some o else None)).
Proof.
  split.
  - vm_compute. repeat split.
  - intros T s force s'. apply refresh_cache_invariant.
Qed.

(** ** [PropertyHolder]: what each step leaves alone *)

Section HolderFrames.
Context `{ExcModule} `{Transport}.

Implicit Types (s : PH.HolderSt) (item : str).

Lemma get_blind_flags item :
  preserves (fun c => app_flags (WOC.app c)) (WOC.get_blind item).
Proof.
  unfold WOC.get_blind, WOC.set_objects. preserve.
  unfold WOC.in_app. apply preserves_zoom_in with (g := app_flags); auto.
  apply construct_flags.
Qed.

Lemma get_blind_io item :
  preserves (fun c => app_io (WOC.app c)) (WOC.get_blind item).
Proof.
  unfold WOC.get_blind, WOC.set_objects. preserve.
  unfold WOC.in_app. apply preserves_zoom_in with (g := app_io); auto.
  apply construct_io.
Qed.

(** A holder's call writes the daemon and the log only. *)
Lemma qubesd_call_self dest method arg payload :
  preserves PH.self (PH.qubesd_call dest method arg payload).
Proof.
  unfold PH.qubesd_call. preserve.
  unfold PH.in_app. now apply preserves_zoom_out.
Qed.

Lemma qubesd_call_flags dest method arg payload :
  preserves holder_flags (PH.qubesd_call dest method arg payload).
Proof.
  unfold PH.qubesd_call. preserve.
  unfold PH.in_app. apply preserves_zoom_in with (g := app_flags); auto.
  apply app_qubesd_call_flags.
Qed.

(** Without redirection a holder's call is the transport's call. *)
Lemma qubesd_call_direct s dest method arg payload :
  PH._redirect_dispvm_calls (PH.self s) = false ->
  PH.qubesd_call (Some dest) method arg payload s
  = let c := {| call_dest := dest; call_method := method;
                call_arg := arg; call_payload := payload |} in
    let (r, d) := transport_call c (remote (PH.app s)) in
    (r, after_call c d s).
Proof.
  intros Hr. unfold PH.qubesd_call. cbv [bind ret gets].
  rewrite Hr. cbn [andb]. cbv [PH.in_app zoom app_qubesd_call].
  destruct (transport_call _ _). reflexivity.
Qed.

(** Whatever the destination, a holder's call either fails the assertion
    on the default disposable VM before anything is sent, or sends one
    call with the method, the argument and the payload it was given. *)
Lemma qubesd_call_sends s dest method arg payload r s' :
  PH.qubesd_call dest method arg payload s = (r, s') ->
  (r = Raise (Exn AssertionError []) /\ s' = s)
  \/ exists dest' d,
       transport_call
         {| call_dest := dest'; call_method := method;
            call_arg := arg; call_payload := payload |} (remote (PH.app s))
       = (r, d)
       /\ s' = after_call
                 {| call_dest := dest'; call_method := method;
                    call_arg := arg; call_payload := payload |} d s.
Proof.
  unfold PH.qubesd_call. intros E.
  cbv [bind gets ret raise PH.in_app zoom app_qubesd_call] in E.
  destruct dest as [dest|];
    destruct (PH._redirect_dispvm_calls (PH.self s)); cbn [andb] in E;
    repeat match type of E with
    | context [if ?b then _ else _] => destruct b
    | context [match default_dispvm ?a with _ => _ end] =>
      destruct (default_dispvm a)
    end;
    try (inversion E; subst; left; split; reflexivity);
    match type of E with
    | context [transport_call ?c ?x] =>
      destruct (transport_call c x) as [r0 d] eqn:Et;
      inversion E; subst; right; eexists; exists d;
      split; [exact Et | reflexivity]
    end.
Qed.

(** Decoding a typed value sends nothing and leaves the holder alone; it
    may construct wrappers in the directories. *)
Lemma parse_type_value_self prop_type value :
  preserves PH.self (PH._parse_type_value prop_type value).
Proof.
  unfold PH._parse_type_value. preserve;
    (unfold PH.in_domains, PH.in_labels; now apply preserves_zoom_out).
Qed.

Lemma parse_type_value_flags prop_type value :
  preserves holder_flags (PH._parse_type_value prop_type value).
Proof.
  unfold PH._parse_type_value. preserve;
    (unfold PH.in_domains, PH.in_labels;
     apply preserves_zoom_in with (g := fun c => app_flags (WOC.app c));
     auto using get_blind_flags).
Qed.

Lemma parse_type_value_io prop_type value :
  preserves holder_io (PH._parse_type_value prop_type value).
Proof.
  unfold PH._parse_type_value. preserve;
    (unfold PH.in_domains, PH.in_labels;
     apply preserves_zoom_in with (g := fun c => app_io (WOC.app c));
     auto using get_blind_io).
Qed.

Lemma deserialize_property_self api_response :
  preserves PH.self (PH._deserialize_property api_response).
Proof.
  unfold PH._deserialize_property. preserve. apply parse_type_value_self.
Qed.

Lemma deserialize_property_flags api_response :
  preserves holder_flags (PH._deserialize_property api_response).
Proof.
  unfold PH._deserialize_property. preserve. apply parse_type_value_flags.
Qed.

Lemma deserialize_property_io api_response :
  preserves holder_io (PH._deserialize_property api_response).
Proof.
  unfold PH._deserialize_property. preserve. apply parse_type_value_io.
Qed.

Lemma set_properties_cache_flags d :
  preserves holder_flags (PH.set_properties_cache d).
Proof. unfold PH.set_properties_cache, PH.with_self. preserve. Qed.

Lemma set_properties_cache_io d :
  preserves holder_io (PH.set_properties_cache d).
Proof. unfold PH.set_properties_cache, PH.with_self. preserve. Qed.

Lemma fetch_lines_flags lines : preserves holder_flags (PH.fetch_lines lines).
Proof.
  induction lines as [|line rest IH]; cbn [PH.fetch_lines]; preserve.
  - apply deserialize_property_flags.
  - apply set_properties_cache_flags.
Qed.

(** The loop over the lines of a bulk reply sends nothing. *)
Lemma fetch_lines_io lines : preserves holder_io (PH.fetch_lines lines).
Proof.
  induction lines as [|line rest IH]; cbn [PH.fetch_lines]; preserve.
  - apply deserialize_property_io.
  - apply set_properties_cache_io.
Qed.

Lemma fetch_all_properties_flags :
  preserves holder_flags PH._fetch_all_properties.
Proof.
  unfold PH._fetch_all_properties. preserve.
  - apply qubesd_call_flags.
  - apply fetch_lines_flags.
  - unfold PH.set_properties, PH.with_self. preserve.
Qed.

Lemma prefill_flags : preserves holder_flags PH.prefill.
Proof.
  unfold PH.prefill. preserve. apply fetch_all_properties_flags.
Qed.

Lemma getattr_flags item : preserves holder_flags (PH.__getattr__ item).
Proof.
  unfold PH.__getattr__, PH.return_value. preserve;
    auto using prefill_flags, qubesd_call_flags,
      deserialize_property_flags, set_properties_cache_flags.
Qed.

End HolderFrames.

(** ** [PropertyHolder]: the cache under get, set and delete *)

Section HolderCache.
Context `{ExcModule} `{Transport}.

Implicit Types (s : PH.HolderSt) (item : str).

Lemma flags_cache_enabled s s' :
  holder_flags s' = holder_flags s ->
  cache_enabled (PH.app s') = cache_enabled (PH.app s).
Proof. unfold holder_flags, app_flags. intros E. now inversion E. Qed.

(** With an entry in the cache the pre-fill step does nothing. *)
Lemma prefill_noop s :
  dict_is_empty (PH._properties_cache (PH.self s)) = false ->
  PH.prefill s = (Return tt, s).
Proof.
  intros Hne. unfold PH.prefill. cbv [bind gets].
  rewrite Hne, andb_false_r. reflexivity.
Qed.

(** A cached value is returned as it is, with the state untouched. *)
Lemma getattr_cached s item d v :
  startswith "_" item = false ->
  dict_get item (PH._properties_cache (PH.self s)) = Some (d, v) ->
  v <> VAttributeError ->
  PH.__getattr__ item s = (Return v, s).
Proof.
  intros Hu Hg Hv. unfold PH.__getattr__. rewrite Hu.
  unfold bind at 1. rewrite prefill_noop by (eapply dict_get_nonempty, Hg).
  cbv [bind gets]. rewrite Hg.
  destruct v; try reflexivity. congruence.
Qed.

(** With caching enabled, a get that returns leaves its value cached. *)
Lemma getattr_caches s item v s' :
  cache_enabled (PH.app s) = true ->
  PH.__getattr__ item s = (Return v, s') ->
  startswith "_" item = false
  /\ v <> VAttributeError
  /\ exists d, dict_get item (PH._properties_cache (PH.self s')) = Some (d, v).
Proof.
  intros Hen E. unfold PH.__getattr__ in E.
  destruct (startswith "_" item) eqn:Hu; [discriminate|].
  split; [reflexivity|].
  unfold bind at 1 in E.
  destruct (PH.prefill s) as [[[]|e] s0] eqn:Ep; [|discriminate].
  assert (Hen0 : cache_enabled (PH.app s0) = true).
  { rewrite <- Hen. apply flags_cache_enabled. eapply prefill_flags, Ep. }
  unfold bind at 1 in E. unfold gets at 1 in E.
  destruct (dict_get item (PH._properties_cache (PH.self s0)))
    as [[d value]|] eqn:Eg.
  - destruct value; inversion E; subst; (split; [discriminate|eauto]).
  - unfold bind at 1 in E. unfold gets at 1 in E.
    destruct (PH.not_listed _ _); [discriminate|].
    do 3 (unfold bind at 1 in E; unfold gets at 1 in E).
    match type of E with
    | context [try_except ?m ?h ?k s0] =>
      assert (Pself : preserves PH.self (try_except m h k))
        by (preserve; apply qubesd_call_self);
      assert (Pflags : preserves holder_flags (try_except m h k))
        by (preserve; apply qubesd_call_flags);
      destruct (try_except m h k s0) as [[property_str|e] s1] eqn:Et;
        [|discriminate]
    end.
    apply Pflags in Et as Hf1. clear Pself Pflags.
    unfold bind at 1 in E.
    destruct (PH._deserialize_property property_str s1)
      as [[[is_default value]|e] s2] eqn:Ed; [|discriminate].
    apply deserialize_property_flags in Ed as Hf2.
    assert (Hen2 : cache_enabled (PH.app s2) = true).
    { rewrite <- Hen0.
      rewrite (flags_cache_enabled _ _ Hf2). now apply flags_cache_enabled. }
    unfold bind at 1 in E. unfold gets at 1 in E. rewrite Hen2 in E.
    cbv [bind gets PH.set_properties_cache PH.with_self modify] in E.
    destruct value; inversion E; subst; cbn;
      rewrite dict_get_set_same; (split; [discriminate|eauto]).
Qed.

(** C6: with caching enabled, after a get of a property has returned, a
    second get on the state it left returns the same value and leaves
    that state as it is: nothing is sent to the daemon, the call log
    included in the state does not grow. *)
Theorem second_get_served_from_cache s item v s' :
  cache_enabled (PH.app s) = true ->
  PH.__getattr__ item s = (Return v, s') ->
  PH.__getattr__ item s' = (Return v, s').
Proof.
  intros Hen E.
  destruct (getattr_caches _ _ _ _ Hen E) as (Hu & Hv & d & Hg).
  eapply getattr_cached; eassumption.
Qed.

Lemma is_local_eq s key :
  PH.is_local key s
  = (Return (startswith "_" key
             || mem key (PH._local_properties_set (PH.self s))), s).
Proof. reflexivity. Qed.




End HolderCache.

(** ** [PropertyHolder]: failures of the call *)

Section HolderFailures.
Context `{ExcModule} `{Transport}.

Implicit Types (s : PH.HolderSt) (item : str).

(** [qubesadmin/exc.py] decides whether [except QubesDaemonNoResponseError]
    catches a [QubesDaemonAccessError]; the handlers of the modelled files
    use the two names for the same failures. *)
Hypothesis access_is_no_response :
  subclass QubesDaemonAccessError QubesDaemonNoResponseError = true.



Lemma bind_raise {St A B} (m : M St A) (k : A -> M St B) (t : St) e t1 :
  m t = (Raise e, t1) -> bind m k t = (Raise e, t1).
Proof. intros Em. unfold bind. now rewrite Em. Qed.


End HolderFailures.

(** ** [PropertyHolder]: the bulk prefetch *)

Section BulkPrefetch.
Context `{ExcModule} `{Transport}.

Implicit Types (s : PH.HolderSt) (item : str).

(** [_fetch_all_properties], call by call: one [GetAll] goes out; a reply
    is decoded line by line, a failure is dropped when
    [except QubesDaemonNoResponseError] catches it. *)
Lemma fetch_all_properties_eq s :
  PH._redirect_dispvm_calls (PH.self s) = false ->
  PH._fetch_all_properties s
  = let c := holder_call s "GetAll" None None in
    match transport_call c (remote (PH.app s)) with
    | (Return data, d) =>
      bind (PH.fetch_lines (bytes_splitlines data))
        (fun _ =>
           bind (gets (fun s => PH._properties_cache (PH.self s)))
             (fun cache => PH.set_properties (Some (dict_keys cache))))
        (after_call c d s)
    | (Raise e, d) =>
      if caught_by [QubesDaemonNoResponseError] e
      then (Return tt, after_call c d s)
      else (Raise e, after_call c d s)
    end.
Proof.
  intros Hr. unfold PH._fetch_all_properties.
  do 2 (unfold bind at 1; unfold gets at 1).
  unfold bind at 1. unfold try_except. unfold bind at 1.
  rewrite (qubesd_call_direct _ _ _ _ _ Hr). cbv zeta.
  fold (holder_call s "GetAll" None None).
  destruct (transport_call (holder_call s "GetAll" None None)
              (remote (PH.app s))) as [[data|e] d].
  - reflexivity.
  - destruct (caught_by [QubesDaemonNoResponseError] e); reflexivity.
Qed.

Lemma fetch_all_properties_one_call s r s' :
  PH._redirect_dispvm_calls (PH.self s) = false ->
  PH._fetch_all_properties s = (r, s') ->
  call_log (PH.app s')
  = (call_log (PH.app s) ++ [holder_call s "GetAll" None None])%list.
Proof.
  intros Hr E. rewrite (fetch_all_properties_eq _ Hr) in E. cbv zeta in E.
  destruct (transport_call (holder_call s "GetAll" None None)
              (remote (PH.app s))) as [[data|e] d].
  - match type of E with
    | ?m _ = _ =>
      assert (P : preserves holder_io m)
        by (preserve;
            [apply fetch_lines_io
            |unfold PH.set_properties, PH.with_self; preserve])
    end.
    apply P in E. unfold holder_io, app_io in E. now inversion E.
  - destruct (caught_by [QubesDaemonNoResponseError] e);
      now inversion E.
Qed.

Lemma fetch_lines_prefix lines :
  preserves (fun s => PH._method_prefix (PH.self s)) (PH.fetch_lines lines).
Proof.
  induction lines as [|line rest IH]; cbn [PH.fetch_lines]; preserve.
  - apply (preserves_compose PH.self PH._method_prefix),
      deserialize_property_self.
  - unfold PH.set_properties_cache, PH.with_self. preserve.
Qed.

Lemma fetch_all_properties_prefix :
  preserves (fun s => PH._method_prefix (PH.self s)) PH._fetch_all_properties.
Proof.
  unfold PH._fetch_all_properties. preserve.
  - apply (preserves_compose PH.self PH._method_prefix), qubesd_call_self.
  - apply fetch_lines_prefix.
  - unfold PH.set_properties, PH.with_self. preserve.
Qed.

Lemma prefill_prefix :
  preserves (fun s => PH._method_prefix (PH.self s)) PH.prefill.
Proof.
  unfold PH.prefill. preserve. apply fetch_all_properties_prefix.
Qed.

(** The calls of one [__getattr__]: those of the pre-fill step, then at
    most one [Get] for the item. *)
Lemma getattr_calls s item r s' :
  startswith "_" item = false ->
  PH.__getattr__ item s = (r, s') ->
  exists r0 s0,
    PH.prefill s = (r0, s0)
    /\ (call_log (PH.app s') = call_log (PH.app s0)
        \/ exists dest,
             call_log (PH.app s')
             = (call_log (PH.app s0)
                ++ [ {| call_dest := dest;
                        call_method :=
                          (PH._method_prefix (PH.self s0) ++ "Get")%string;
                        call_arg := Some item;
                        call_payload := None |} ])%list).
Proof.
  intros Hu E. unfold PH.__getattr__ in E. rewrite Hu in E.
  unfold bind at 1 in E.
  destruct (PH.prefill s) as [[[]|e] s0] eqn:Ep.
  2:{ inversion E; subst. eauto. }
  exists (Return tt), s0. split; [reflexivity|].
  unfold bind at 1 in E. unfold gets at 1 in E.
  destruct (dict_get item (PH._properties_cache (PH.self s0)))
    as [[d value]|].
  { left. destruct value; now inversion E. }
  unfold bind at 1 in E. unfold gets at 1 in E.
  destruct (PH.not_listed _ _); [left; now inversion E|].
  do 2 (unfold bind at 1 in E; unfold gets at 1 in E).
  unfold bind at 1 in E. unfold try_except at 1 in E.
  destruct (PH.qubesd_call _ _ _ _ s0) as [rq sq] eqn:Eq.
  assert (Hrest : holder_io s' = holder_io sq).
  { destruct rq as [property_str|e].
    - match type of E with
      | ?m sq = _ => assert (P : preserves holder_io m)
      end.
      { unfold PH.return_value. preserve;
          auto using deserialize_property_io, set_properties_cache_io. }
      exact (P _ _ _ E).
    - destruct (caught_by _ e); now inversion E. }
  assert (Hlog : call_log (PH.app s') = call_log (PH.app sq))
    by (unfold holder_io, app_io in Hrest; now inversion Hrest).
  rewrite Hlog.
  apply qubesd_call_sends in Eq as [[_ ->]|(dest & d & _ & ->)].
  - left. reflexivity.
  - right. exists dest. reflexivity.
Qed.

(** A failure of the [GetAll] call that the handler does not catch comes
    out of the property access as it is, not remapped. *)
Lemma prefetch_failure_propagates s item e d :
  PH._redirect_dispvm_calls (PH.self s) = false ->
  cache_enabled (PH.app s) = true ->
  PH._properties_cache (PH.self s) = [] ->
  startswith "_" item = false ->
  transport_call (holder_call s "GetAll" None None) (remote (PH.app s))
  = (Raise e, d) ->
  caught_by [QubesDaemonNoResponseError] e = false ->
  PH.__getattr__ item s
  = (Raise e, after_call (holder_call s "GetAll" None None) d s).
Proof.
  intros Hr Hen Hnil Hu Et Hc. unfold PH.__getattr__. rewrite Hu.
  apply bind_raise. unfold PH.prefill. cbv [bind gets].
  rewrite Hen, Hnil. cbn [andb dict_is_empty].
  rewrite (fetch_all_properties_eq _ Hr). cbv zeta. now rewrite Et, Hc.
Qed.

(** C4, as the code has it: the pre-fill step of a property access sends
    one [GetAll] exactly when caching is enabled and the cache is empty;
    a failure that [except QubesDaemonNoResponseError] catches is dropped
    and leaves the holder, its empty cache included, as it was, so that
    the next access sends [GetAll] again; once the cache holds an entry,
    which a get that returns ensures, the pre-fill step does nothing; an
    exception raised while the lines of a reply are decoded comes out of
    [_fetch_all_properties] as it is. *)
Theorem bulk_prefetch_while_cache_empty s :
  PH._redirect_dispvm_calls (PH.self s) = false ->
  let c := holder_call s "GetAll" None None in
  (cache_enabled (PH.app s) = true ->
   PH._properties_cache (PH.self s) = [] ->
   PH.prefill s = PH._fetch_all_properties s
   /\ (forall r s',
         PH._fetch_all_properties s = (r, s') ->
         call_log (PH.app s') = (call_log (PH.app s) ++ [c])%list)
   /\ (forall item r s',
         startswith "_" item = false ->
         PH.__getattr__ item s = (r, s') ->
         call_log (PH.app s') = (call_log (PH.app s) ++ [c])%list
         \/ exists dest,
              call_log (PH.app s')
              = (call_log (PH.app s)
                 ++ [c; {| call_dest := dest;
                           call_method :=
                             (PH._method_prefix (PH.self s) ++ "Get")%string;
                           call_arg := Some item;
                           call_payload := None |}])%list))
  /\
  (forall e d,
     transport_call c (remote (PH.app s)) = (Raise e, d) ->
     isinstance e QubesDaemonNoResponseError = true ->
     PH._fetch_all_properties s = (Return tt, after_call c d s))
  /\
  (PH._properties_cache (PH.self s) <> [] ->
   PH.prefill s = (Return tt, s))
  /\
  (forall item v s',
     cache_enabled (PH.app s) = true ->
     PH.__getattr__ item s = (Return v, s') ->
     PH._properties_cache (PH.self s') <> []
     /\ cache_enabled (PH.app s') = true)
  /\
  (forall data d e s2,
     transport_call c (remote (PH.app s)) = (Return data, d) ->
     PH.fetch_lines (bytes_splitlines data) (after_call c d s)
     = (Raise e, s2) ->
     PH._fetch_all_properties s = (Raise e, s2)).
Proof.
  intros Hr c. split; [|split; [|split; [|split]]].
  - intros Hen Hnil.
    assert (Hp : PH.prefill s = PH._fetch_all_properties s).
    { unfold PH.prefill. cbv [bind gets]. rewrite Hen, Hnil. reflexivity. }
    split; [exact Hp|]. split.
    + intros r s' E. now apply fetch_all_properties_one_call in E.
    + intros item r s' Hu E.
      destruct (getattr_calls _ _ _ _ Hu E) as (r0 & s0 & Ep & Hcalls).
      rewrite (prefill_prefix _ _ _ Ep) in Hcalls.
      rewrite Hp in Ep.
      apply fetch_all_properties_one_call in Ep; [|assumption].
      fold c in Ep. rewrite Ep in Hcalls.
      destruct Hcalls as [Hl|[dest Hl]]; [left; exact Hl|].
      right. exists dest. rewrite Hl, <- app_assoc. reflexivity.
  - intros e d Et Hi. rewrite (fetch_all_properties_eq _ Hr). cbv zeta.
    fold c. rewrite Et. cbn [caught_by existsb]. now rewrite Hi.
  - intros Hne. apply prefill_noop.
    destruct (PH._properties_cache (PH.self s)); [congruence|reflexivity].
  - intros item v s' Hen E.
    destruct (getattr_caches _ _ _ _ Hen E) as (_ & _ & d & Hg). split.
    + intros Hnil. rewrite Hnil in Hg. discriminate.
    + rewrite <- Hen. apply flags_cache_enabled.
      eapply getattr_flags, E.
  - intros data d e s2 Et Ef. rewrite (fetch_all_properties_eq _ Hr).
    cbv zeta. fold c. rewrite Et. now apply bind_raise.
Qed.

End BulkPrefetch.

(** ** [PropertyHolder]: decoding typed values *)

Section TypedValues.
Context `{ExcModule} `{Transport}.

Implicit Types (s : PH.HolderSt) (kind v : str) (value : bytes).






End TypedValues.

(** ** [Features]: the payload of a set *)

Section FeatureValues.
Context `{Transport}.

Implicit Types (s : PH.HolderSt) (value : Value).

(** C10: [Features.__setitem__] sends one [admin.vm.feature.Set] call
    whose payload is [1] for [True], empty for [False], and the encoded
    [str(value)] for every other value, [0] for the integer zero; no
    call with another payload is ever logged by it. *)
Theorem features_setitem_payload :
  (forall s vm_name key value r d,
     PH._redirect_dispvm_calls (PH.self s) = false ->
     let c := feature_call vm_name key (claimed_payload value) in
     transport_call c (remote (PH.app s)) = (r, d) ->
     Features.__setitem__ vm_name key value s
     = (match r with Return _ => Return tt | Raise e => Raise e end,
        after_call c d s))
  /\ (forall s vm_name key value r s',
        Features.__setitem__ vm_name key value s = (r, s') ->
        call_log (PH.app s') = call_log (PH.app s)
        \/ exists dest,
             call_log (PH.app s')
             = (call_log (PH.app s)
                ++ [feature_call dest key (claimed_payload value)])%list)
  /\ claimed_payload (VBool true) = "1"
  /\ claimed_payload (VBool false) = ""
  /\ (forall value,
        Features.is_bool value = false ->
        claimed_payload value = encode_utf8 (py_str value))
  /\ claimed_payload (VInt 0) = "0".
Proof.
  split; [|split; [|split; [reflexivity|split; [reflexivity|split;
    [intros value Hb; destruct value; try reflexivity; discriminate
    |reflexivity]]]]].
  2:{ intros s vm_name key value r s' E.
      unfold Features.__setitem__ in E.
      assert (Hq : exists r0,
                PH.qubesd_call (Some vm_name) "admin.vm.feature.Set"
                  (Some key) (Some (claimed_payload value)) s = (r0, s')).
      { destruct value as [x|[|]|n| |o|];
          cbn [Features.is_bool Features.truth claimed_payload] in *;
          unfold bind in E;
          match type of E with
          | context [PH.qubesd_call ?a ?b ?c ?d s] =>
            destruct (PH.qubesd_call a b c d s) as [[x0|e0] s0] eqn:Eq;
            inversion E; subst; eexists; first [exact Eq | reflexivity]
          end. }
      destruct Hq as [r0 Eq].
      apply qubesd_call_sends in Eq as [[_ ->]|(dest & d & _ & ->)].
      - left. reflexivity.
      - right. exists dest. reflexivity. }
  intros s vm_name key value r d Hr c Et. subst c.
  unfold feature_call in *. unfold Features.__setitem__.
  destruct value as [x|[|]|n| |o|];
    cbn [Features.is_bool Features.truth claimed_payload] in *;
    unfold bind; rewrite (qubesd_call_direct _ _ _ _ _ Hr); cbv zeta;
    match goal with
    | |- context [transport_call ?c ?x] =>
      replace (transport_call c x) with (r, d) by (symmetry; exact Et)
    end; destruct r; reflexivity.
Qed.

End FeatureValues.

(** ** The claims the code does not meet, on concrete runs *)

Section Counterexamples.

Import Stub.


(** C4 fails on the silent daemon: the first access sends [GetAll], the
    failure is dropped and the cache stays empty; the second access, on
    the same cache, sends [GetAll] again. *)
Lemma bulk_prefetch_is_retried :
  let s1 := snd (PH.__getattr__ (H := std_exc) "x" down_state) in
  let s2 := snd (PH.__getattr__ (H := std_exc) "y" s1) in
  cache_enabled (PH.app down_state) = true
  /\ PH._properties_cache (PH.self down_state) = []
  /\ PH._properties_cache (PH.self s1) = []
  /\ map call_method (call_log (PH.app s1))
     = ["admin.vm.property.GetAll"; "admin.vm.property.Get"]
  /\ map call_method (call_log (PH.app s2))
     = ["admin.vm.property.GetAll"; "admin.vm.property.Get";
        "admin.vm.property.GetAll"; "admin.vm.property.Get"].
Proof. vm_compute. repeat split. Qed.

End Counterexamples.

(** ** The theorems at concrete inputs *)

Section Witnesses.

Import Stub.



Lemma bulk_prefetch_while_cache_empty_witness :
  let c := holder_call down_state "GetAll" None None in
  PH._redirect_dispvm_calls (PH.self down_state) = false
  /\ PH.prefill (H := std_exc) down_state
     = PH._fetch_all_properties (H := std_exc) down_state
  /\ PH._fetch_all_properties (H := std_exc) down_state
     = (Return tt, @after_call down_transport c tt down_state).
Proof.
  intros c.
  assert (Hr : PH._redirect_dispvm_calls (PH.self down_state) = false)
    by reflexivity.
  destruct (@bulk_prefetch_while_cache_empty std_exc down_transport
              down_state Hr) as (Hfirst & Hswallow & _).
  split; [exact Hr|]. split.
  - apply (Hfirst eq_refl eq_refl).
  - apply (Hswallow (Exn QubesDaemonNoResponseError []) tt); reflexivity.
Defined.


Lemma second_get_served_from_cache_witness :
  let s' := snd (PH.__getattr__ (H := std_exc) "x" kv_state) in
  cache_enabled (PH.app kv_state) = true
  /\ PH.__getattr__ (H := std_exc) "x" kv_state = (Return (VStr "old"), s')
  /\ PH.__getattr__ (H := std_exc) "x" s' = (Return (VStr "old"), s').
Proof.
  intros s'.
  assert (He : cache_enabled (PH.app kv_state) = true) by reflexivity.
  assert (E : PH.__getattr__ (H := std_exc) "x" kv_state
              = (Return (VStr "old"), s')) by reflexivity.
  split; [exact He|]. split; [exact E|].
  exact (@second_get_served_from_cache std_exc kv_transport kv_state "x"
           (VStr "old") s' He E).
Defined.

Lemma refresh_cache_evicts_absent_names_witness :
  let s := snd (WOC.get_blind "b" (snd (WOC.keys listing_state))) in
  let s' := snd (WOC.refresh_cache true s) in
  WOC.refresh_cache true s = (Return tt, s')
  /\ exists names,
       WOC._names_list (WOC.self s') = Some names
       /\ forall k o, In (k, o) (WOC._objects (WOC.self s')) ->
            mem (obj_name o) names = true.
Proof.
  intros s s'.
  assert (E : WOC.refresh_cache true s = (Return tt, s')) by reflexivity.
  split; [exact E|].
  destruct refresh_cache_evicts_absent_names as [_ Hgen].
  destruct (Hgen script_transport s true s' (or_introl eq_refl) E)
    as (names & Hn & Hin & _).
  exists names. split; [exact Hn|].
  intros k o Hk. exact (proj1 (Hin k o Hk)).
Defined.

Lemma get_blind_never_lists_getitem_checks_witness :
  let s1 := snd (WOC.refresh_cache false listing_state) in
  blind_mode (WOC.app listing_state) = false
  /\ WOC.refresh_cache false listing_state = (Return tt, s1)
  /\ WOC.__getitem__ "nonexistent" listing_state
     = (Raise (Exn KeyError ["nonexistent"]), s1).
Proof.
  intros s1.
  assert (Hb : blind_mode (WOC.app listing_state) = false) by reflexivity.
  assert (E : WOC.refresh_cache false listing_state = (Return tt, s1))
    by reflexivity.
  split; [exact Hb|]. split; [exact E|].
  destruct (@get_blind_never_lists_getitem_checks script_transport)
    as [_ Hidx].
  destruct (Hidx listing_state "nonexistent" s1 Hb E) as (names & Hn & Hk).
  apply Hk.
  assert (Hs : Some names = Some ["a"; "b"; "c"])
    by (rewrite <- Hn; reflexivity).
  inversion Hs. reflexivity.
Defined.


Lemma features_setitem_payload_witness :
  let c := feature_call "work" "gui" (claimed_payload (VInt 0)) in
  PH._redirect_dispvm_calls (PH.self kv_state) = false
  /\ claimed_payload (VInt 0) = "0"
  /\ Features.__setitem__ "work" "gui" (VInt 0) kv_state
     = (Return tt,
        after_call c (snd (transport_call c (remote (PH.app kv_state))))
          kv_state).
Proof.
  intros c.
  assert (Hr : PH._redirect_dispvm_calls (PH.self kv_state) = false)
    by reflexivity.
  destruct (@features_setitem_payload kv_transport)
    as (Hset & _ & _ & _ & _ & H0).
  split; [exact Hr|]. split; [exact H0|].
  apply (Hset kv_state "work" "gui" (VInt 0) (Return EmptyString)
           (snd (transport_call c (remote (PH.app kv_state)))) Hr).
  reflexivity.
Defined.

End Witnesses.

(** * Further properties of the modelled code *)

(** ** [PropertyHolder]: the property list, defaults and the cache *)

Section HolderMore.
Context `{ExcModule} `{Transport}.

Implicit Types (s : PH.HolderSt) (item : str).

Lemma dict_get_none_keys {V} (k : str) (d : dict V) :
  dict_get k d = None -> mem k (dict_keys d) = false.
Proof.
  induction d as [|[k' v] d IH]; simpl; [reflexivity|].
  destruct (String.eqb k k'); [discriminate|]. exact IH.
Qed.

(** X1: [property_list] asks the daemon once: when it has returned a list,
    asking again returns the same list and sends nothing. *)
Theorem property_list_is_memoised s l s' :
  PH.property_list s = (Return l, s') ->
  PH.property_list s' = (Return l, s').
Proof.
  intros E. unfold PH.property_list in E.
  unfold bind at 1 in E. unfold gets at 1 in E.
  destruct (PH._properties (PH.self s)) as [l0|] eqn:Ep.
  - inversion E; subst. unfold PH.property_list. cbv [bind gets].
    now rewrite Ep.
  - do 2 (unfold bind at 1 in E; unfold gets at 1 in E).
    unfold bind at 1 in E.
    destruct (PH.qubesd_call _ _ _ _ s) as [[b|e] s1]; [|discriminate].
    unfold bind at 1 in E. unfold lift at 1 in E.
    destruct (decoded (decode_ascii b)) as [text|e]; [|discriminate].
    cbv [bind PH.set_properties PH.with_self modify ret] in E.
    inversion E; subst. reflexivity.
Qed.

(** What a bulk prefetch that got a reply leaves behind: the property
    list is the list of the cached names. *)
Lemma fetch_all_properties_sets_list s data d s1 :
  PH._redirect_dispvm_calls (PH.self s) = false ->
  transport_call (holder_call s "GetAll" None None) (remote (PH.app s))
  = (Return data, d) ->
  PH._fetch_all_properties s = (Return tt, s1) ->
  PH._properties (PH.self s1)
  = Some (dict_keys (PH._properties_cache (PH.self s1))).
Proof.
  intros Hr Et E. rewrite (fetch_all_properties_eq _ Hr) in E.
  cbv zeta in E. rewrite Et in E. unfold bind at 1 in E.
  destruct (PH.fetch_lines _ _) as [[[]|e] s2]; [|discriminate].
  cbv [bind gets PH.set_properties PH.with_self modify] in E.
  inversion E; subst. reflexivity.
Qed.

(** X2: After a bulk prefetch that got a reply and cached something, a get of
    a name the reply did not carry raises [AttributeError] without
    asking the daemon, and [property_list] answers the cached names
    without a [List] call. *)
Theorem names_missing_from_prefetch_fail_fast s data d s1 item :
  PH._redirect_dispvm_calls (PH.self s) = false ->
  transport_call (holder_call s "GetAll" None None) (remote (PH.app s))
  = (Return data, d) ->
  PH._fetch_all_properties s = (Return tt, s1) ->
  PH._properties_cache (PH.self s1) <> [] ->
  startswith "_" item = false ->
  dict_get item (PH._properties_cache (PH.self s1)) = None ->
  PH.__getattr__ item s1 = (Raise (Exn AttributeError [item]), s1)
  /\ PH.property_list s1
     = (Return (dict_keys (PH._properties_cache (PH.self s1))), s1).
Proof.
  intros Hr Et E Hne Hu Hg.
  pose proof (fetch_all_properties_sets_list _ _ _ _ Hr Et E) as Hp.
  split.
  - unfold PH.__getattr__. rewrite Hu. unfold bind at 1.
    rewrite prefill_noop
      by (destruct (PH._properties_cache (PH.self s1));
          [congruence|reflexivity]).
    cbv [bind gets]. rewrite Hg, Hp. unfold PH.not_listed.
    now rewrite (dict_get_none_keys _ _ Hg).
  - unfold PH.property_list. cbv [bind gets]. now rewrite Hp.
Qed.

(** With caching enabled, a [property_is_default] that returns leaves
    the item cached with the flag it returned. *)
Lemma is_default_caches s item d s' :
  cache_enabled (PH.app s) = true ->
  PH.property_is_default item s = (Return d, s') ->
  startswith "_" item = false
  /\ exists v, dict_get item (PH._properties_cache (PH.self s')) = Some (d, v).
Proof.
  intros Hen E. unfold PH.property_is_default in E.
  destruct (startswith "_" item) eqn:Hu; [discriminate|].
  split; [reflexivity|].
  unfold bind at 1 in E.
  destruct (PH.prefill s) as [[[]|e] s0] eqn:Ep; [|discriminate].
  assert (Hen0 : cache_enabled (PH.app s0) = true).
  { rewrite <- Hen. apply flags_cache_enabled. eapply prefill_flags, Ep. }
  unfold bind at 1 in E. unfold gets at 1 in E.
  destruct (dict_get item (PH._properties_cache (PH.self s0)))
    as [[d0 value]|] eqn:Eg.
  - inversion E; subst. eauto.
  - unfold bind at 1 in E. unfold gets at 1 in E.
    destruct (PH.not_listed _ _); [discriminate|].
    do 3 (unfold bind at 1 in E; unfold gets at 1 in E).
    match type of E with
    | context [try_except ?m ?h ?k s0] =>
      assert (Pflags : preserves holder_flags (try_except m h k))
        by (preserve; apply qubesd_call_flags);
      destruct (try_except m h k s0) as [[property_str|e] s1] eqn:Et;
        [|discriminate]
    end.
    apply Pflags in Et as Hf1. clear Pflags.
    unfold bind at 1 in E.
    destruct (PH._deserialize_property property_str s1)
      as [[[is_default value]|e] s2] eqn:Ed; [|discriminate].
    apply deserialize_property_flags in Ed as Hf2.
    assert (Hen2 : cache_enabled (PH.app s2) = true).
    { rewrite <- Hen0.
      rewrite (flags_cache_enabled _ _ Hf2). now apply flags_cache_enabled. }
    unfold bind at 1 in E. unfold gets at 1 in E. rewrite Hen2 in E.
    cbv [bind gets PH.set_properties_cache PH.with_self modify ret] in E.
    inversion E; subst; cbn. rewrite dict_get_set_same. eauto.
Qed.

Lemma is_default_cached s item d v :
  startswith "_" item = false ->
  dict_get item (PH._properties_cache (PH.self s)) = Some (d, v) ->
  PH.property_is_default item s = (Return d, s).
Proof.
  intros Hu Hg. unfold PH.property_is_default. rewrite Hu.
  unfold bind at 1. rewrite prefill_noop by (eapply dict_get_nonempty, Hg).
  cbv [bind gets]. now rewrite Hg.
Qed.

(** X3: [__getattr__] and [property_is_default] fill and read one cache: with
    caching enabled, after either has returned for an item, the other
    answers for that item from the cache, leaving the state (and so the
    call log) as it is. *)
Theorem get_and_is_default_share_the_cache s item :
  cache_enabled (PH.app s) = true ->
  (forall v s',
     PH.__getattr__ item s = (Return v, s') ->
     exists d, PH.property_is_default item s' = (Return d, s'))
  /\
  (forall d s',
     PH.property_is_default item s = (Return d, s') ->
     PH.property_is_default item s' = (Return d, s')
     /\ snd (PH.__getattr__ item s') = s').
Proof.
  intros Hen. split.
  - intros v s' E.
    destruct (getattr_caches _ _ _ _ Hen E) as (Hu & _ & d & Hg).
    exists d. eapply is_default_cached; eassumption.
  - intros d s' E.
    destruct (is_default_caches _ _ _ _ Hen E) as (Hu & v & Hg).
    split; [eapply is_default_cached; eassumption|].
    unfold PH.__getattr__. rewrite Hu. unfold bind at 1.
    rewrite prefill_noop by (eapply dict_get_nonempty, Hg).
    cbv [bind gets]. rewrite Hg. now destruct v.
Qed.

End HolderMore.

Section HolderReplies.
Context `{ExcModule} `{Transport}.

Implicit Types (s : PH.HolderSt) (item : str).

Lemma free_of_append sep (a b : string) :
  free_of sep (a ++ b) = free_of sep a && free_of sep b.
Proof.
  induction a as [|c a IH]; simpl; [reflexivity|].
  now rewrite IH, andb_assoc.
Qed.

Lemma split_free sep (x : string) : forall n,
  free_of sep x = true -> split_max sep n x = [x].
Proof.
  intros [|n] Hf; [reflexivity|]. simpl. now rewrite (cut_none _ _ Hf).
Qed.

Lemma split_one sep (a b : string) :
  free_of sep a = true ->
  split_max sep 1 (a ++ String sep b) = [a; b].
Proof. intros Ha. simpl. now rewrite (cut_free _ _ _ Ha). Qed.

Lemma unescape_backslash_free (x : bytes) :
  free_of BSL x = true -> unescape x = Return x.
Proof.
  unfold unescape. induction x as [|c x IH]; intros Hf; [reflexivity|].
  simpl in Hf. apply andb_prop in Hf as [Hc Hf].
  apply negb_true_iff in Hc. cbn [unescape_from]. rewrite Hc, (IH Hf).
  reflexivity.
Qed.


(** X4: [property_get_default] goes to the daemon every time and never reads
    or writes the holder: its cache and property list stay as they are;
    an empty reply means there is no default, and a reply without the
    space between type and value fails to unpack. *)
Theorem property_get_default_bypasses_cache s item :
  (forall r s',
     PH.property_get_default item s = (r, s') -> PH.self s' = PH.self s)
  /\ (startswith "_" item = true ->
      PH.property_get_default item s = (Raise (Exn AttributeError [item]), s))
  /\ (PH._redirect_dispvm_calls (PH.self s) = false ->
      startswith "_" item = false ->
      let c := holder_call s "GetDefault" (Some item) None in
      (forall r s',
         PH.property_get_default item s = (r, s') ->
         call_log (PH.app s') = (call_log (PH.app s) ++ [c])%list)
      /\ (forall reply d,
            transport_call c (remote (PH.app s)) = (Return reply, d) ->
            (reply = "" ->
             PH.property_get_default item s
             = (Raise (Exn AttributeError [item ++ " has no default"]),
                after_call c d s))
            /\ (reply <> "" -> free_of SP reply = true ->
                PH.property_get_default item s
                = (Raise (Exn ValueError []), after_call c d s)))).
Proof.
  split; [|split].
  - revert s.
    change (preserves PH.self (PH.property_get_default item)).
    unfold PH.property_get_default. preserve;
      auto using qubesd_call_self, parse_type_value_self.
  - intros Hu. unfold PH.property_get_default. now rewrite Hu.
  - intros Hr Hu c.
    assert (Heq : PH.property_get_default item s
      = match transport_call c (remote (PH.app s)) with
        | (Return reply, d) =>
          (if String.eqb reply "" then
             raise AttributeError [item ++ " has no default"]
           else match split_max SP 1 reply with
                | [prop_type; value] => PH._parse_type_value prop_type value
                | _ => raise ValueError []
                end) (after_call c d s)
        | (Raise e, d) =>
          if caught_by [QubesDaemonAccessError; QubesVMNotFoundError] e
          then (Raise (Exn QubesPropertyAccessError [item]), after_call c d s)
          else (Raise e, after_call c d s)
        end).
    { unfold PH.property_get_default. rewrite Hu.
      do 2 (unfold bind at 1; unfold gets at 1).
      unfold bind at 1. unfold try_except.
      rewrite (qubesd_call_direct _ _ _ _ _ Hr). cbv zeta.
      fold (holder_call s "GetDefault" (Some item) None). fold c.
      destruct (transport_call c (remote (PH.app s))) as [[reply|e] d];
        [reflexivity|].
      destruct (caught_by _ e); reflexivity. }
    split.
    + intros r s' E. rewrite Heq in E.
      destruct (transport_call c (remote (PH.app s))) as [[reply|e] d].
      * match type of E with
        | ?m _ = _ => assert (P : preserves holder_io m)
        end.
        { preserve. apply parse_type_value_io. }
        apply P in E. unfold holder_io, app_io in E. now inversion E.
      * destruct (caught_by _ e); now inversion E.
    + intros reply d Et. rewrite Heq, Et. split.
      * intros ->. reflexivity.
      * intros Hne Hf. apply String.eqb_neq in Hne. rewrite Hne.
        now rewrite (split_free _ _ _ Hf).
Qed.

(** X5: [clear_cache] empties the cache and nothing else, and the get that
    follows goes to the daemon: with caching enabled it starts with a
    [GetAll]; with caching disabled, for a name the property list does
    not rule out, it sends exactly one [Get]. *)
Theorem clear_cache_forces_a_call s item :
  PH._redirect_dispvm_calls (PH.self s) = false ->
  startswith "_" item = false ->
  exists s0,
    PH.clear_cache s = (Return tt, s0)
    /\ PH._properties_cache (PH.self s0) = []
    /\ PH._properties (PH.self s0) = PH._properties (PH.self s)
    /\ PH.app s0 = PH.app s
    /\ (cache_enabled (PH.app s) = true ->
        forall r s',
          PH.__getattr__ item s0 = (r, s') ->
          exists rest,
            call_log (PH.app s')
            = (call_log (PH.app s)
               ++ holder_call s "GetAll" None None :: rest)%list)
    /\ (cache_enabled (PH.app s) = false ->
        PH.not_listed item (PH._properties (PH.self s)) = false ->
        forall r s',
          PH.__getattr__ item s0 = (r, s') ->
          call_log (PH.app s')
          = (call_log (PH.app s)
             ++ [holder_call s "Get" (Some item) None])%list).
Proof.
  intros Hr Hu. eexists. split; [reflexivity|].
  cbv [PH.set_properties_cache PH.with_self modify snd].
  cbn [PH.self PH.app PH._properties_cache PH._properties].
  split; [reflexivity|]. split; [reflexivity|]. split; [reflexivity|].
  set (s0 := {| PH.self := _; PH.domains := PH.domains s;
                PH.labels := PH.labels s; PH.app := PH.app s |}).
  assert (Hr0 : PH._redirect_dispvm_calls (PH.self s0) = false) by exact Hr.
  split.
  - intros Hen r s' E.
    destruct (getattr_calls _ _ _ _ Hu E) as (r0 & s1 & Ep & Hcalls).
    assert (Hp : PH.prefill s0 = PH._fetch_all_properties s0).
    { unfold PH.prefill. cbv [bind gets]. cbn. now rewrite Hen. }
    rewrite Hp in Ep.
    apply fetch_all_properties_one_call in Ep; [|exact Hr0].
    change (holder_call s0 "GetAll" None None)
      with (holder_call s "GetAll" None None) in Ep.
    change (call_log (PH.app s0)) with (call_log (PH.app s)) in Ep.
    rewrite Ep in Hcalls.
    destruct Hcalls as [Hl|[dest Hl]]; rewrite Hl.
    + exists []. reflexivity.
    + eexists. rewrite <- app_assoc. reflexivity.
  - intros Hen Hl r s' E.
    unfold PH.__getattr__ in E. rewrite Hu in E.
    unfold bind at 1 in E.
    assert (Hp : PH.prefill s0 = (Return tt, s0)).
    { unfold PH.prefill. cbv [bind gets ret]. cbn. now rewrite Hen. }
    rewrite Hp in E.
    unfold bind at 1 in E. unfold gets at 1 in E. cbn [dict_get] in E.
    change (dict_get item (PH._properties_cache (PH.self s0)))
      with (@None (bool * Value)) in E.
    cbv iota in E.
    unfold bind at 1 in E. unfold gets at 1 in E.
    change (PH._properties (PH.self s0)) with (PH._properties (PH.self s)) in E.
    rewrite Hl in E.
    do 2 (unfold bind at 1 in E; unfold gets at 1 in E).
    unfold bind at 1 in E. unfold try_except at 1 in E.
    rewrite (qubesd_call_direct _ _ _ _ _ Hr0) in E. cbv zeta in E.
    change {| call_dest := PH._method_dest (PH.self s0);
              call_method := PH._method_prefix (PH.self s0) ++ "Get";
              call_arg := Some item; call_payload := None |}
      with (holder_call s "Get" (Some item) None) in E.
    change (remote (PH.app s0)) with (remote (PH.app s)) in E.
    destruct (transport_call (holder_call s "Get" (Some item) None)
                (remote (PH.app s))) as [[data|e] d].
    + match type of E with
      | ?m _ = _ => assert (P : preserves holder_io m)
      end.
      { unfold PH.return_value. preserve;
          auto using deserialize_property_io, set_properties_cache_io. }
      apply P in E. unfold holder_io, app_io in E. now inversion E.
    + destruct (caught_by _ e); now inversion E.
Qed.


(** X7: One line of a [GetAll] reply, free of escapes, caches under its name
    exactly what a [Get] reply with the same text would decode to. *)
Theorem bulk_line_caches_what_get_decodes s name reply :
  free_of SP name = true -> free_of BSL name = true ->
  utf8_valid name = true -> free_of BSL reply = true ->
  PH.fetch_lines [name ++ " " ++ reply] s
  = let (r, s1) := PH._deserialize_property reply s in
    match r with
    | Return dv =>
      PH.set_properties_cache
        (dict_set name dv (PH._properties_cache (PH.self s1))) s1
    | Raise e => (Raise e, s1)
    end.
Proof.
  intros Hsp Hb Hv Hr. cbn [PH.fetch_lines].
  unfold bind at 1. unfold lift at 1.
  rewrite unescape_backslash_free
    by (rewrite free_of_append, Hb; cbn; exact Hr).
  change (name ++ " " ++ reply) with (name ++ String SP reply).
  rewrite (split_one _ _ _ Hsp).
  unfold bind at 1. unfold lift at 1, decoded, decode_utf8. rewrite Hv.
  unfold bind at 1.
  destruct (PH._deserialize_property reply s) as [[[d v]|e] s1];
    [|reflexivity].
  cbv [bind gets ret PH.set_properties_cache PH.with_self modify].
  reflexivity.
Qed.

End HolderReplies.

(** ** [WrapperObjectsCollection]: listing, clearing, looking up *)

Section CollectionMore.
Context `{Transport}.

Implicit Types (s : WOC.CollSt) (item : str).

Lemma dict_get_set_other {V} (k k' : str) (v : V) (d : dict V) :
  k <> k' -> dict_get k (dict_set k' v d) = dict_get k d.
Proof.
  intros Hk. induction d as [|[k1 v1] d IH]; simpl.
  - apply String.eqb_neq in Hk. now rewrite Hk.
  - destruct (String.eqb k' k1) eqn:E1; simpl.
    + apply String.eqb_eq in E1. subst k1.
      apply String.eqb_neq in Hk. now rewrite Hk.
    + now rewrite IH.
Qed.

(** A refresh that is forced, or finds no list cached, step by step. *)
Lemma refresh_cache_eq s force :
  force = true \/ WOC._names_list (WOC.self s) = None ->
  WOC.refresh_cache force s
  = match transport_call (list_call s) (remote (WOC.app s)) with
    | (Raise e, d) => (Raise e, listed (list_call s) d s)
    | (Return data, d) =>
      match decode_ascii data with
      | None => (Raise (Exn UnicodeDecodeError []), listed (list_call s) d s)
      | Some text =>
        match WOC.last_char text with
        | None => (Raise (Exn IndexError []), listed (list_call s) d s)
        | Some c =>
          if Ascii.eqb c LF then
            (Return tt,
             {| WOC.self :=
                  {| WOC._list_method := WOC._list_method (WOC.self s);
                     WOC._object_class := WOC._object_class (WOC.self s);
                     WOC._names_list :=
                       Some (str_splitlines (WOC.drop_last text));
                     WOC._objects :=
                       WOC.evict (str_splitlines (WOC.drop_last text))
                         (WOC._objects (WOC.self s))
                         (WOC._objects (WOC.self s)) |};
                WOC.app := logged (list_call s) d (WOC.app s) |})
          else (Raise (Exn AssertionError []), listed (list_call s) d s)
        end
      end
    end.
Proof.
  intros Hgo.
  assert (Hskip : negb force
      && match WOC._names_list (WOC.self s) with
         | Some _ => true | None => false end = false).
  { destruct Hgo as [->| ->]; [reflexivity | apply andb_false_r]. }
  unfold WOC.refresh_cache. cbv [bind gets]. rewrite Hskip.
  cbv [WOC.in_app zoom app_qubesd_call]. fold (list_call s).
  destruct (transport_call (list_call s) (remote (WOC.app s)))
    as [[data|e] d]; [|reflexivity].
  cbv [lift decoded]. destruct (decode_ascii data) as [text|]; [|reflexivity].
  destruct (WOC.last_char text) as [c|]; [|reflexivity].
  cbv [assert]. destruct (Ascii.eqb c LF); reflexivity.
Qed.

Lemma refresh_cache_cached s l :
  WOC._names_list (WOC.self s) = Some l ->
  WOC.refresh_cache false s = (Return tt, s).
Proof.
  intros Hn. unfold WOC.refresh_cache. cbv [bind gets]. now rewrite Hn.
Qed.

(** X10: A refresh that fails, for whatever reason (the transport, a reply
    that is not ASCII, an empty reply, a reply not ended by a line feed),
    has sent its one call and leaves the name list and the cached
    wrappers as they were. *)
Theorem failed_refresh_leaves_caches s force :
  force = true \/ WOC._names_list (WOC.self s) = None ->
  (forall e s',
     WOC.refresh_cache force s = (Raise e, s') ->
     WOC.self s' = WOC.self s
     /\ call_log (WOC.app s')
        = (call_log (WOC.app s) ++ [list_call s])%list)
  /\ (forall d,
        transport_call (list_call s) (remote (WOC.app s)) = (Return "", d) ->
        WOC.refresh_cache force s
        = (Raise (Exn IndexError []), listed (list_call s) d s))
  /\ (forall data d c,
        transport_call (list_call s) (remote (WOC.app s)) = (Return data, d) ->
        is_ascii data = true ->
        WOC.last_char data = Some c -> c <> LF ->
        WOC.refresh_cache force s
        = (Raise (Exn AssertionError []), listed (list_call s) d s)).
Proof.
  intros Hgo. rewrite (refresh_cache_eq _ _ Hgo). split; [|split].
  - intros e s' E.
    destruct (transport_call (list_call s) (remote (WOC.app s)))
      as [[data|e0] d].
    + destruct (decode_ascii data) as [text|];
        [|inversion E; subst; split; reflexivity].
      destruct (WOC.last_char text) as [c|];
        [|inversion E; subst; split; reflexivity].
      destruct (Ascii.eqb c LF); [discriminate|].
      inversion E; subst; split; reflexivity.
    + inversion E; subst; split; reflexivity.
  - intros d Et. rewrite Et. reflexivity.
  - intros data d c Et Ha Hl Hc. rewrite Et. unfold decode_ascii.
    rewrite Ha, Hl. apply Ascii.eqb_neq in Hc. now rewrite Hc.
Qed.

(** X11: [keys] lists once: after it has returned, calling it again returns
    the same names and [in] answers from them, with nothing sent. *)
Theorem keys_lists_once s l s' :
  WOC.keys s = (Return l, s') ->
  WOC.keys s' = (Return l, s')
  /\ forall item, WOC.__contains__ item s' = (Return (mem item l), s').
Proof.
  intros E. unfold WOC.keys in E. unfold bind at 1 in E.
  destruct (WOC.refresh_cache false s) as [[[]|e] s1]; [|discriminate].
  cbv [bind gets] in E.
  destruct (WOC._names_list (WOC.self s1)) as [l1|] eqn:Hn; [|discriminate].
  inversion E; subst. split.
  - unfold WOC.keys. unfold bind at 1.
    rewrite (refresh_cache_cached _ _ Hn). cbv [bind gets]. now rewrite Hn.
  - intros item. unfold WOC.__contains__. unfold bind at 1.
    rewrite (refresh_cache_cached _ _ Hn). cbv [bind gets]. now rewrite Hn.
Qed.

(** [get_blind], case by case. *)
Lemma get_blind_cached s item o :
  dict_get item (WOC._objects (WOC.self s)) = Some o ->
  WOC.get_blind item s = (Return o, s).
Proof.
  intros Hg. unfold WOC.get_blind. cbv [bind gets]. now rewrite Hg.
Qed.

Lemma get_blind_fresh s item :
  dict_get item (WOC._objects (WOC.self s)) = None ->
  exists s',
    WOC.get_blind item s = (Return (fresh_wrapper s item), s')
    /\ next_id (WOC.app s') = S (next_id (WOC.app s))
    /\ WOC._names_list (WOC.self s') = WOC._names_list (WOC.self s)
    /\ WOC._objects (WOC.self s')
       = dict_set item (fresh_wrapper s item) (WOC._objects (WOC.self s)).
Proof.
  intros Hg. unfold WOC.get_blind. cbv [bind gets]. rewrite Hg.
  eexists. split; [reflexivity|]. cbn. auto.
Qed.

(** [get_blind] never replaces or drops a cached wrapper. *)
Lemma get_blind_keeps s item o s' k ok :
  WOC.get_blind item s = (Return o, s') ->
  dict_get k (WOC._objects (WOC.self s)) = Some ok ->
  dict_get k (WOC._objects (WOC.self s')) = Some ok.
Proof.
  intros E Hk.
  destruct (dict_get item (WOC._objects (WOC.self s))) as [o0|] eqn:Hg.
  - rewrite (get_blind_cached _ _ _ Hg) in E. now inversion E; subst.
  - destruct (get_blind_fresh _ _ Hg) as (s1 & E1 & _ & _ & Ho).
    rewrite E1 in E. inversion E; subst. rewrite Ho.
    rewrite dict_get_set_other; [assumption|]. intros ->. congruence.
Qed.

(** X12: [clear_cache] without a name, or with the empty name, drops the name
    list only: every cached wrapper is still handed out as the same
    object, and the next [keys] has to ask the daemon. *)
Theorem clear_cache_keeps_wrappers s invalidate_name :
  invalidate_name = None \/ invalidate_name = Some "" ->
  exists s0,
    WOC.clear_cache invalidate_name s = (Return tt, s0)
    /\ WOC._names_list (WOC.self s0) = None
    /\ WOC._objects (WOC.self s0) = WOC._objects (WOC.self s)
    /\ WOC.app s0 = WOC.app s
    /\ (forall item o,
          dict_get item (WOC._objects (WOC.self s)) = Some o ->
          WOC.get_blind item s0 = (Return o, s0))
    /\ (forall r s',
          WOC.keys s0 = (r, s') ->
          call_log (WOC.app s')
          = (call_log (WOC.app s) ++ [list_call s])%list).
Proof.
  intros Hinv. eexists. split.
  { destruct Hinv as [->| ->]; reflexivity. }
  cbn [WOC.self WOC.app WOC._names_list WOC._objects].
  split; [reflexivity|]. split; [reflexivity|]. split; [reflexivity|].
  split.
  - intros item o Hg. now apply get_blind_cached.
  - intros r s' E. unfold WOC.keys in E. unfold bind at 1 in E.
    rewrite refresh_cache_eq in E by (right; reflexivity).
    cbn [WOC.app WOC.self] in E.
    change (list_call _) with (list_call s) in E.
    destruct (transport_call (list_call s) (remote (WOC.app s)))
      as [[data|e] d]; [|now inversion E].
    destruct (decode_ascii data) as [text|]; [|now inversion E].
    destruct (WOC.last_char text) as [c|]; [|now inversion E].
    destruct (Ascii.eqb c LF); [|now inversion E].
    cbv [bind gets ret] in E. cbn in E. now inversion E.
Qed.

(** X13: [clear_cache] with a name evicts that one wrapper and keeps the
    others; the [get_blind] that follows constructs a new object for the
    name, with the next unused identity. *)
Theorem clear_cache_with_name_rebuilds s n :
  n <> "" ->
  exists s0,
    WOC.clear_cache (Some n) s = (Return tt, s0)
    /\ WOC._names_list (WOC.self s0) = None
    /\ dict_get n (WOC._objects (WOC.self s0)) = None
    /\ (forall k, k <> n ->
          dict_get k (WOC._objects (WOC.self s0))
          = dict_get k (WOC._objects (WOC.self s)))
    /\ exists s1,
         WOC.get_blind n s0 = (Return (fresh_wrapper s n), s1)
         /\ next_id (WOC.app s1) = S (next_id (WOC.app s)).
Proof.
  intros Hn. apply String.eqb_neq in Hn.
  eexists. split.
  { unfold WOC.clear_cache. cbv [bind gets WOC.set_names_list modify].
    rewrite Hn. cbn [negb]. cbv [WOC.set_objects modify]. reflexivity. }
  cbn [WOC.self WOC._names_list WOC._objects].
  split; [reflexivity|]. split; [apply dict_get_del_same|].
  split; [intros k Hk; now apply dict_get_del_other|].
  match goal with
  | |- exists s1, WOC.get_blind n ?s0 = _ /\ _ =>
    destruct (get_blind_fresh s0 n) as (s1 & E & Hid & _)
  end.
  { apply dict_get_del_same. }
  exists s1. split; [exact E | exact Hid].
Qed.

End CollectionMore.

Section CollectionLookups.
Context `{Transport}.

Implicit Types (s : WOC.CollSt) (item : str).

Lemma refresh_cache_flags force :
  preserves (fun c => app_flags (WOC.app c)) (WOC.refresh_cache force).
Proof.
  unfold WOC.refresh_cache, WOC.set_names_list, WOC.set_objects. preserve.
  unfold WOC.in_app. apply preserves_zoom_in with (g := app_flags); auto.
  apply app_qubesd_call_flags.
Qed.

Lemma flags_blind_mode (a a' : App) :
  app_flags a' = app_flags a -> blind_mode a' = blind_mode a.
Proof. unfold app_flags. intros E. now inversion E. Qed.

(** What [get_blind] returns and leaves, in one statement. *)
Lemma get_blind_result s item o s' :
  WOC.get_blind item s = (Return o, s') ->
  dict_get item (WOC._objects (WOC.self s')) = Some o
  /\ WOC._names_list (WOC.self s') = WOC._names_list (WOC.self s)
  /\ blind_mode (WOC.app s') = blind_mode (WOC.app s)
  /\ call_log (WOC.app s') = call_log (WOC.app s).
Proof.
  intros E.
  destruct (get_blind_total s item) as (o0 & s0 & E0 & Hio & Hfl & Hn & Hg).
  rewrite E0 in E. inversion E; subst.
  repeat split; auto using flags_blind_mode.
  unfold app_io in Hio. now inversion Hio.
Qed.

Lemma mapM_cons_return {St A B} (f : A -> M St B) x l (t t1 t2 : St) y ys :
  f x t = (Return y, t1) ->
  mapM f l t1 = (Return ys, t2) ->
  mapM f (x :: l) t = (Return (y :: ys), t2).
Proof.
  intros Ex El. cbn [mapM]. unfold bind. now rewrite Ex, El.
Qed.

Lemma paired_get_blind s key o s1 :
  WOC.get_blind key s = (Return o, s1) ->
  bind (WOC.get_blind key) (fun o => ret (key, o)) s = (Return (key, o), s1).
Proof. intros E. unfold bind. now rewrite E. Qed.

(** The loop of [items]: one pair per name, in order, each wrapper cached
    under its name, no cached wrapper lost. *)
Lemma items_loop l : forall s,
  exists res s',
    mapM (fun key => bind (WOC.get_blind key) (fun o => ret (key, o))) l s
    = (Return res, s')
    /\ map fst res = l
    /\ WOC._names_list (WOC.self s') = WOC._names_list (WOC.self s)
    /\ (forall k ok, dict_get k (WOC._objects (WOC.self s)) = Some ok ->
                     dict_get k (WOC._objects (WOC.self s')) = Some ok)
    /\ (forall k o, In (k, o) res ->
                    dict_get k (WOC._objects (WOC.self s')) = Some o).
Proof.
  induction l as [|key l IH]; intros s.
  - exists [], s. cbn. repeat split; auto. intros k o [].
  - destruct (get_blind_total s key) as (o & s1 & E1 & _).
    destruct (get_blind_result _ _ _ _ E1) as (Hg1 & Hn1 & _ & _).
    destruct (IH s1) as (res & s' & E & Hfst & Hn & Hkeep & Hin).
    exists ((key, o) :: res), s'. split; [|split; [|split; [|split]]].
    + eapply mapM_cons_return; [apply paired_get_blind, E1 | exact E].
    + cbn. now rewrite Hfst.
    + now rewrite Hn.
    + intros k ok Hk. apply Hkeep. eapply get_blind_keeps; eassumption.
    + intros k o0 [Heq|Hi]; [|now apply Hin].
      inversion Heq; subst. now apply Hkeep.
Qed.

Lemma items_loop_cached res : forall s,
  (forall k o, In (k, o) res ->
               dict_get k (WOC._objects (WOC.self s)) = Some o) ->
  mapM (fun key => bind (WOC.get_blind key) (fun o => ret (key, o)))
    (map fst res) s
  = (Return res, s)
  /\ mapM WOC.get_blind (map fst res) s = (Return (map snd res), s).
Proof.
  induction res as [|[k o] res IH]; intros s Hc; [split; reflexivity|].
  destruct (IH s (fun k' o' Hi => Hc k' o' (or_intror Hi))) as [Ei Ev].
  assert (Eg : WOC.get_blind k s = (Return o, s))
    by (apply get_blind_cached, Hc; left; reflexivity).
  split; cbn [map fst snd].
  - eapply mapM_cons_return; [apply paired_get_blind, Eg | exact Ei].
  - eapply mapM_cons_return; [exact Eg | exact Ev].
Qed.

(** X14: [items] pairs every listed name, in the order of the list, with the
    wrapper cached under that name; [values] and [items] called again
    hand out the same objects and send nothing. *)
Theorem items_pair_names_with_cached_wrappers s res s' :
  WOC.items s = (Return res, s') ->
  WOC._names_list (WOC.self s') = Some (map fst res)
  /\ (forall k o, In (k, o) res ->
        dict_get k (WOC._objects (WOC.self s')) = Some o)
  /\ WOC.values s' = (Return (map snd res), s')
  /\ WOC.items s' = (Return res, s').
Proof.
  intros E. unfold WOC.items in E. unfold bind at 1 in E.
  destruct (WOC.refresh_cache false s) as [[[]|e] s1]; [|discriminate].
  unfold bind at 1 in E. unfold gets at 1 in E.
  destruct (WOC._names_list (WOC.self s1)) as [l|] eqn:Hn1; [|discriminate].
  destruct (items_loop l s1) as (res0 & s0 & E0 & Hfst & Hn & _ & Hin).
  change (fun key : str => o <- WOC.get_blind key;; ret (key, o))
    with (fun key : str => bind (WOC.get_blind key) (fun o => ret (key, o)))
    in E.
  rewrite E0 in E. inversion E; subst res0 s0. clear E.
  assert (Hn' : WOC._names_list (WOC.self s') = Some (map fst res))
    by (rewrite Hn, Hn1, Hfst; reflexivity).
  destruct (items_loop_cached res s' Hin) as [Ei Ev].
  split; [exact Hn'|]. split; [exact Hin|]. split.
  - unfold WOC.values. unfold bind at 1.
    rewrite (refresh_cache_cached _ _ Hn'). cbv [bind gets] in *.
    rewrite Hn'. exact Ev.
  - unfold WOC.items. unfold bind at 1.
    rewrite (refresh_cache_cached _ _ Hn'). unfold bind at 1.
    unfold gets at 1. rewrite Hn'. exact Ei.
Qed.

(** X15: Indexed lookup is stable: when [collection[item]] has returned a
    wrapper, in blind mode or not, the same lookup on the state it left
    returns the same object and leaves that state, call log included, as
    it is. *)
Theorem indexed_lookup_is_stable s item o s' :
  WOC.__getitem__ item s = (Return o, s') ->
  WOC.__getitem__ item s' = (Return o, s').
Proof.
  intros E. unfold WOC.__getitem__ in E.
  unfold bind at 1 in E. unfold gets at 1 in E.
  destruct (blind_mode (WOC.app s)) eqn:Hb; cbn [negb] in E.
  - unfold bind at 1 in E. cbv [ret] in E.
    destruct (get_blind_result _ _ _ _ E) as (Hg & _ & Hb' & _).
    unfold WOC.__getitem__. unfold bind at 1. unfold gets at 1.
    rewrite Hb', Hb. cbn [negb]. unfold bind at 1. cbv [ret].
    now apply get_blind_cached.
  - unfold bind at 1 in E. unfold bind at 1 in E.
    unfold WOC.__contains__ in E. unfold bind at 1 in E.
    destruct (WOC.refresh_cache false s) as [[[]|e] s1] eqn:Er;
      [|discriminate].
    unfold bind at 1 in E. unfold gets at 1 in E.
    destruct (WOC._names_list (WOC.self s1)) as [l|] eqn:Hn1;
      [|discriminate].
    cbv [ret] in E.
    destruct (mem item l) eqn:Hm; cbn [negb] in E; [|discriminate].
    destruct (get_blind_result _ _ _ _ E) as (Hg & Hn & Hb' & _).
    assert (Hb1 : blind_mode (WOC.app s1) = false).
    { rewrite <- Hb. apply flags_blind_mode.
      exact (refresh_cache_flags false _ _ _ Er). }
    unfold WOC.__getitem__. unfold bind at 1. unfold gets at 1.
    rewrite Hb', Hb1. cbn [negb].
    unfold bind at 1. unfold bind at 1.
    unfold WOC.__contains__. unfold bind at 1.
    rewrite (refresh_cache_cached s' l) by (rewrite Hn; exact Hn1).
    unfold bind at 1. unfold gets at 1. rewrite Hn, Hn1.
    cbv [ret]. rewrite Hm. cbn [negb].
    now apply get_blind_cached.
Qed.

End CollectionLookups.

(** ** [clone_properties] when the daemon answers nothing *)

Section CloneProperties.
Context `{ExcModule} `{Transport}.

Implicit Types (s : PH.HolderSt) (p : PH.PairSt).

(** [qubesadmin/exc.py] decides whether [except AttributeError] catches a
    [QubesPropertyAccessError]. *)
Hypothesis property_access_is_attribute_error :
  subclass QubesPropertyAccessError AttributeError = true.

(** No call gets a response. *)
Hypothesis no_response :
  forall c d, exists e d',
    transport_call c d = (Raise e, d')
    /\ isinstance e QubesDaemonNoResponseError = true.

Lemma skipped_by_clone e :
  exn_class e = AttributeError \/ exn_class e = QubesPropertyAccessError ->
  caught_by [AttributeError] e = true.
Proof.
  unfold caught_by, isinstance. cbn [existsb].
  intros [E|E]; rewrite E; [reflexivity|].
  now rewrite property_access_is_attribute_error.
Qed.

Lemma prefill_without_response s :
  PH._redirect_dispvm_calls (PH.self s) = false ->
  exists s0, PH.prefill s = (Return tt, s0) /\ PH.self s0 = PH.self s.
Proof.
  intros Hr. unfold PH.prefill. cbv [bind gets].
  destruct (cache_enabled (PH.app s)
            && dict_is_empty (PH._properties_cache (PH.self s))).
  - rewrite (fetch_all_properties_eq _ Hr). cbv zeta.
    destruct (no_response (holder_call s "GetAll" None None)
                (remote (PH.app s))) as (e & d & Et & Hi).
    rewrite Et. cbn [caught_by existsb]. rewrite Hi. cbn [orb].
    eexists. split; reflexivity.
  - exists s. split; reflexivity.
Qed.

(** Without a response a get returns a cached value or raises an
    exception that [clone_properties] skips. *)
Lemma getattr_without_response s item r s' :
  PH._redirect_dispvm_calls (PH.self s) = false ->
  PH.__getattr__ item s = (r, s') ->
  PH._redirect_dispvm_calls (PH.self s') = false
  /\ match r with
     | Return _ => True
     | Raise e => caught_by [AttributeError] e = true
     end.
Proof.
  intros Hr E. unfold PH.__getattr__ in E.
  destruct (startswith "_" item).
  { inversion E; subst. split; [assumption|]. now apply skipped_by_clone; left. }
  unfold bind at 1 in E.
  destruct (prefill_without_response _ Hr) as (s0 & Ep & Hs0).
  rewrite Ep in E.
  assert (Hr0 : PH._redirect_dispvm_calls (PH.self s0) = false)
    by (now rewrite Hs0).
  unfold bind at 1 in E. unfold gets at 1 in E.
  destruct (dict_get item (PH._properties_cache (PH.self s0)))
    as [[d value]|].
  { destruct value; inversion E; subst; split; auto. }
  unfold bind at 1 in E. unfold gets at 1 in E.
  destruct (PH.not_listed _ _).
  { inversion E; subst. split; [assumption|]. now apply skipped_by_clone; left. }
  do 2 (unfold bind at 1 in E; unfold gets at 1 in E).
  unfold bind at 1 in E. unfold try_except at 1 in E.
  rewrite (qubesd_call_direct _ _ _ _ _ Hr0) in E. cbv zeta in E.
  match type of E with
  | context [transport_call ?c ?x] =>
    destruct (no_response c x) as (e & d & Et & Hi); rewrite Et in E
  end.
  cbn [caught_by existsb] in E. rewrite Hi in E. cbn [orb] in E.
  inversion E; subst. split; [exact Hr0|].
  now apply skipped_by_clone; right.
Qed.

(** Without a response a set stores a local attribute or raises
    [QubesPropertyAccessError]. *)
Lemma setattr_without_response s key value r s' :
  PH._redirect_dispvm_calls (PH.self s) = false ->
  PH.__setattr__ key value s = (r, s') ->
  PH._redirect_dispvm_calls (PH.self s') = false
  /\ match r with
     | Return _ => True
     | Raise e => caught_by [AttributeError] e = true
     end.
Proof.
  intros Hr E. unfold PH.__setattr__ in E.
  unfold bind at 1 in E. rewrite is_local_eq in E.
  destruct (startswith "_" key
            || mem key (PH._local_properties_set (PH.self s))).
  { cbv [bind gets PH.set_dict PH.with_self modify] in E.
    inversion E; subst. split; [exact Hr | exact I]. }
  do 2 (unfold bind at 1 in E; unfold gets at 1 in E).
  destruct value as [|v]; unfold try_except in E; unfold bind at 1 in E;
    rewrite (qubesd_call_direct _ _ _ _ _ Hr) in E; cbv zeta in E;
    match type of E with
    | context [transport_call ?c ?x] =>
      destruct (no_response c x) as (e & d & Et & Hi); rewrite Et in E
    end;
    cbn [caught_by existsb] in E; rewrite Hi in E; cbn [orb] in E;
    inversion E; subst; (split; [exact Hr|]);
    now apply skipped_by_clone; right.
Qed.

Lemma clone_loop_without_response l : forall p,
  PH._redirect_dispvm_calls (PH.this p) = false ->
  PH._redirect_dispvm_calls (PH.source p) = false ->
  exists p', PH.clone_loop l p = (Return tt, p').
Proof.
  induction l as [|prop rest IH]; intros p Ht Hs.
  - exists p. reflexivity.
  - cbn [PH.clone_loop]. unfold bind at 1. unfold try_except.
    unfold bind at 1. unfold PH.on_source at 1. unfold zoom at 1.
    destruct (PH.__getattr__ prop _) as [r h] eqn:Eg.
    apply getattr_without_response in Eg as [Hs1 Hr1]; [|exact Hs].
    destruct r as [v|e].
    + unfold PH.on_this, zoom.
      cbn [PH.this PH.source PH.pair_domains PH.pair_labels PH.pair_app].
      destruct (PH.__setattr__ prop (PH.Plain v) _) as [r2 h2] eqn:Es.
      apply setattr_without_response in Es as [Ht2 Hr2]; [|exact Ht].
      destruct r2 as [[]|e2]; [|rewrite Hr2]; cbv [ret];
        apply IH; assumption.
    + rewrite Hr1. cbv [ret]. apply IH; assumption.
Qed.

(** X9: [clone_properties] is best effort also against a daemon that answers
    nothing: provided a property-access error is an [AttributeError],
    every failed read and every failed write is skipped and the call
    returns normally, for any list of remote property names. *)
Theorem clone_properties_survives_a_silent_daemon p l :
  PH._redirect_dispvm_calls (PH.this p) = false ->
  PH._redirect_dispvm_calls (PH.source p) = false ->
  forallb (remote_name (PH.source p)) l = true ->
  forallb (remote_name (PH.this p)) l = true ->
  exists p', PH.clone_properties (Some l) p = (Return tt, p').
Proof.
  intros Ht Hs _ _. unfold PH.clone_properties. unfold bind at 1. cbv [ret].
  now apply clone_loop_without_response.
Qed.

End CloneProperties.

(** ** [Features.get] *)

Section FeatureLookups.
Context `{ExcModule} `{Transport}.

Implicit Types (s : PH.HolderSt).

(** X16: [Features.get] and [Features.check_with_template] turn a failure of
    their call that [except KeyError] catches into the default: with a
    default given (also the implicit [None]) they return it; with
    [NO_DEFAULT] they raise the very exception again.  Any other failure
    of the call passes through, default or not. *)
Theorem features_get_defaults_on_key_errors s vm_name item e d d' :
  PH._redirect_dispvm_calls (PH.self s) = false ->
  let c := {| call_dest := vm_name; call_method := "admin.vm.feature.Get";
              call_arg := Some item; call_payload := None |} in
  let c' := {| call_dest := vm_name;
               call_method := "admin.vm.feature.CheckWithTemplate";
               call_arg := Some item; call_payload := None |} in
  transport_call c (remote (PH.app s)) = (Raise e, d) ->
  transport_call c' (remote (PH.app s)) = (Raise e, d') ->
  (caught_by [KeyError] e = true ->
   (forall v,
      Features.get vm_name item (Features.Given v) s
      = (Return v, after_call c d s)
      /\ Features.check_with_template vm_name item (Features.Given v) s
         = (Return v, after_call c' d' s))
   /\ Features.get vm_name item Features.NO_DEFAULT s
      = (Raise e, after_call c d s)
   /\ Features.check_with_template vm_name item Features.NO_DEFAULT s
      = (Raise e, after_call c' d' s))
  /\ (caught_by [KeyError] e = false ->
      forall default,
        Features.get vm_name item default s = (Raise e, after_call c d s)
        /\ Features.check_with_template vm_name item default s
           = (Raise e, after_call c' d' s)).
Proof.
  intros Hr c c' Et Et'.
  assert (Eg : forall default,
    Features.get vm_name item default s
    = if caught_by [KeyError] e
      then Features.or_default default e (after_call c d s)
      else (Raise e, after_call c d s)).
  { intros default. unfold Features.get, try_catch.
    unfold bind at 1. unfold Features.__getitem__. unfold bind at 1.
    rewrite (qubesd_call_direct _ _ _ _ _ Hr). cbv zeta.
    fold c. now rewrite Et. }
  assert (Ec : forall default,
    Features.check_with_template vm_name item default s
    = if caught_by [KeyError] e
      then Features.or_default default e (after_call c' d' s)
      else (Raise e, after_call c' d' s)).
  { intros default. unfold Features.check_with_template, try_catch.
    unfold bind at 1.
    rewrite (qubesd_call_direct _ _ _ _ _ Hr). cbv zeta.
    fold c'. now rewrite Et'. }
  split; intros Hc.
  - split; [|split].
    + intros v. now rewrite Eg, Ec, Hc.
    + now rewrite Eg, Hc.
    + now rewrite Ec, Hc.
  - intros default. now rewrite Eg, Ec, Hc.
Qed.

End FeatureLookups.

(** ** Labels *)

Section LabelFacts.
Context `{ExcModule} `{Transport}.

Implicit Types (s : Labels.LabelSt).

Lemma label_color_eq s :
  Labels._color (Labels.self s) = None ->
  Labels.color s
  = let (r, d) := transport_call (label_color_call s) (remote (Labels.app s)) in
    match r with
    | Return reply =>
      match decode_utf8 reply with
      | Some c =>
        (Return c,
         {| Labels.self :=
              {| Labels._name := Labels._name (Labels.self s);
                 Labels._color := Some c;
                 Labels._index := Labels._index (Labels.self s) |};
            Labels.app := logged (label_color_call s) d (Labels.app s) |})
      | None => (Raise (Exn UnicodeDecodeError []), label_called (label_color_call s) d s)
      end
    | Raise e =>
      if caught_by [QubesDaemonNoResponseError] e
      then (Raise (Exn QubesPropertyAccessError ["label.color"]),
            label_called (label_color_call s) d s)
      else (Raise e, label_called (label_color_call s) d s)
    end.
Proof.
  intros Hc. unfold Labels.color. unfold bind at 1. unfold gets at 1.
  rewrite Hc. unfold bind at 1. unfold gets at 1.
  unfold bind at 1. unfold try_except, Labels.in_app, zoom, app_qubesd_call.
  cbn [Labels.app Labels.self]. fold (label_color_call s).
  destruct (transport_call (label_color_call s) (remote (Labels.app s)))
    as [[reply|e] d].
  - unfold bind at 1. unfold lift, decoded.
    destruct (decode_utf8 reply); reflexivity.
  - destruct (caught_by [QubesDaemonNoResponseError] e); reflexivity.
Qed.

Lemma label_index_eq s :
  Labels._index (Labels.self s) = None ->
  Labels.index s
  = let (r, d) := transport_call (label_index_call s) (remote (Labels.app s)) in
    match r with
    | Return reply =>
      match decode_utf8 reply with
      | Some text =>
        match py_int text with
        | Some i =>
          (Return i,
           {| Labels.self :=
                {| Labels._name := Labels._name (Labels.self s);
                   Labels._color := Labels._color (Labels.self s);
                   Labels._index := Some i |};
              Labels.app := logged (label_index_call s) d (Labels.app s) |})
        | None => (Raise (Exn ValueError []), label_called (label_index_call s) d s)
        end
      | None => (Raise (Exn UnicodeDecodeError []), label_called (label_index_call s) d s)
      end
    | Raise e =>
      if caught_by [QubesDaemonNoResponseError] e
      then (Raise (Exn QubesPropertyAccessError ["label.index"]),
            label_called (label_index_call s) d s)
      else (Raise e, label_called (label_index_call s) d s)
    end.
Proof.
  intros Hc. unfold Labels.index. unfold bind at 1. unfold gets at 1.
  rewrite Hc. unfold bind at 1. unfold gets at 1.
  unfold bind at 1. unfold try_except, Labels.in_app, zoom, app_qubesd_call.
  cbn [Labels.app Labels.self]. fold (label_index_call s).
  destruct (transport_call (label_index_call s) (remote (Labels.app s)))
    as [[reply|e] d].
  - unfold bind at 1. unfold lift, decoded.
    destruct (decode_utf8 reply) as [text|]; [|reflexivity].
    destruct (py_int text); reflexivity.
  - destruct (caught_by [QubesDaemonNoResponseError] e); reflexivity.
Qed.

(** X17: A label asks the daemon for its colour and for its index once each:
    after a lookup that returned, the same lookup returns the same value
    again without a call and without changing anything. *)
Theorem label_lookups_are_memoised s s1 :
  (forall c, Labels.color s = (Return c, s1) ->
             Labels.color s1 = (Return c, s1))
  /\ (forall i, Labels.index s = (Return i, s1) ->
                Labels.index s1 = (Return i, s1)).
Proof.
  split.
  - intros c E.
    destruct (Labels._color (Labels.self s)) as [c0|] eqn:Hc.
    + unfold Labels.color in E |- *. unfold bind at 1 in E.
      unfold gets at 1 in E. rewrite Hc in E. inversion E; subst.
      unfold bind at 1. unfold gets at 1. now rewrite Hc.
    + rewrite (label_color_eq _ Hc) in E.
      destruct (transport_call _ _) as [[reply|e] d].
      * destruct (decode_utf8 reply); inversion E; subst. reflexivity.
      * destruct (caught_by _ e); discriminate.
  - intros i E.
    destruct (Labels._index (Labels.self s)) as [i0|] eqn:Hc.
    + unfold Labels.index in E |- *. unfold bind at 1 in E.
      unfold gets at 1 in E. rewrite Hc in E. inversion E; subst.
      unfold bind at 1. unfold gets at 1. now rewrite Hc.
    + rewrite (label_index_eq _ Hc) in E.
      destruct (transport_call _ _) as [[reply|e] d].
      * destruct (decode_utf8 reply) as [text|]; [|discriminate].
        destruct (py_int text); inversion E; subst. reflexivity.
      * destruct (caught_by _ e); discriminate.
Qed.

(** X18: When the daemon gives no response to a label's first lookup, the
    label raises [QubesPropertyAccessError] naming [label.color] or
    [label.index]; any other failure of the call passes through as it
    is.  Either way the label caches nothing. *)
Theorem label_call_failures s e d :
  Labels._color (Labels.self s) = None ->
  Labels._index (Labels.self s) = None ->
  (transport_call (label_color_call s) (remote (Labels.app s)) = (Raise e, d) ->
   Labels.color s
   = (Raise (if caught_by [QubesDaemonNoResponseError] e
             then Exn QubesPropertyAccessError ["label.color"] else e),
      label_called (label_color_call s) d s))
  /\ (transport_call (label_index_call s) (remote (Labels.app s)) = (Raise e, d) ->
      Labels.index s
      = (Raise (if caught_by [QubesDaemonNoResponseError] e
                then Exn QubesPropertyAccessError ["label.index"] else e),
         label_called (label_index_call s) d s)).
Proof.
  intros Hc Hi. split; intros Et.
  - rewrite (label_color_eq _ Hc), Et.
    destruct (caught_by _ e); reflexivity.
  - rewrite (label_index_eq _ Hi), Et.
    destruct (caught_by _ e); reflexivity.
Qed.


End LabelFacts.

(** ** Lines of a reply *)

Section LineFacts.

Lemma append_assoc (a b c : string) :
  ((a ++ b) ++ c)%string = (a ++ (b ++ c))%string.
Proof. induction a; simpl; congruence. Qed.

Lemma append_empty (a : string) : (a ++ "")%string = a.
Proof. induction a; simpl; congruence. Qed.

Lemma rev_string_acc s : forall acc,
  rev_string acc s = (rev_string "" s ++ acc)%string.
Proof.
  induction s as [|c s IH]; intros acc; [reflexivity|].
  simpl. rewrite (IH (String c acc)), (IH (String c "")).
  now rewrite append_assoc.
Qed.

Lemma rev_string_push c cur n :
  (rev_string "" (String c cur) ++ n)%string
  = (rev_string "" cur ++ String c n)%string.
Proof. simpl. now rewrite rev_string_acc, append_assoc. Qed.

Lemma one_line_cons c n :
  one_line (String c n) = true ->
  Ascii.eqb c CR = false /\ str_linebreak c = false /\ one_line n = true.
Proof.
  cbn [one_line]. intros Hn.
  apply andb_prop in Hn as [Hn Hr]. apply andb_prop in Hn as [Hc Hb].
  apply negb_true_iff in Hc, Hb. auto.
Qed.

Lemma one_line_append a b :
  one_line a = true -> one_line b = true -> one_line (a ++ b) = true.
Proof.
  induction a as [|c a IH]; intros Ha Hb; [exact Hb|].
  apply one_line_cons in Ha as (Hc & Hk & Ha).
  cbn [append one_line]. now rewrite Hc, Hk, IH.
Qed.

Lemma is_ascii_append a b :
  is_ascii a = true -> is_ascii b = true -> is_ascii (a ++ b) = true.
Proof.
  induction a as [|c a IH]; intros Ha Hb; [exact Hb|].
  cbn [is_ascii] in Ha. apply andb_prop in Ha as [Hc Ha].
  cbn [append is_ascii]. now rewrite Hc, IH.
Qed.

(** A line and its terminator, read by [str.splitlines] on ASCII text. *)
Lemma splitlines_line n : forall cur rest,
  one_line n = true ->
  splitlines_from str_linebreak cur (n ++ String LF rest)
  = (rev_string "" cur ++ n)%string
    :: splitlines_from str_linebreak "" rest.
Proof.
  induction n as [|c n IH]; intros cur rest Hn.
  - cbn. now rewrite append_empty.
  - apply one_line_cons in Hn as (Hc & Hk & Hn).
    cbn [append splitlines_from]. rewrite Hc, Hk, (IH _ _ Hn).
    now rewrite rev_string_push.
Qed.

(** A last line without terminator. *)
Lemma splitlines_last n : forall cur,
  one_line n = true -> cur <> "" \/ n <> "" ->
  splitlines_from str_linebreak cur n = [(rev_string "" cur ++ n)%string].
Proof.
  induction n as [|c n IH]; intros cur Hn Hne.
  - destruct cur as [|c cur]; [now destruct Hne|].
    cbn [splitlines_from]. now rewrite append_empty.
  - apply one_line_cons in Hn as (Hc & Hk & Hn).
    cbn [splitlines_from]. rewrite Hc, Hk, (IH _ Hn) by (now left).
    now rewrite rev_string_push.
Qed.

(** The same two facts for [str.splitlines] on text in UTF-8. *)
Lemma text_splitlines_step c cur r :
  Ascii.eqb c CR = false -> str_linebreak c = false ->
  in_range 0 127 c = true ->
  text_splitlines_from cur (String c r)
  = text_splitlines_from (String c cur) r.
Proof.
  intros Hc Hk Ha. cbn [text_splitlines_from]. rewrite Hc, Hk.
  assert (H1 : Ascii.eqb c "194" = false).
  { destruct (Ascii.eqb_spec c "194") as [->|]; [discriminate|reflexivity]. }
  assert (H2 : Ascii.eqb c "226" = false).
  { destruct (Ascii.eqb_spec c "226") as [->|]; [discriminate|reflexivity]. }
  rewrite H1, H2. destruct r as [|c1 [|c2 r2]]; reflexivity.
Qed.

Lemma text_splitlines_line n : forall cur rest,
  one_line n = true -> is_ascii n = true ->
  text_splitlines_from cur (n ++ String LF rest)
  = (rev_string "" cur ++ n)%string :: text_splitlines_from "" rest.
Proof.
  induction n as [|c n IH]; intros cur rest Hn Ha.
  - cbn. now rewrite append_empty.
  - apply one_line_cons in Hn as (Hc & Hk & Hn).
    cbn [is_ascii] in Ha. apply andb_prop in Ha as [Hca Ha].
    cbn [append]. rewrite (text_splitlines_step _ _ _ Hc Hk Hca).
    rewrite (IH _ _ Hn Ha). now rewrite rev_string_push.
Qed.

Lemma text_splitlines_last n : forall cur,
  one_line n = true -> is_ascii n = true -> cur <> "" \/ n <> "" ->
  text_splitlines_from cur n = [(rev_string "" cur ++ n)%string].
Proof.
  induction n as [|c n IH]; intros cur Hn Ha Hne.
  - destruct cur as [|c cur]; [now destruct Hne|].
    cbn [text_splitlines_from]. now rewrite append_empty.
  - apply one_line_cons in Hn as (Hc & Hk & Hn).
    cbn [is_ascii] in Ha. apply andb_prop in Ha as [Hca Ha].
    rewrite (text_splitlines_step _ _ _ Hc Hk Hca).
    rewrite (IH _ Hn Ha) by (now left). now rewrite rev_string_push.
Qed.

Lemma drop_last_cons c r :
  r <> "" -> WOC.drop_last (String c r) = String c (WOC.drop_last r).
Proof. destruct r; [now intros [] | reflexivity]. Qed.

Lemma last_char_cons c r :
  r <> "" -> WOC.last_char (String c r) = WOC.last_char r.
Proof. destruct r; [now intros [] | reflexivity]. Qed.

Lemma append_nonempty a c b : (a ++ String c b)%string <> "".
Proof. destruct a; discriminate. Qed.

Lemma drop_last_line n rest :
  rest <> "" ->
  WOC.drop_last (n ++ String LF rest)
  = (n ++ String LF (WOC.drop_last rest))%string.
Proof.
  intros Hr. induction n as [|c n IH].
  - now apply drop_last_cons.
  - cbn [append]. rewrite drop_last_cons by apply append_nonempty.
    now rewrite IH.
Qed.

Lemma drop_last_end n : WOC.drop_last (n ++ String LF "") = n.
Proof.
  induction n as [|c n IH]; [reflexivity|].
  cbn [append]. rewrite drop_last_cons by apply append_nonempty.
  now rewrite IH.
Qed.

Lemma last_char_line n rest :
  rest <> "" -> WOC.last_char (n ++ String LF rest) = WOC.last_char rest.
Proof.
  intros Hr. induction n as [|c n IH].
  - now apply last_char_cons.
  - cbn [append]. rewrite last_char_cons by apply append_nonempty.
    exact IH.
Qed.

Lemma last_char_end n : WOC.last_char (n ++ String LF "") = Some LF.
Proof.
  induction n as [|c n IH]; [reflexivity|].
  cbn [append]. rewrite last_char_cons by apply append_nonempty.
  exact IH.
Qed.

Lemma info_lines_cons kv rest :
  info_lines (kv :: rest)
  = (line_of kv ++ String LF (info_lines rest))%string.
Proof.
  destruct kv as [k v]. unfold line_of. cbn [info_lines fst snd].
  now rewrite append_assoc.
Qed.

Lemma plain_pair_line kv :
  plain_pair kv = true ->
  one_line (line_of kv) = true /\ is_ascii (line_of kv) = true
  /\ split_max "=" 1 (line_of kv) = [fst kv; snd kv]
  /\ line_of kv <> "".
Proof.
  unfold plain_pair, line_of. intros Hp.
  repeat (apply andb_prop in Hp as [Hp ?]).
  repeat split.
  - now apply one_line_append.
  - now apply is_ascii_append.
  - cbn [split_max]. now rewrite cut_free.
  - destruct (fst kv); discriminate.
Qed.

Lemma info_lines_nonempty kv rest : info_lines (kv :: rest) <> "".
Proof. destruct kv as [[|c k] v]; discriminate. Qed.

(** [str.splitlines] takes a reply of terminated lines apart again. *)
Lemma splitlines_info_lines pairs :
  forallb plain_pair pairs = true ->
  str_splitlines (info_lines pairs) = map line_of pairs.
Proof.
  unfold str_splitlines.
  induction pairs as [|kv rest IH]; intros Hp; [reflexivity|].
  cbn [forallb] in Hp. apply andb_prop in Hp as [Hkv Hp].
  destruct (plain_pair_line _ Hkv) as (Hl & _).
  rewrite info_lines_cons, (splitlines_line _ _ _ Hl).
  cbn [rev_string append map]. now rewrite (IH Hp).
Qed.

(** The same after the last line feed is cut off, for text in UTF-8. *)
Lemma text_splitlines_info_lines pairs :
  forallb plain_pair pairs = true ->
  text_splitlines (WOC.drop_last (info_lines pairs)) = map line_of pairs.
Proof.
  unfold text_splitlines.
  induction pairs as [|kv rest IH]; intros Hp; [reflexivity|].
  cbn [forallb] in Hp. apply andb_prop in Hp as [Hkv Hp].
  destruct (plain_pair_line _ Hkv) as (Hl & Ha & _ & Hne).
  rewrite info_lines_cons. destruct rest as [|kv' rest].
  - cbn [info_lines]. rewrite drop_last_end.
    rewrite (text_splitlines_last _ _ Hl Ha) by (now right). reflexivity.
  - rewrite drop_last_line by apply info_lines_nonempty.
    rewrite (text_splitlines_line _ _ _ Hl Ha).
    cbn [rev_string append]. now rewrite (IH Hp).
Qed.

Lemma info_lines_end pairs :
  pairs <> [] -> endswith (String LF "") (info_lines pairs) = true.
Proof.
  assert (K : forall s, WOC.last_char s = Some LF ->
                        endswith (String LF "") s = true).
  { unfold endswith. intros s. induction s as [|c s IH]; [discriminate|].
    destruct s as [|c' s].
    - cbn. intros E. inversion E. reflexivity.
    - intros E. specialize (IH E). apply andb_prop in IH as [_ IH].
      cbn [String.length] in *.
      replace (S (S (String.length s)) - 1) with (S (String.length s))
        by lia.
      replace (S (String.length s) - 1) with (String.length s) in IH
        by lia.
      cbn [Nat.leb slice_from andb]. exact IH. }
  intros Hne. apply K. induction pairs as [|kv rest IH]; [now destruct Hne|].
  rewrite info_lines_cons. destruct rest as [|kv' rest].
  - cbn [info_lines]. apply last_char_end.
  - rewrite last_char_line by apply info_lines_nonempty.
    apply IH. discriminate.
Qed.

Lemma name_lines_nonempty n rest : name_lines (n :: rest) <> "".
Proof. destruct n; discriminate. Qed.

Lemma name_lines_end names :
  names <> [] -> WOC.last_char (name_lines names) = Some LF.
Proof.
  intros Hne. induction names as [|n rest IH]; [now destruct Hne|].
  cbn [name_lines]. destruct rest as [|n' rest].
  - cbn [name_lines]. apply last_char_end.
  - rewrite last_char_line by apply name_lines_nonempty.
    apply IH. discriminate.
Qed.

Lemma plain_name_line n :
  plain_name n = true ->
  one_line n = true /\ is_ascii n = true /\ n <> "".
Proof.
  unfold plain_name. intros Hp.
  repeat (apply andb_prop in Hp as [Hp ?]).
  repeat split; try assumption.
  intros ->. discriminate.
Qed.

Lemma splitlines_name_lines names :
  forallb plain_name names = true ->
  str_splitlines (WOC.drop_last (name_lines names)) = names.
Proof.
  unfold str_splitlines.
  induction names as [|n rest IH]; intros Hp; [reflexivity|].
  cbn [forallb] in Hp. apply andb_prop in Hp as [Hn Hp].
  destruct (plain_name_line _ Hn) as (Hl & _ & Hne).
  cbn [name_lines]. destruct rest as [|n' rest].
  - cbn [name_lines]. rewrite drop_last_end.
    rewrite (splitlines_last _ _ Hl) by (now right). reflexivity.
  - rewrite drop_last_line by apply name_lines_nonempty.
    rewrite (splitlines_line _ _ _ Hl).
    cbn [rev_string append]. now rewrite (IH Hp).
Qed.

Lemma is_ascii_name_lines names :
  forallb plain_name names = true ->
  is_ascii (WOC.drop_last (name_lines names)) = true.
Proof.
  induction names as [|n rest IH]; intros Hp; [reflexivity|].
  cbn [forallb] in Hp. apply andb_prop in Hp as [Hn Hp].
  destruct (plain_name_line _ Hn) as (_ & Ha & _).
  cbn [name_lines]. destruct rest as [|n' rest].
  - cbn [name_lines]. now rewrite drop_last_end.
  - rewrite drop_last_line by apply name_lines_nonempty.
    apply is_ascii_append; [assumption|].
    cbn [is_ascii]. now rewrite (IH Hp).
Qed.

Lemma is_ascii_info_lines pairs :
  forallb plain_pair pairs = true -> is_ascii (info_lines pairs) = true.
Proof.
  induction pairs as [|kv rest IH]; intros Hp; [reflexivity|].
  cbn [forallb] in Hp. apply andb_prop in Hp as [Hkv Hp].
  destruct (plain_pair_line _ Hkv) as (_ & Ha & _).
  rewrite info_lines_cons. apply is_ascii_append; [assumption|].
  cbn [is_ascii]. now rewrite (IH Hp).
Qed.

(** What [dict(pairs)] holds for a key. *)
Lemma dict_get_fold {V} (pairs : list (str * V)) : forall d k,
  dict_get k
    (fold_left (fun d kv => dict_set (fst kv) (snd kv) d) pairs d)
  = match last_value k pairs with
    | Some v => Some v
    | None => dict_get k d
    end.
Proof.
  induction pairs as [|[k' v] rest IH]; intros d k; [reflexivity|].
  cbn [fold_left last_value fst snd]. rewrite IH.
  destruct (last_value k rest); [reflexivity|].
  destruct (String.eqb k k') eqn:E.
  - apply String.eqb_eq in E. subst. apply dict_get_set_same.
  - apply String.eqb_neq in E. now apply dict_get_set_other.
Qed.

Lemma dict_get_of_pairs {V} (pairs : list (str * V)) k :
  dict_get k (dict_of_pairs pairs) = last_value k pairs.
Proof.
  unfold dict_of_pairs. rewrite dict_get_fold.
  now destruct (last_value k pairs).
Qed.

End LineFacts.

(** ** Volumes *)

Section VolumeFacts.
Context `{ExcModule} `{Transport}.

Implicit Types (s : Vol.VolumeSt) (v : Vol.Volume).

Lemma volume_in_app_call c s :
  Vol.in_app (app_qubesd_call c) s = volume_performs c s.
Proof.
  unfold Vol.in_app, zoom, app_qubesd_call, volume_performs.
  now destruct (transport_call c (remote (Vol.app s))).
Qed.

(** X20: [Volume.__init__] accepts exactly the volumes that [_qubesd_call]
    can address, so the assertion in [_qubesd_call] never fails for a
    constructed volume: a volume of a VM sends
    [admin.vm.volume.<func_name>] to the VM with the volume's name as
    argument and the payload as given; any other volume has a pool and a
    volume ID and sends [admin.pool.volume.<func_name>] to [dom0] with
    the pool as argument and the volume ID put before the payload, or
    raises [UnicodeEncodeError] before any call when the ID is not
    ASCII. *)
Theorem constructed_volume_is_addressable
  pool vid vm vm_name v a func_name payload :
  Vol.__init__ pool vid vm vm_name = Return v ->
  let s := {| Vol.self := v; Vol.app := a |} in
  match vm with
  | Some dest =>
    Vol._qubesd_call func_name payload s
    = volume_performs
        {| call_dest := dest;
           call_method := ("admin.vm.volume." ++ func_name)%string;
           call_arg := vm_name; call_payload := payload |} s
  | None =>
    exists p x,
      pool = Some p /\ vid = Some x
      /\ Vol._qubesd_call func_name payload s
         = if is_ascii x then
             volume_performs
               {| call_dest := "dom0";
                  call_method := ("admin.pool.volume." ++ func_name)%string;
                  call_arg := Some p;
                  call_payload :=
                    Some match payload with
                         | Some b => (x ++ " " ++ b)%string
                         | None => x
                         end |} s
           else (Raise (Exn (OtherClass "UnicodeEncodeError") []), s)
  end.
Proof.
  intros Hv s. unfold Vol.__init__ in Hv.
  destruct vm as [dest|].
  - destruct pool as [p|], vid as [x|], vm_name as [n|];
      cbn in Hv; inversion Hv; subst v;
      subst s; unfold Vol._qubesd_call; unfold bind at 1; unfold gets at 1;
      cbn [Vol.self Vol._vm]; unfold bind at 1; unfold gets at 1;
      apply volume_in_app_call.
  - destruct pool as [p|]; [|discriminate].
    destruct vid as [x|]; [|discriminate].
    cbn in Hv. inversion Hv; subst v. exists p, x.
    split; [reflexivity|]. split; [reflexivity|]. subst s.
    unfold Vol._qubesd_call. unfold bind at 1. unfold gets at 1.
    cbn [Vol.self Vol._vm]. unfold bind at 1. unfold gets at 1.
    unfold bind at 1. unfold gets at 1. cbn [Vol.self Vol._vid Vol._pool].
    unfold bind at 1. unfold lift, encoded, encode_ascii.
    destruct (is_ascii x); [|reflexivity].
    destruct payload; apply volume_in_app_call.
Qed.

Lemma dict_of_lines_pairs pairs : forall d,
  forallb plain_pair pairs = true ->
  Vol.dict_of_lines (map line_of pairs) d
  = Return (fold_left (fun d kv => dict_set (fst kv) (snd kv) d) pairs d).
Proof.
  induction pairs as [|kv rest IH]; intros d Hp; [reflexivity|].
  cbn [forallb] in Hp. apply andb_prop in Hp as [Hkv Hp].
  destruct (plain_pair_line _ Hkv) as (_ & _ & Hs & _).
  cbn [map Vol.dict_of_lines fold_left]. rewrite Hs. now apply IH.
Qed.

Lemma fetch_info_parses force s s1 pairs :
  forallb plain_pair pairs = true ->
  force = true \/ Vol._info (Vol.self s) = None ->
  Vol._qubesd_call "Info" None s = (Return (info_lines pairs), s1) ->
  Vol._fetch_info force s
  = (Return tt, volume_with_info (Some (dict_of_pairs pairs)) s1).
Proof.
  intros Hp Hf E. unfold Vol._fetch_info. unfold bind at 1. unfold gets at 1.
  replace (negb force && negb (Vol.is_none (Vol._info (Vol.self s))))
    with false
    by (destruct Hf as [->| ->]; [reflexivity | now destruct force]).
  unfold bind at 1. rewrite E. unfold bind at 1.
  unfold lift at 1, decode_ascii. rewrite (is_ascii_info_lines _ Hp).
  cbn [decoded]. unfold bind at 1. unfold lift at 1.
  rewrite (splitlines_info_lines _ Hp), (dict_of_lines_pairs _ _ Hp).
  reflexivity.
Qed.


(** X21: [_fetch_info] reads an info reply back into the dictionary of its
    pairs: for a reply of [key=value] lines it stores in [_info] a
    dictionary that holds, for every key, the value of the last line
    with that key.  With [force] unset and [_info] present it does
    nothing. *)
Theorem fetch_info_reads_the_reply_back force s s1 pairs :
  forallb plain_pair pairs = true ->
  Vol._qubesd_call "Info" None s = (Return (info_lines pairs), s1) ->
  (force = true \/ Vol._info (Vol.self s) = None ->
   exists d,
     Vol._fetch_info force s = (Return tt, volume_with_info (Some d) s1)
     /\ forall k, dict_get k d = last_value k pairs)
  /\ (force = false -> Vol._info (Vol.self s) <> None ->
      Vol._fetch_info force s = (Return tt, s)).
Proof.
  intros Hp E. split.
  - intros Hf. exists (dict_of_pairs pairs). split.
    + now apply fetch_info_parses.
    + intros k. apply dict_get_of_pairs.
  - intros -> Hi. unfold Vol._fetch_info. unfold bind at 1. unfold gets at 1.
    destruct (Vol._info (Vol.self s)); [reflexivity | now destruct Hi].
Qed.


End VolumeFacts.

(** ** Order of volumes *)

Section VolumeOrder.

Lemma ascii_compare_refl (a : ascii) : Ascii.compare a a = Eq.
Proof.
  pose proof (Ascii.compare_antisym a a) as E.
  destruct (Ascii.compare a a); (reflexivity || discriminate).
Qed.

Lemma ascii_compare_lt_trans (a b c : ascii) :
  Ascii.compare a b = Lt -> Ascii.compare b c = Lt ->
  Ascii.compare a c = Lt.
Proof.
  unfold Ascii.compare. rewrite !N.compare_lt_iff. lia.
Qed.

Lemma str_compare_refl (a : string) : String.compare a a = Eq.
Proof.
  induction a as [|c a IH]; [reflexivity|].
  cbn [String.compare]. now rewrite ascii_compare_refl.
Qed.

Lemma str_compare_lt_trans (a : string) : forall b c,
  String.compare a b = Lt -> String.compare b c = Lt ->
  String.compare a c = Lt.
Proof.
  induction a as [|x a IH]; intros [|y b] [|z c]; cbn [String.compare];
    try discriminate; try reflexivity.
  destruct (Ascii.compare x y) eqn:Exy; try discriminate;
    destruct (Ascii.compare y z) eqn:Eyz; try discriminate; intros Hab Hbc.
  - apply Ascii.compare_eq_iff in Exy, Eyz. subst.
    rewrite ascii_compare_refl. now apply IH with b.
  - apply Ascii.compare_eq_iff in Exy. subst. now rewrite Eyz.
  - apply Ascii.compare_eq_iff in Eyz. subst. now rewrite Exy.
  - now rewrite (ascii_compare_lt_trans _ _ _ Exy Eyz).
Qed.

Lemma str_lt_spec a b : str_lt a b = true <-> String.compare a b = Lt.
Proof.
  unfold str_lt, String.ltb. destruct (String.compare a b); split;
    (reflexivity || discriminate).
Qed.

Lemma pair_lt_spec a b c d :
  Vol.pair_lt a b c d = true
  <-> String.compare a c = Lt \/ (a = c /\ String.compare b d = Lt).
Proof.
  unfold Vol.pair_lt. rewrite orb_true_iff, andb_true_iff.
  rewrite !str_lt_spec, String.eqb_eq. reflexivity.
Qed.

Lemma pair_lt_irrefl a b : Vol.pair_lt a b a b = false.
Proof.
  apply not_true_is_false. rewrite pair_lt_spec.
  rewrite !str_compare_refl. intros [E|[_ E]]; discriminate.
Qed.

Lemma pair_lt_trans a b c d e f :
  Vol.pair_lt a b c d = true -> Vol.pair_lt c d e f = true ->
  Vol.pair_lt a b e f = true.
Proof.
  rewrite !pair_lt_spec.
  intros [H1|[-> H1]] [H2|[-> H2]].
  - left. now apply str_compare_lt_trans with c.
  - now left.
  - now left.
  - right. split; [reflexivity|]. now apply str_compare_lt_trans with d.
Qed.

Lemma pair_lt_asym a b c d :
  Vol.pair_lt a b c d = true -> Vol.pair_lt c d a b = false.
Proof.
  intros H1. apply not_true_is_false. intros H2.
  pose proof (pair_lt_trans _ _ _ _ _ _ H1 H2) as H3.
  now rewrite pair_lt_irrefl in H3.
Qed.

Lemma pair_lt_total a b c d :
  (a, b) <> (c, d) ->
  Vol.pair_lt a b c d = true \/ Vol.pair_lt c d a b = true.
Proof.
  intros Hne. rewrite !pair_lt_spec.
  destruct (String.compare a c) eqn:Eac.
  - apply String.compare_eq_iff in Eac. subst c.
    destruct (String.compare b d) eqn:Ebd.
    + apply String.compare_eq_iff in Ebd. subst d. now destruct Hne.
    + left. right. now split.
    + right. right. split; [reflexivity|].
      rewrite String.compare_antisym, Ebd. reflexivity.
  - left. now left.
  - right. left. rewrite String.compare_antisym, Eac. reflexivity.
Qed.

Lemma lt_of_vm_volumes v w :
  vm_volume v = true -> vm_volume w = true ->
  exists a n c m,
    Vol._vm v = Some a /\ Vol._vm_name v = Some n
    /\ Vol._vm w = Some c /\ Vol._vm_name w = Some m
    /\ Vol.__lt__ v w = Return (Some (Vol.pair_lt a n c m)).
Proof.
  unfold vm_volume, Vol.__lt__.
  destruct v as [p x [a|] [n|] i], w as [q y [c|] [m|] j];
    cbn [Vol._vm Vol._vm_name Vol._pool Vol._vid Vol.truthy Vol.is_none
         negb andb]; try discriminate;
    try (rewrite andb_false_r; discriminate).
  intros Ha Hc. rewrite andb_true_r in Ha, Hc. rewrite Ha, Hc.
  exists a, n, c, m. repeat split; reflexivity.
Qed.

(** X23: On volumes identified by a VM and a name, [__lt__] is the strict
    total order of the pairs (VM, name): it never raises, no volume is
    below itself, it is transitive, and of two volumes that differ in VM
    or name exactly one is below the other. *)
Theorem lt_orders_vm_volumes v w u :
  vm_volume v = true -> vm_volume w = true -> vm_volume u = true ->
  Vol.__lt__ v v = Return (Some false)
  /\ (Vol.__lt__ v w = Return (Some true) ->
      Vol.__lt__ w v = Return (Some false))
  /\ (Vol.__lt__ v w = Return (Some true) ->
      Vol.__lt__ w u = Return (Some true) ->
      Vol.__lt__ v u = Return (Some true))
  /\ ((Vol._vm v, Vol._vm_name v) <> (Vol._vm w, Vol._vm_name w) ->
      Vol.__lt__ v w = Return (Some true)
      \/ Vol.__lt__ w v = Return (Some true)).
Proof.
  intros Hv Hw Hu.
  destruct (lt_of_vm_volumes v v Hv Hv)
    as (a & n & a' & n' & Ea & En & Ea' & En' & Evv).
  rewrite Ea in Ea'. rewrite En in En'.
  inversion Ea'; inversion En'; subst a' n'.
  destruct (lt_of_vm_volumes v w Hv Hw)
    as (a1 & n1 & c & m & Ea1 & En1 & Ec & Em & Evw).
  rewrite Ea in Ea1. rewrite En in En1.
  inversion Ea1; inversion En1; subst a1 n1.
  destruct (lt_of_vm_volumes w v Hw Hv)
    as (c1 & m1 & a2 & n2 & Ec1 & Em1 & Ea2 & En2 & Ewv).
  rewrite Ea in Ea2. rewrite En in En2. rewrite Ec in Ec1. rewrite Em in Em1.
  inversion Ea2; inversion En2; inversion Ec1; inversion Em1;
    subst a2 n2 c1 m1.
  destruct (lt_of_vm_volumes w u Hw Hu)
    as (c2 & m2 & g & k & Ec2 & Em2 & Eg & Ek & Ewu).
  rewrite Ec in Ec2. rewrite Em in Em2.
  inversion Ec2; inversion Em2; subst c2 m2.
  destruct (lt_of_vm_volumes v u Hv Hu)
    as (a3 & n3 & g1 & k1 & Ea3 & En3 & Eg1 & Ek1 & Evu).
  rewrite Ea in Ea3. rewrite En in En3. rewrite Eg in Eg1. rewrite Ek in Ek1.
  inversion Ea3; inversion En3; inversion Eg1; inversion Ek1;
    subst a3 n3 g1 k1.
  rewrite Evv, Evw, Ewv, Ewu, Evu, Ea, En, Ec, Em.
  repeat split.
  - now rewrite pair_lt_irrefl.
  - intros E. inversion E as [E1]. now rewrite (pair_lt_asym _ _ _ _ E1).
  - intros E1 E2. inversion E1 as [E1']. inversion E2 as [E2'].
    rewrite E1'. now rewrite (pair_lt_trans _ _ _ _ _ _ E1' E2').
  - intros Hne.
    destruct (pair_lt_total a n c m) as [E|E].
    + congruence.
    + left. now rewrite E.
    + right. now rewrite E.
Qed.

End VolumeOrder.

(** ** Pools *)

Section PoolFacts.
Context `{ExcModule} `{Transport}.

Implicit Types (s : Pools.PoolSt).

Lemma ascii_utf8_valid b : is_ascii b = true -> utf8_valid b = true.
Proof.
  induction b as [|c b IH]; [reflexivity|].
  cbn [is_ascii utf8_valid]. intros Ha.
  apply andb_prop in Ha as [Hc Ha]. rewrite Hc. now apply IH.
Qed.

Lemma pool_in_app_call c s :
  Pools.in_app (app_qubesd_call c) s = pool_performs c s.
Proof.
  unfold Pools.in_app, zoom, app_qubesd_call, pool_performs.
  now destruct (transport_call c (remote (Pools.app s))).
Qed.

Lemma str_dict_of_lines_pairs pairs : forall d,
  forallb plain_pair pairs = true ->
  Pools.str_dict_of_lines (map line_of pairs) d
  = Return (fold_left (fun d kv => dict_set (fst kv) (snd kv) d) pairs d).
Proof.
  induction pairs as [|kv rest IH]; intros d Hp; [reflexivity|].
  cbn [forallb] in Hp. apply andb_prop in Hp as [Hkv Hp].
  destruct (plain_pair_line _ Hkv) as (_ & _ & Hs & _).
  cbn [map Pools.str_dict_of_lines fold_left]. rewrite Hs. now apply IH.
Qed.


(** A first read of [config], step by step. *)
Lemma pool_config_eq s :
  Pools._config (Pools.self s) = None ->
  Pools.config s
  = let c := pool_call s "admin.pool.Info" None in
    let (r, d) := transport_call c (remote (Pools.app s)) in
    match r with
    | Return reply =>
      match decode_utf8 reply with
      | Some text =>
        if endswith (String LF "") text then
          match Pools.str_dict_of_lines
                  (text_splitlines (WOC.drop_last text)) [] with
          | Return cfg =>
            (Return cfg, pool_with_config (Some cfg) (pool_called c d s))
          | Raise e => (Raise e, pool_called c d s)
          end
        else (Raise (Exn AssertionError []), pool_called c d s)
      | None => (Raise (Exn UnicodeDecodeError []), pool_called c d s)
      end
    | Raise e =>
      if caught_by [QubesDaemonAccessError] e
      then (Raise (Exn QubesPropertyAccessError ["config"]),
            pool_called c d s)
      else (Raise e, pool_called c d s)
    end.
Proof.
  intros Hc. unfold Pools.config. unfold bind at 1. unfold gets at 1.
  rewrite Hc. unfold bind at 1. unfold gets at 1.
  unfold bind at 1. unfold try_except. rewrite pool_in_app_call.
  unfold pool_performs. fold (pool_call s "admin.pool.Info" None).
  cbv zeta.
  destruct (transport_call _ _) as [[reply|e] d].
  - unfold bind at 1. unfold lift at 1, decoded.
    destruct (decode_utf8 reply) as [text|]; [|reflexivity].
    unfold bind at 1. unfold assert.
    destruct (endswith (String LF "") text); [|reflexivity].
    unfold ret at 1. unfold bind at 1. unfold lift at 1.
    destruct (Pools.str_dict_of_lines _ _); reflexivity.
  - destruct (caught_by _ e); reflexivity.
Qed.

Lemma pool_config_cached s cfg :
  Pools._config (Pools.self s) = Some cfg ->
  Pools.config s = (Return cfg, s).
Proof.
  intros Hc. unfold Pools.config. unfold bind at 1. unfold gets at 1.
  now rewrite Hc.
Qed.

Lemma pool_setter_eq s method payload :
  (in_app_payload <- Pools.in_app (app_qubesd_call
      (pool_call s method (Some payload))) ;;
   Pools.set_config None) s
  = let c := pool_call s method (Some payload) in
    let (r, d) := transport_call c (remote (Pools.app s)) in
    match r with
    | Return _ => (Return tt, pool_with_config None (pool_called c d s))
    | Raise e => (Raise e, pool_called c d s)
    end.
Proof.
  unfold bind. rewrite pool_in_app_call. unfold pool_performs. cbv zeta.
  now destruct (transport_call _ _) as [[reply|e] d].
Qed.

(** What a setter of a pool does with the cached configuration. *)
Lemma pool_setter_config s value method r s1 :
  (pool_name <- gets (fun s => Pools.name (Pools.self s)) ;;
   payload <- lift (encoded (encode_ascii (py_str value))) ;;
   Pools.in_app (app_qubesd_call
     {| call_dest := "dom0"; call_method := method;
        call_arg := pool_name; call_payload := Some payload |}) ;;
   Pools.set_config None) s = (r, s1) ->
  match r with
  | Return _ => Pools._config (Pools.self s1) = None
  | Raise _ => Pools.self s1 = Pools.self s
  end.
Proof.
  unfold bind at 1. unfold gets at 1. unfold bind at 1.
  unfold lift at 1, encoded.
  destruct (encode_ascii (py_str value)) as [payload|].
  - fold (pool_call s method (Some payload)).
    rewrite pool_setter_eq. cbv zeta.
    destruct (transport_call _ _) as [[reply|e] d];
      intros E; inversion E; subst; reflexivity.
  - intros E; inversion E; subst; reflexivity.
Qed.

(** X24: A pool's configuration is fetched once and kept until a setter
    succeeds: a read that returned is repeated without a call; a
    successful assignment to [revisions_to_keep] or [ephemeral_volatile]
    drops the cached configuration, a failed one keeps it as it was. *)
Theorem pool_config_is_kept_until_set s :
  (forall cfg s1, Pools.config s = (Return cfg, s1) ->
                  Pools.config s1 = (Return cfg, s1))
  /\ (forall value s1,
        Pools.set_revisions_to_keep value s = (Return tt, s1)
        \/ Pools.set_ephemeral_volatile value s = (Return tt, s1) ->
        Pools._config (Pools.self s1) = None)
  /\ (forall value e s1,
        Pools.set_revisions_to_keep value s = (Raise e, s1)
        \/ Pools.set_ephemeral_volatile value s = (Raise e, s1) ->
        Pools.self s1 = Pools.self s).
Proof.
  split; [|split].
  - intros cfg s1 E.
    destruct (Pools._config (Pools.self s)) as [c0|] eqn:Hc.
    + rewrite (pool_config_cached _ _ Hc) in E. inversion E; subst.
      now apply pool_config_cached.
    + rewrite (pool_config_eq _ Hc) in E. cbv zeta in E.
      destruct (transport_call _ _) as [[reply|e] d].
      * destruct (decode_utf8 reply) as [text|]; [|discriminate].
        destruct (endswith _ text); [|discriminate].
        destruct (Pools.str_dict_of_lines _ _); inversion E; subst.
        now apply pool_config_cached.
      * destruct (caught_by _ e); discriminate.
  - intros value s1 [E|E];
      exact (pool_setter_config _ _ _ _ _ E).
  - intros value e s1 [E|E];
      exact (pool_setter_config _ _ _ _ _ E).
Qed.

(** X25: [config] reads an info reply back into the dictionary of its pairs;
    an empty reply fails its assertion. *)
Theorem pool_config_reads_the_reply_back s d pairs :
  Pools._config (Pools.self s) = None ->
  forallb plain_pair pairs = true ->
  transport_call (pool_call s "admin.pool.Info" None) (remote (Pools.app s))
  = (Return (info_lines pairs), d) ->
  let s1 := pool_called (pool_call s "admin.pool.Info" None) d s in
  match pairs with
  | [] => Pools.config s = (Raise (Exn AssertionError []), s1)
  | _ :: _ =>
    exists cfg,
      Pools.config s = (Return cfg, pool_with_config (Some cfg) s1)
      /\ forall k, dict_get k cfg = last_value k pairs
  end.
Proof.
  intros Hc Hp Et s1. rewrite (pool_config_eq _ Hc). cbv zeta. rewrite Et.
  unfold decode_utf8.
  rewrite (ascii_utf8_valid _ (is_ascii_info_lines _ Hp)).
  destruct pairs as [|kv rest]; [reflexivity|].
  rewrite info_lines_end by discriminate.
  rewrite (text_splitlines_info_lines _ Hp).
  rewrite (str_dict_of_lines_pairs _ _ Hp).
  exists (dict_of_pairs (kv :: rest)). split; [reflexivity|].
  intros k. apply dict_get_of_pairs.
Qed.

(** X26: [ephemeral_volatile] is true for every non-empty text in the
    configuration, whatever it says: a pool whose info reply has a line
    [ephemeral_volatile=<text>] with some text, [False] included, reads
    as true. *)
Theorem pool_ephemeral_volatile_is_true_for_any_text s d pairs text :
  Pools._config (Pools.self s) = None ->
  forallb plain_pair pairs = true ->
  transport_call (pool_call s "admin.pool.Info" None) (remote (Pools.app s))
  = (Return (info_lines pairs), d) ->
  last_value "ephemeral_volatile" pairs = Some text ->
  text <> "" ->
  exists s1, Pools.ephemeral_volatile s = (Return true, s1).
Proof.
  intros Hc Hp Et Hl Hne.
  pose proof (pool_config_eq _ Hc) as E. cbv zeta in E. rewrite Et in E.
  unfold decode_utf8 in E.
  rewrite (ascii_utf8_valid _ (is_ascii_info_lines _ Hp)) in E.
  destruct pairs as [|kv rest]; [discriminate|].
  rewrite info_lines_end in E by discriminate.
  rewrite (text_splitlines_info_lines _ Hp) in E.
  rewrite (str_dict_of_lines_pairs _ _ Hp) in E.
  fold (dict_of_pairs (kv :: rest)) in E.
  unfold Pools.ephemeral_volatile. unfold bind at 1. rewrite E.
  unfold bind at 1. unfold Pools.getitem.
  rewrite dict_get_of_pairs, Hl. unfold ret.
  apply String.eqb_neq in Hne. rewrite Hne. eexists. reflexivity.
Qed.



Lemma res_map_pool_volumes p vids :
  res_map (fun vid => Vol.__init__ (Some p) (Some vid) None None) vids
  = Return (map (pool_volume p) vids).
Proof.
  induction vids as [|x vids IH]; [reflexivity|].
  cbn [res_map map]. rewrite IH. reflexivity.
Qed.

(** X28: [volumes] yields one volume per line of the list reply, each
    identified by the pool and the volume ID of the line, and nothing
    for an empty reply.  None of these volumes has a name within a VM,
    so [__lt__] between any two of them fails its assertion: the
    volumes a pool lists cannot be sorted. *)
Theorem pool_volumes_are_listed_but_not_ordered s d p vids :
  Pools.name (Pools.self s) = Some p ->
  forallb plain_name vids = true ->
  transport_call (pool_call s "admin.pool.volume.List" None)
    (remote (Pools.app s))
  = (Return (name_lines vids), d) ->
  Pools.volumes s
  = (Return (map (pool_volume p) vids),
     pool_called (pool_call s "admin.pool.volume.List" None) d s)
  /\ forall v w,
       In v (map (pool_volume p) vids) -> In w (map (pool_volume p) vids) ->
       Vol.__lt__ v w = Raise (Exn AssertionError []).
Proof.
  intros Hn Hp Et. split.
  - unfold Pools.volumes. unfold bind at 1. unfold gets at 1.
    unfold bind at 1. unfold try_except. rewrite pool_in_app_call.
    unfold pool_performs. fold (pool_call s "admin.pool.volume.List" None).
    rewrite Et. rewrite Hn.
    destruct vids as [|x vids]; [reflexivity|].
    destruct (String.eqb (name_lines (x :: vids)) "") eqn:Ee.
    { apply String.eqb_eq in Ee. now apply name_lines_nonempty in Ee. }
    unfold bind at 1. unfold assert.
    assert (Hend : endswith (String LF "") (name_lines (x :: vids)) = true).
    { pose proof (name_lines_end (x :: vids)) as Hl.
      specialize (Hl ltac:(discriminate)).
      revert Hl. generalize (name_lines (x :: vids)). intros t.
      unfold endswith. induction t as [|c t IH]; [discriminate|].
      destruct t as [|c' t].
      - cbn. intros E. inversion E. reflexivity.
      - intros E. specialize (IH E). apply andb_prop in IH as [_ IH].
        cbn [String.length] in *.
        replace (S (S (String.length t)) - 1) with (S (String.length t))
          by lia.
        replace (S (String.length t) - 1) with (String.length t) in IH
          by lia.
        cbn [Nat.leb slice_from andb]. exact IH. }
    rewrite Hend. unfold ret at 1. unfold bind at 1.
    unfold lift at 1, decode_ascii. rewrite (is_ascii_name_lines _ Hp).
    cbn [decoded]. unfold lift.
    rewrite (splitlines_name_lines _ Hp).
    now rewrite res_map_pool_volumes.
  - intros v w Hv Hw.
    apply in_map_iff in Hv as (x & <- & _).
    apply in_map_iff in Hw as (y & <- & _). reflexivity.
Qed.

End PoolFacts.

(** ** Destinations of a holder's calls *)

Section Redirection.
Context `{Transport}.

Implicit Types (s : PH.HolderSt).

(** X8: A holder with [_redirect_dispvm_calls] set rewrites the destination
    of its calls: [@dispvm:NAME] becomes [NAME], any other destination
    starting with [@dispvm] becomes the application's default disposable
    VM, and without such a default the assertion fails before anything
    is sent; every other destination is used as given.  A missing
    destination stands for the holder's own. *)
Theorem qubesd_call_redirects_dispvm_destinations
  s dest method arg payload :
  PH._redirect_dispvm_calls (PH.self s) = true ->
  let send d :=
    holder_performs {| call_dest := d; call_method := method;
                       call_arg := arg; call_payload := payload |} s in
  (startswith "@dispvm" dest = false ->
   PH.qubesd_call (Some dest) method arg payload s = send dest)
  /\ PH.qubesd_call (Some ("@dispvm:" ++ dest)%string) method arg payload s
     = send dest
  /\ (startswith "@dispvm" dest = true ->
      startswith "@dispvm:" dest = false ->
      PH.qubesd_call (Some dest) method arg payload s
      = match default_dispvm (PH.app s) with
        | Some vm => send vm
        | None => (Raise (Exn AssertionError []), s)
        end)
  /\ PH.qubesd_call None method arg payload s
     = PH.qubesd_call (Some (PH._method_dest (PH.self s)))
         method arg payload s.
Proof.
  intros Hr send.
  assert (K : forall d,
    PH.in_app (app_qubesd_call
      {| call_dest := d; call_method := method;
         call_arg := arg; call_payload := payload |}) s = send d).
  { intros d. unfold send, holder_performs.
    cbv [PH.in_app zoom app_qubesd_call].
    now destruct (transport_call _ _). }
  split; [|split; [|split]].
  - intros Hd. unfold PH.qubesd_call. cbv [bind ret gets].
    rewrite Hr, Hd. cbn [andb]. apply K.
  - assert (P : String.prefix "" dest = true) by (now destruct dest).
    unfold PH.qubesd_call. cbv [bind ret gets]. rewrite Hr.
    cbn. rewrite P. apply K.
  - intros Hd Hc. unfold PH.qubesd_call. cbv [bind ret gets].
    rewrite Hr, Hd, Hc. cbn [andb].
    destruct (default_dispvm (PH.app s)); [apply K | reflexivity].
  - reflexivity.
Qed.

End Redirection.

(** ** The further properties at concrete states *)

Section MoreWitnesses.

Import Stub.

Lemma property_list_is_memoised_witness :
  let s := scripted_state false [Return (name_lines ["netvm"; "label"])] in
  let s' := snd (PH.property_list s) in
  PH.property_list s = (Return ["netvm"; "label"], s')
  /\ PH.property_list s' = (Return ["netvm"; "label"], s').
Proof.
  intros s s'.
  assert (E : PH.property_list s = (Return ["netvm"; "label"], s'))
    by reflexivity.
  split; [exact E|].
  exact (@property_list_is_memoised script_transport s _ s' E).
Defined.

Lemma names_missing_from_prefetch_fail_fast_witness :
  let s1 := snd (PH._fetch_all_properties (H := std_exc) kv_state) in
  PH._fetch_all_properties (H := std_exc) kv_state = (Return tt, s1)
  /\ dict_get "zz" (PH._properties_cache (PH.self s1)) = None
  /\ PH.__getattr__ (H := std_exc) "zz" s1
     = (Raise (Exn AttributeError ["zz"]), s1)
  /\ PH.property_list s1 = (Return ["x"; "n"], s1).
Proof.
  intros s1.
  assert (E : PH._fetch_all_properties (H := std_exc) kv_state
              = (Return tt, s1)) by reflexivity.
  assert (Hg : dict_get "zz" (PH._properties_cache (PH.self s1)) = None)
    by reflexivity.
  split; [exact E|]. split; [exact Hg|].
  refine (@names_missing_from_prefetch_fail_fast std_exc kv_transport
            kv_state
            (String.concat "" (map kv_line (remote (PH.app kv_state))))
            (remote (PH.app kv_state)) s1 "zz"
            eq_refl eq_refl E _ eq_refl Hg).
  vm_compute. discriminate.
Defined.

Lemma get_and_is_default_share_the_cache_witness :
  let s' := snd (PH.__getattr__ (H := std_exc) "x" kv_state) in
  cache_enabled (PH.app kv_state) = true
  /\ PH.__getattr__ (H := std_exc) "x" kv_state = (Return (VStr "old"), s')
  /\ exists d, PH.property_is_default (H := std_exc) "x" s' = (Return d, s').
Proof.
  intros s'.
  assert (He : cache_enabled (PH.app kv_state) = true) by reflexivity.
  assert (E : PH.__getattr__ (H := std_exc) "x" kv_state
              = (Return (VStr "old"), s')) by reflexivity.
  split; [exact He|]. split; [exact E|].
  exact (proj1 (@get_and_is_default_share_the_cache std_exc kv_transport
                  kv_state "x" He) (VStr "old") s' E).
Defined.

Lemma property_get_default_bypasses_cache_witness :
  let s := scripted_state true [Return ""] in
  let c := holder_call s "GetDefault" (Some "netvm") None in
  PH.property_get_default (H := std_exc) "_netvm" s
  = (Raise (Exn AttributeError ["_netvm"]), s)
  /\ PH.property_get_default (H := std_exc) "netvm" s
     = (Raise (Exn AttributeError ["netvm has no default"]),
        after_call c played_out s).
Proof.
  intros s c. split.
  - exact (proj1 (proj2 (@property_get_default_bypasses_cache std_exc
                           script_transport s "_netvm")) eq_refl).
  - destruct (@property_get_default_bypasses_cache std_exc
                script_transport s "netvm") as (_ & _ & Hcall).
    destruct (Hcall eq_refl eq_refl) as (_ & Hreply).
    exact (proj1 (Hreply "" played_out eq_refl) eq_refl).
Defined.

Lemma clear_cache_forces_a_call_witness :
  let s := snd (PH.__getattr__ (H := std_exc) "x" kv_state) in
  PH._redirect_dispvm_calls (PH.self s) = false
  /\ PH._properties_cache (PH.self s) <> []
  /\ exists s0,
       PH.clear_cache s = (Return tt, s0)
       /\ PH._properties_cache (PH.self s0) = []
       /\ forall r s',
            PH.__getattr__ (H := std_exc) "x" s0 = (r, s') ->
            exists rest,
              call_log (PH.app s')
              = (call_log (PH.app s)
                 ++ holder_call s "GetAll" None None :: rest)%list.
Proof.
  intros s.
  assert (Hr : PH._redirect_dispvm_calls (PH.self s) = false)
    by reflexivity.
  split; [exact Hr|]. split; [vm_compute; discriminate|].
  destruct (@clear_cache_forces_a_call std_exc kv_transport s "x"
              Hr eq_refl) as (s0 & E & Hc & _ & _ & Hon & _).
  exists s0. split; [exact E|]. split; [exact Hc|].
  exact (Hon eq_refl).
Defined.


Lemma bulk_line_caches_what_get_decodes_witness :
  PH.fetch_lines ["netvm default=True type=int 7"] kv_state
  = PH.set_properties_cache [("netvm", (true, VInt 7))] kv_state.
Proof.
  exact (@bulk_line_caches_what_get_decodes kv_transport kv_state
           "netvm" "default=True type=int 7"
           eq_refl eq_refl eq_refl eq_refl).
Defined.

Lemma failed_refresh_leaves_caches_witness :
  let s := scripted_collection [Return ""] in
  WOC.refresh_cache true s
  = (Raise (Exn IndexError []), listed (list_call s) played_out s).
Proof.
  intros s.
  destruct (@failed_refresh_leaves_caches script_transport s true
              (or_introl eq_refl)) as (_ & Hempty & _).
  exact (Hempty played_out eq_refl).
Defined.

Lemma keys_lists_once_witness :
  let s' := snd (WOC.keys listing_state) in
  WOC.keys listing_state = (Return ["a"; "b"; "c"], s')
  /\ WOC.keys s' = (Return ["a"; "b"; "c"], s')
  /\ WOC.__contains__ "b" s' = (Return true, s').
Proof.
  intros s'.
  assert (E : WOC.keys listing_state = (Return ["a"; "b"; "c"], s'))
    by reflexivity.
  destruct (@keys_lists_once script_transport listing_state _ s' E)
    as [Hk Hc].
  split; [exact E|]. split; [exact Hk|]. exact (Hc "b").
Defined.

Lemma clear_cache_keeps_wrappers_witness :
  let s := snd (WOC.get_blind "b" (snd (WOC.keys listing_state))) in
  exists s0,
    WOC.clear_cache None s = (Return tt, s0)
    /\ WOC._names_list (WOC.self s0) = None
    /\ WOC.get_blind "b" s0
       = (Return {| obj_id := 0; obj_class := Label; obj_name := "b" |}, s0).
Proof.
  intros s.
  destruct (@clear_cache_keeps_wrappers script_transport s None
              (or_introl eq_refl)) as (s0 & E & Hn & _ & _ & Hget & _).
  exists s0. split; [exact E|]. split; [exact Hn|].
  exact (Hget "b" _ eq_refl).
Defined.

Lemma clear_cache_with_name_rebuilds_witness :
  let s := snd (WOC.get_blind "b" (snd (WOC.keys listing_state))) in
  dict_get "b" (WOC._objects (WOC.self s))
  = Some {| obj_id := 0; obj_class := Label; obj_name := "b" |}
  /\ exists s0 s1,
       WOC.clear_cache (Some "b") s = (Return tt, s0)
       /\ WOC.get_blind "b" s0
          = (Return {| obj_id := 1; obj_class := Label; obj_name := "b" |},
             s1).
Proof.
  intros s. split; [reflexivity|].
  destruct (@clear_cache_with_name_rebuilds script_transport s "b"
              ltac:(discriminate)) as (s0 & E & _ & _ & _ & s1 & Hget & _).
  exists s0, s1. split; [exact E | exact Hget].
Defined.

Lemma items_pair_names_with_cached_wrappers_witness :
  let s' := snd (WOC.items listing_state) in
  let res :=
    [ ("a", {| obj_id := 0; obj_class := Label; obj_name := "a" |});
      ("b", {| obj_id := 1; obj_class := Label; obj_name := "b" |});
      ("c", {| obj_id := 2; obj_class := Label; obj_name := "c" |}) ] in
  WOC.items listing_state = (Return res, s')
  /\ WOC.values s' = (Return (map snd res), s')
  /\ WOC.items s' = (Return res, s').
Proof.
  intros s' res.
  assert (E : WOC.items listing_state = (Return res, s')) by reflexivity.
  destruct (@items_pair_names_with_cached_wrappers script_transport
              listing_state res s' E) as (_ & _ & Hv & Hi).
  split; [exact E|]. split; [exact Hv | exact Hi].
Defined.

Lemma indexed_lookup_is_stable_witness :
  let s' := snd (WOC.__getitem__ "a" listing_state) in
  let o := {| obj_id := 0; obj_class := Label; obj_name := "a" |} in
  WOC.__getitem__ "a" listing_state = (Return o, s')
  /\ WOC.__getitem__ "a" s' = (Return o, s').
Proof.
  intros s' o.
  assert (E : WOC.__getitem__ "a" listing_state = (Return o, s'))
    by reflexivity.
  split; [exact E|].
  exact (@indexed_lookup_is_stable script_transport listing_state "a" o s' E).
Defined.

Lemma clone_properties_survives_a_silent_daemon_witness :
  subclass (ExcModule := std_exc) QubesPropertyAccessError AttributeError
  = true
  /\ forallb (remote_name (PH.source pair_state)) ["netvm"; "label"] = true
  /\ exists p',
       PH.clone_properties (H := std_exc) (Some ["netvm"; "label"]) pair_state
       = (Return tt, p').
Proof.
  split; [reflexivity|]. split; [reflexivity|].
  refine (@clone_properties_survives_a_silent_daemon std_exc down_transport
            eq_refl _ pair_state ["netvm"; "label"]
            eq_refl eq_refl eq_refl eq_refl).
  intros c d. exists (Exn QubesDaemonNoResponseError []), d.
  split; reflexivity.
Defined.

Lemma features_get_defaults_on_key_errors_witness :
  let s := scripted_state false [Raise (Exn KeyError ["gui"])] in
  let c := {| call_dest := "work"; call_method := "admin.vm.feature.Get";
              call_arg := Some "gui"; call_payload := None |} in
  caught_by (H := std_exc) [KeyError] (Exn KeyError ["gui"]) = true
  /\ Features.get (H := std_exc) "work" "gui" (Features.Given VNone) s
     = (Return VNone, after_call c played_out s)
  /\ Features.get (H := std_exc) "work" "gui" Features.NO_DEFAULT s
     = (Raise (Exn KeyError ["gui"]), after_call c played_out s).
Proof.
  intros s c.
  assert (Hc : caught_by (H := std_exc) [KeyError] (Exn KeyError ["gui"])
               = true) by reflexivity.
  destruct (@features_get_defaults_on_key_errors std_exc script_transport
              s "work" "gui" (Exn KeyError ["gui"]) played_out played_out
              eq_refl eq_refl eq_refl) as [Hkey _].
  destruct (Hkey Hc) as (Hgiven & Hno & _).
  split; [exact Hc|]. split; [exact (proj1 (Hgiven VNone)) | exact Hno].
Defined.

Lemma label_lookups_are_memoised_witness :
  let s := label_state [Return "0xff0000"] in
  let s1 := snd (Labels.color (H := std_exc) s) in
  Labels.color (H := std_exc) s = (Return "0xff0000", s1)
  /\ Labels.color (H := std_exc) s1 = (Return "0xff0000", s1).
Proof.
  intros s s1.
  assert (E : Labels.color (H := std_exc) s = (Return "0xff0000", s1))
    by reflexivity.
  split; [exact E|].
  exact (proj1 (@label_lookups_are_memoised std_exc script_transport s s1)
           "0xff0000" E).
Defined.

Lemma label_call_failures_witness :
  let s := label_state [] in
  Labels.color (H := std_exc) s
  = (Raise (Exn QubesPropertyAccessError ["label.color"]),
     label_called (label_color_call s) played_out s)
  /\ Labels.index (H := std_exc) s
     = (Raise (Exn QubesPropertyAccessError ["label.index"]),
        label_called (label_index_call s) played_out s).
Proof.
  intros s.
  destruct (@label_call_failures std_exc script_transport s
              (Exn QubesDaemonNoResponseError []) played_out eq_refl eq_refl)
    as [Hc Hi].
  split; [exact (Hc eq_refl) | exact (Hi eq_refl)].
Defined.


Lemma constructed_volume_is_addressable_witness :
  let a := @new_app script_transport false [Return ""] in
  Vol.__init__ None None (Some "work") (Some "private")
  = Return (vm_volume_of "work" "private")
  /\ Vol._qubesd_call "Resize" (Some "1024")
       {| Vol.self := vm_volume_of "work" "private"; Vol.app := a |}
     = volume_performs
         {| call_dest := "work"; call_method := "admin.vm.volume.Resize";
            call_arg := Some "private"; call_payload := Some "1024" |}
         {| Vol.self := vm_volume_of "work" "private"; Vol.app := a |}.
Proof.
  intros a. split; [reflexivity|].
  exact (@constructed_volume_is_addressable script_transport
           None None (Some "work") (Some "private")
           (vm_volume_of "work" "private") a "Resize" (Some "1024") eq_refl).
Defined.

Lemma fetch_info_reads_the_reply_back_witness :
  let pairs := [("size", "10"); ("rw", "True"); ("size", "20")] in
  let s := volume_state (vm_volume_of "work" "private")
             [Return (info_lines pairs)] in
  let s1 := snd (Vol._qubesd_call "Info" None s) in
  forallb plain_pair pairs = true
  /\ Vol._qubesd_call "Info" None s = (Return (info_lines pairs), s1)
  /\ exists d,
       Vol._fetch_info true s = (Return tt, volume_with_info (Some d) s1)
       /\ dict_get "size" d = Some "20".
Proof.
  intros pairs s s1.
  assert (Hp : forallb plain_pair pairs = true) by reflexivity.
  assert (E : Vol._qubesd_call "Info" None s
              = (Return (info_lines pairs), s1)) by reflexivity.
  split; [exact Hp|]. split; [exact E|].
  destruct (proj1 (@fetch_info_reads_the_reply_back script_transport
                     true s s1 pairs Hp E) (or_introl eq_refl))
    as (d & Ef & Hd).
  exists d. split; [exact Ef | exact (Hd "size")].
Defined.


Lemma lt_orders_vm_volumes_witness :
  let v := vm_volume_of "work" "private" in
  let w := vm_volume_of "work" "root" in
  let u := vm_volume_of "zeta" "private" in
  vm_volume v = true
  /\ Vol.__lt__ v w = Return (Some true)
  /\ Vol.__lt__ w u = Return (Some true)
  /\ Vol.__lt__ v u = Return (Some true)
  /\ Vol.__lt__ w v = Return (Some false).
Proof.
  intros v w u.
  destruct (lt_orders_vm_volumes v w u eq_refl eq_refl eq_refl)
    as (_ & Hasym & Htrans & _).
  split; [reflexivity|]. split; [reflexivity|]. split; [reflexivity|].
  split; [exact (Htrans eq_refl eq_refl) | exact (Hasym eq_refl)].
Defined.

Lemma pool_config_is_kept_until_set_witness :
  let s := pool_state [Return (info_lines [("driver", "lvm_thin")]);
                       Return ""] in
  let s1 := snd (Pools.config (H := std_exc) s) in
  Pools.config (H := std_exc) s = (Return [("driver", "lvm_thin")], s1)
  /\ Pools.config (H := std_exc) s1 = (Return [("driver", "lvm_thin")], s1)
  /\ Pools._config
       (Pools.self (snd (Pools.set_revisions_to_keep (VInt 2) s1)))
     = None.
Proof.
  intros s s1.
  assert (E : Pools.config (H := std_exc) s
              = (Return [("driver", "lvm_thin")], s1)) by reflexivity.
  split; [exact E|]. split.
  - exact (proj1 (@pool_config_is_kept_until_set std_exc script_transport s)
             _ s1 E).
  - refine (proj1 (proj2 (@pool_config_is_kept_until_set std_exc
                            script_transport s1))
              (VInt 2) _ (or_introl _)).
    reflexivity.
Defined.

Lemma pool_config_reads_the_reply_back_witness :
  let pairs := [("driver", "lvm_thin"); ("revisions_to_keep", "2")] in
  let s := pool_state [Return (info_lines pairs)] in
  let s1 := pool_called (pool_call s "admin.pool.Info" None) played_out s in
  forallb plain_pair pairs = true
  /\ exists cfg,
       Pools.config (H := std_exc) s
       = (Return cfg, pool_with_config (Some cfg) s1)
       /\ dict_get "driver" cfg = Some "lvm_thin".
Proof.
  intros pairs s s1.
  assert (Hp : forallb plain_pair pairs = true) by reflexivity.
  split; [exact Hp|].
  destruct (@pool_config_reads_the_reply_back std_exc script_transport
              s played_out pairs eq_refl Hp eq_refl) as (cfg & E & Hd).
  exists cfg. split; [exact E | exact (Hd "driver")].
Defined.

Lemma pool_ephemeral_volatile_is_true_for_any_text_witness :
  let pairs := [("driver", "lvm_thin"); ("ephemeral_volatile", "False")] in
  let s := pool_state [Return (info_lines pairs)] in
  last_value "ephemeral_volatile" pairs = Some "False"
  /\ exists s1, Pools.ephemeral_volatile (H := std_exc) s = (Return true, s1).
Proof.
  intros pairs s. split; [reflexivity|].
  refine (@pool_ephemeral_volatile_is_true_for_any_text std_exc
            script_transport s played_out pairs "False"
            eq_refl eq_refl eq_refl eq_refl _).
  discriminate.
Defined.


Lemma pool_volumes_are_listed_but_not_ordered_witness :
  let vids := ["vm-work-private"; "vm-work-root"] in
  let s := pool_state [Return (name_lines vids)] in
  let s1 := pool_called (pool_call s "admin.pool.volume.List" None) played_out s in
  forallb plain_name vids = true
  /\ Pools.volumes (H := std_exc) s
     = (Return [pool_volume "lvm" "vm-work-private";
                pool_volume "lvm" "vm-work-root"], s1)
  /\ Vol.__lt__ (pool_volume "lvm" "vm-work-private")
       (pool_volume "lvm" "vm-work-root")
     = Raise (Exn AssertionError []).
Proof.
  intros vids s s1.
  assert (Hp : forallb plain_name vids = true) by reflexivity.
  destruct (@pool_volumes_are_listed_but_not_ordered std_exc
              script_transport s played_out "lvm" vids eq_refl Hp eq_refl)
    as [E Hlt].
  split; [exact Hp|]. split; [exact E|].
  apply Hlt; [left; reflexivity | right; left; reflexivity].
Defined.

Lemma qubesd_call_redirects_dispvm_destinations_witness :
  let s := dispvm_state (Some "disp-default") [Return "ok"] in
  let t := dispvm_state None [Return "ok"] in
  let c d := {| call_dest := d; call_method := "admin.vm.Start";
                call_arg := None; call_payload := None |} in
  PH._redirect_dispvm_calls (PH.self s) = true
  /\ PH.qubesd_call (Some "@dispvm:web") "admin.vm.Start" None None s
     = holder_performs (c "web") s
  /\ PH.qubesd_call (Some "@dispvm") "admin.vm.Start" None None s
     = holder_performs (c "disp-default") s
  /\ PH.qubesd_call (Some "@dispvm") "admin.vm.Start" None None t
     = (Raise (Exn AssertionError []), t).
Proof.
  intros s t c.
  destruct (@qubesd_call_redirects_dispvm_destinations script_transport
              s "web" "admin.vm.Start" None None eq_refl)
    as (_ & Hnamed & _).
  destruct (@qubesd_call_redirects_dispvm_destinations script_transport
              s "@dispvm" "admin.vm.Start" None None eq_refl)
    as (_ & _ & Hdefault & _).
  destruct (@qubesd_call_redirects_dispvm_destinations script_transport
              t "@dispvm" "admin.vm.Start" None None eq_refl)
    as (_ & _ & Hunset & _).
  split; [reflexivity|]. split; [exact Hnamed|].
  split; [exact (Hdefault eq_refl eq_refl) | exact (Hunset eq_refl eq_refl)].
Defined.

End MoreWitnesses.
